(** * Expense tracker back end: access control, status workflow and audit trail

    A shallow embedding of the Express route handlers of the expense tracker
    (routes/expenses.js, routes/auth.js, routes/users.js, routes/audit.js and
    middleware/validation.js) over an explicit model of the three Prisma
    tables, followed by the properties of the specification that concern
    row-level filtering, the expense status workflow, the audit trail and
    the user administration endpoints. *)

From Stdlib Require Import List String Ascii Bool ZArith Lia PeanoNat.
From Stdlib Require Import PrimFloat DecimalString.
Import ListNotations.

Local Open Scope string_scope.
Local Open Scope list_scope.

(** Template strings are concatenations. *)
Local Infix "+++" := String.append (at level 60, right associativity).

Set Implicit Arguments.

(* ===================================================================== *)
(** ** Data model *)
(* ===================================================================== *)

(** Primary keys are the opaque strings Prisma generates. *)
Definition Id := string.

Inductive Role := EMPLOYEE | ADMIN.

Inductive ExpenseStatus := PENDING | APPROVED | REJECTED.

Inductive ExpenseCategory :=
  TRAVEL | FOOD | EQUIPMENT | OFFICE_SUPPLIES | SOFTWARE | TRAINING | OTHER.

Definition Role_eqb (a b : Role) : bool :=
  match a, b with
  | EMPLOYEE, EMPLOYEE | ADMIN, ADMIN => true
  | _, _ => false
  end.

Definition ExpenseStatus_eqb (a b : ExpenseStatus) : bool :=
  match a, b with
  | PENDING, PENDING | APPROVED, APPROVED | REJECTED, REJECTED => true
  | _, _ => false
  end.

Definition ExpenseCategory_eqb (a b : ExpenseCategory) : bool :=
  match a, b with
  | TRAVEL, TRAVEL | FOOD, FOOD | EQUIPMENT, EQUIPMENT
  | OFFICE_SUPPLIES, OFFICE_SUPPLIES | SOFTWARE, SOFTWARE
  | TRAINING, TRAINING | OTHER, OTHER => true
  | _, _ => false
  end.

Definition Role_toString (r : Role) : string :=
  match r with EMPLOYEE => "EMPLOYEE" | ADMIN => "ADMIN" end.

Definition ExpenseStatus_toString (s : ExpenseStatus) : string :=
  match s with
  | PENDING => "PENDING" | APPROVED => "APPROVED" | REJECTED => "REJECTED"
  end.

Definition ExpenseCategory_toString (c : ExpenseCategory) : string :=
  match c with
  | TRAVEL => "TRAVEL" | FOOD => "FOOD" | EQUIPMENT => "EQUIPMENT"
  | OFFICE_SUPPLIES => "OFFICE_SUPPLIES" | SOFTWARE => "SOFTWARE"
  | TRAINING => "TRAINING" | OTHER => "OTHER"
  end.

(** [z.enum([...])]: the string must be one of the listed names. *)
Definition parseRole (s : string) : option Role :=
  if s =? "EMPLOYEE" then Some EMPLOYEE
  else if s =? "ADMIN" then Some ADMIN
  else None.

Definition parseExpenseStatus (s : string) : option ExpenseStatus :=
  if s =? "PENDING" then Some PENDING
  else if s =? "APPROVED" then Some APPROVED
  else if s =? "REJECTED" then Some REJECTED
  else None.

Definition parseExpenseCategory (s : string) : option ExpenseCategory :=
  if s =? "TRAVEL" then Some TRAVEL
  else if s =? "FOOD" then Some FOOD
  else if s =? "EQUIPMENT" then Some EQUIPMENT
  else if s =? "OFFICE_SUPPLIES" then Some OFFICE_SUPPLIES
  else if s =? "SOFTWARE" then Some SOFTWARE
  else if s =? "TRAINING" then Some TRAINING
  else if s =? "OTHER" then Some OTHER
  else None.

(** Rows of the three tables.  The columns are those the handlers read or
    write; [createdAt] is kept where a query orders by it. *)
Module User.
Record t := mk {
  id : Id;
  email : string;
  password : string;      (* bcrypt hash, never the plaintext *)
  name : string;
  role : Role;
  createdAt : Z
}.
End User.

Module Expense.
Record t := mk {
  id : Id;
  amount : float;
  category : ExpenseCategory;
  date : Z;
  notes : option string;
  status : ExpenseStatus;
  rejectionReason : option string;
  receiptUrl : option string;
  userId : Id;
  createdAt : Z
}.
End Expense.

Module AuditLog.
Record t := mk {
  id : Id;
  action : string;
  description : string;
  timestamp : Z;
  userId : Id
}.
End AuditLog.

(** The projection of a user that [select: { id, name, email }] and
    [req.user] carry: no password hash. *)
Module AuthUser.
Record t := mk {
  id : Id;
  email : string;
  name : string;
  role : Role
}.
End AuthUser.

Definition AuthUser_of (u : User.t) : AuthUser.t :=
  AuthUser.mk (User.id u) (User.email u) (User.name u) (User.role u).

(** The database: three tables and the number of keys issued so far. *)
Record Db := mkDb {
  users : list User.t;
  expenses : list Expense.t;
  auditLogs : list AuditLog.t;
  issued : nat
}.

(* ===================================================================== *)
(** ** Library functions the handlers call *)
(* ===================================================================== *)

(** JavaScript built-ins and npm packages (zod's string checks, bcryptjs,
    jsonwebtoken, Prisma's key generator) are an interface of the
    development; every theorem holds for any implementation of it. *)
Class Platform := {
  parseFloat : string -> float;
  numberToString : float -> string;
  parseInt : string -> option Z;            (* [None] is NaN *)
  isEmail : string -> bool;                 (* z.string().email() *)
  isDatetime : string -> bool;              (* z.string().datetime() *)
  newDate : string -> option Z;             (* new Date(s); [None] is Invalid Date *)
  jsLength : string -> nat;                 (* s.length, in UTF-16 units *)
  zodMessage : list string -> string;       (* ZodError.message *)
  (** skip and take that [(page - 1) * limit] and [parseInt(limit)] give on
      raw query strings, [None] when Prisma rejects them *)
  rawWindow : option string -> option string -> option (Z * Z);
  bcryptHash : string -> string;
  bcryptCompare : string -> string -> bool;
  jwtSign : Z -> Id -> string -> Role -> string;   (* issued at that time *)
  jwtVerify : Z -> string -> option Id;     (* payload.userId when valid at that time *)
  cuid : nat -> Id;
  containsInsensitive : string -> string -> bool;
  (** Modelled from the spec: middleware/auth.js is not among the sources,
      and the specification leaves open whether an administrator may create
      expenses; the roles [requireEmployee] lets through are a parameter. *)
  requireEmployeeRole : Role -> bool;
  (** Modelled from the spec: prisma/schema.prisma is not among the sources.
      Section 3 makes category and status enumerations, DOCUMENTATION.md
      declares both columns TEXT; whether the store rejects a query whose
      where clause names a value outside the enumeration, or runs it and
      finds no such row, is a parameter. *)
  unknownNameRejected : bool
}.

(* ===================================================================== *)
(** ** Handler computations: state that survives exceptions *)
(* ===================================================================== *)

(** The Prisma calls a handler makes, by table and direction; [faults]
    tells which of them reject (connection loss, constraint failure, ...). *)
Inductive DbOp :=
  UserRead | UserWrite | ExpenseRead | ExpenseWrite | AuditRead | AuditWrite.

Record Env := mkEnv {
  now : Z;                  (* server clock when the request is handled *)
  faults : DbOp -> bool
}.

Inductive Outcome (A : Type) :=
| Ok (a : A)
| Throw (e : string).

Arguments Ok {A} a.
Arguments Throw {A} e.

(** No handler opens a transaction: what was written before an exception
    stays written, so the database is threaded through both outcomes. *)
Definition M (A : Type) := Env -> Db -> Outcome A * Db.

Definition ret {A} (a : A) : M A := fun _ db => (Ok a, db).

Definition bind {A B} (m : M A) (k : A -> M B) : M B :=
  fun env db =>
    match m env db with
    | (Ok a, db') => k a env db'
    | (Throw e, db') => (Throw e, db')
    end.

Definition throw {A} (e : string) : M A := fun _ db => (Throw e, db).

Definition clock : M Z := fun env db => (Ok (now env), db).

(** One awaited Prisma call: rejects when the environment says so,
    otherwise runs [f] on the tables. *)
Definition prisma {A} (op : DbOp) (f : Db -> Outcome A * Db) : M A :=
  fun env db => if faults env op then (Throw "PrismaClientError", db) else f db.

Declare Scope handler_scope.
Delimit Scope handler_scope with handler.
Notation "x <- m ;; k" := (bind m (fun x => k))
  (at level 61, m at next level, right associativity) : handler_scope.
Notation "m ;;; k" := (bind m (fun _ => k))
  (at level 61, right associativity) : handler_scope.
Local Open Scope handler_scope.

(* ===================================================================== *)
(** ** The Prisma client *)
(* ===================================================================== *)

Definition findBy {A} (p : A -> bool) (l : list A) : option A := List.find p l.

(** Stable insertion sort, largest key first ([orderBy: { k: 'desc' }]). *)
Fixpoint insertDesc {A} (key : A -> Z) (x : A) (l : list A) : list A :=
  match l with
  | [] => [x]
  | y :: l' => if (key x <? key y)%Z then y :: insertDesc key x l' else x :: l
  end.

Definition sortDesc {A} (key : A -> Z) (l : list A) : list A :=
  fold_right (insertDesc key) [] l.

Definition paginate {A} (skip take : Z) (l : list A) : list A :=
  firstn (Z.to_nat take) (skipn (Z.to_nat skip) l).

Definition optMatches {A} (eqb : A -> A -> bool) (w : option A) (v : A) : bool :=
  match w with Some x => eqb x v | None => true end.

Definition geMatches (w : option Z) (v : Z) : bool :=
  match w with Some lo => (lo <=? v)%Z | None => true end.

Definition leMatches (w : option Z) (v : Z) : bool :=
  match w with Some hi => (v <=? hi)%Z | None => true end.

(** [where] objects of the expense queries. *)
Module ExpenseWhere.
Record t := mk {
  userId : option Id;
  category : option ExpenseCategory;
  status : option ExpenseStatus;
  date_gte : option Z;
  date_lte : option Z
}.
Definition empty : t := mk None None None None None.
End ExpenseWhere.

Definition expenseMatches (w : ExpenseWhere.t) (e : Expense.t) : bool :=
  optMatches String.eqb (ExpenseWhere.userId w) (Expense.userId e)
  && optMatches ExpenseCategory_eqb (ExpenseWhere.category w) (Expense.category e)
  && optMatches ExpenseStatus_eqb (ExpenseWhere.status w) (Expense.status e)
  && geMatches (ExpenseWhere.date_gte w) (Expense.date e)
  && leMatches (ExpenseWhere.date_lte w) (Expense.date e).

(** The [where] object of the CSV export carries the query strings as they
    were sent: a row passes when its category and its status have those
    names. *)
Module ExportWhere.
Record t := mk {
  category : option string;
  status : option string;
  date_gte : option Z;
  date_lte : option Z
}.
End ExportWhere.

Definition exportMatches (w : ExportWhere.t) (e : Expense.t) : bool :=
  optMatches String.eqb (ExportWhere.category w)
             (ExpenseCategory_toString (Expense.category e))
  && optMatches String.eqb (ExportWhere.status w)
                (ExpenseStatus_toString (Expense.status e))
  && geMatches (ExportWhere.date_gte w) (Expense.date e)
  && leMatches (ExportWhere.date_lte w) (Expense.date e).

(** [include: { user: { select: { id, name, email } } }] *)
Definition includeUser (db : Db) (e : Expense.t)
  : Expense.t * option AuthUser.t :=
  (e, option_map AuthUser_of
        (findBy (fun u => User.id u =? Expense.userId e) (users db))).

Module prisma_user.
Definition findUnique_email (email : string) : M (option User.t) :=
  prisma UserRead (fun db =>
    (Ok (findBy (fun u => User.email u =? email) (users db)), db)).

Definition findUnique_id (id : Id) : M (option User.t) :=
  prisma UserRead (fun db =>
    (Ok (findBy (fun u => User.id u =? id) (users db)), db)).

(** [email] carries a unique index. *)
Definition create {P : Platform} (email password name : string) (role : Role)
  : M User.t :=
  fun env => prisma UserWrite (fun db =>
    if existsb (fun u => User.email u =? email) (users db)
    then (Throw "P2002", db)
    else
      let u := User.mk (cuid (issued db)) email password name role (now env) in
      (Ok u, mkDb (users db ++ [u]) (expenses db) (auditLogs db)
                  (S (issued db)))) env.

Record data := mkData {
  email : string;
  name : string;
  role : Role;
  password : option string      (* absent: column untouched *)
}.

Definition apply (d : data) (u : User.t) : User.t :=
  User.mk (User.id u) (email d)
          (match password d with Some h => h | None => User.password u end)
          (name d) (role d) (User.createdAt u).

Definition update (id : Id) (d : data) : M User.t :=
  prisma UserWrite (fun db =>
    match findBy (fun u => User.id u =? id) (users db) with
    | None => (Throw "P2025", db)
    | Some u0 =>
        if existsb (fun u => (User.email u =? email d)
                             && negb (User.id u =? id)) (users db)
        then (Throw "P2002", db)
        else
          (Ok (apply d u0),
           mkDb (map (fun u => if User.id u =? id then apply d u else u)
                     (users db))
                (expenses db) (auditLogs db) (issued db))
    end).

(** Expenses and audit entries reference their user with
    [ON DELETE CASCADE]: they go with the row. *)
Definition delete (id : Id) : M unit :=
  prisma UserWrite (fun db =>
    match findBy (fun u => User.id u =? id) (users db) with
    | None => (Throw "P2025", db)
    | Some _ =>
        (Ok tt,
         mkDb (filter (fun u => negb (User.id u =? id)) (users db))
              (filter (fun e => negb (Expense.userId e =? id)) (expenses db))
              (filter (fun a => negb (AuditLog.userId a =? id)) (auditLogs db))
              (issued db))
    end).

(** [where.OR = [{ name contains }, { email contains }]], newest first. *)
Definition searchMatches {P : Platform} (search : option string) (u : User.t)
  : bool :=
  match search with
  | None => true
  | Some s => containsInsensitive (User.name u) s
              || containsInsensitive (User.email u) s
  end.

(** [select: { ..., _count: { select: { expenses: true } } }] *)
Definition withExpenseCount (db : Db) (u : User.t) : AuthUser.t * nat :=
  (AuthUser_of u,
   List.length (filter (fun e => Expense.userId e =? User.id u) (expenses db))).

Definition findMany {P : Platform} (search : option string) (skip take : Z)
  : M (list (AuthUser.t * nat)) :=
  prisma UserRead (fun db =>
    (Ok (map (withExpenseCount db)
           (paginate skip take
              (sortDesc User.createdAt
                 (filter (searchMatches search) (users db))))),
     db)).

Definition findUnique_counted (id : Id) : M (option (AuthUser.t * nat)) :=
  prisma UserRead (fun db =>
    (Ok (option_map (withExpenseCount db)
           (findBy (fun u => User.id u =? id) (users db))), db)).

Definition count {P : Platform} (search : option string) : M nat :=
  prisma UserRead (fun db =>
    (Ok (List.length (filter (searchMatches search) (users db))), db)).
End prisma_user.

Module prisma_expense.
Definition findUnique (id : Id) : M (option (Expense.t * option AuthUser.t)) :=
  prisma ExpenseRead (fun db =>
    (Ok (option_map (includeUser db)
           (findBy (fun e => Expense.id e =? id) (expenses db))), db)).

(** [orderBy: { createdAt: 'desc' }, skip, take] *)
Definition findMany (w : ExpenseWhere.t) (skip take : Z)
  : M (list (Expense.t * option AuthUser.t)) :=
  prisma ExpenseRead (fun db =>
    (Ok (map (includeUser db)
           (paginate skip take
              (sortDesc Expense.createdAt
                 (filter (expenseMatches w) (expenses db))))), db)).

(** [orderBy: { date: 'desc' }], every matching row (CSV export). *)
Definition findAll (w : ExportWhere.t)
  : M (list (Expense.t * option AuthUser.t)) :=
  prisma ExpenseRead (fun db =>
    (Ok (map (includeUser db)
           (sortDesc Expense.date (filter (exportMatches w) (expenses db)))),
     db)).

Definition count (w : ExpenseWhere.t) : M nat :=
  prisma ExpenseRead (fun db =>
    (Ok (List.length (filter (expenseMatches w) (expenses db))), db)).

(** The columns the handler does not pass take their defaults:
    [status] is PENDING and [rejectionReason] is null. *)
Definition create {P : Platform} (amount : float) (category : ExpenseCategory)
    (date : Z) (notes receiptUrl : option string) (userId : Id)
  : M (Expense.t * option AuthUser.t) :=
  fun env => prisma ExpenseWrite (fun db =>
    let e := Expense.mk (cuid (issued db)) amount category date notes
                        PENDING None receiptUrl userId (now env) in
    let db' := mkDb (users db) (expenses db ++ [e]) (auditLogs db)
                    (S (issued db)) in
    (Ok (includeUser db' e), db')) env.

(** An update names the columns it writes; the others keep their value. *)
Record data := mkData {
  amount : option float;
  category : option ExpenseCategory;
  date : option Z;
  notes : option string;
  status : option ExpenseStatus;
  rejectionReason : option string;
  receiptUrl : option string
}.

Definition orKeep {A} (o : option A) (old : A) : A :=
  match o with Some v => v | None => old end.

Definition orKeepOpt {A} (o : option A) (old : option A) : option A :=
  match o with Some v => Some v | None => old end.

Definition apply (d : data) (e : Expense.t) : Expense.t :=
  Expense.mk (Expense.id e)
    (orKeep (amount d) (Expense.amount e))
    (orKeep (category d) (Expense.category e))
    (orKeep (date d) (Expense.date e))
    (orKeepOpt (notes d) (Expense.notes e))
    (orKeep (status d) (Expense.status e))
    (orKeepOpt (rejectionReason d) (Expense.rejectionReason e))
    (orKeepOpt (receiptUrl d) (Expense.receiptUrl e))
    (Expense.userId e)
    (Expense.createdAt e).

Definition update (id : Id) (d : data)
  : M (Expense.t * option AuthUser.t) :=
  prisma ExpenseWrite (fun db =>
    match findBy (fun e => Expense.id e =? id) (expenses db) with
    | None => (Throw "P2025", db)
    | Some e0 =>
        let db' := mkDb (users db)
                        (map (fun e => if Expense.id e =? id then apply d e
                                       else e) (expenses db))
                        (auditLogs db) (issued db) in
        (Ok (includeUser db' (apply d e0)), db')
    end).
End prisma_expense.

Module AuditWhere.
Record t := mk {
  action : option string;
  userId : option Id;
  timestamp_gte : option Z;
  timestamp_lte : option Z
}.
End AuditWhere.

Definition auditMatches (w : AuditWhere.t) (a : AuditLog.t) : bool :=
  optMatches String.eqb (AuditWhere.action w) (AuditLog.action a)
  && optMatches String.eqb (AuditWhere.userId w) (AuditLog.userId a)
  && geMatches (AuditWhere.timestamp_gte w) (AuditLog.timestamp a)
  && leMatches (AuditWhere.timestamp_lte w) (AuditLog.timestamp a).

Definition includeActor (db : Db) (a : AuditLog.t)
  : AuditLog.t * option AuthUser.t :=
  (a, option_map AuthUser_of
        (findBy (fun u => User.id u =? AuditLog.userId a) (users db))).

Module prisma_auditLog.
(** The only write any handler makes to the audit table. *)
Definition create {P : Platform} (action description : string) (userId : Id)
  : M AuditLog.t :=
  fun env => prisma AuditWrite (fun db =>
    let a := AuditLog.mk (cuid (issued db)) action description (now env)
                         userId in
    (Ok a, mkDb (users db) (expenses db) (auditLogs db ++ [a])
                (S (issued db)))) env.

Definition findMany (w : AuditWhere.t) (skip take : Z)
  : M (list (AuditLog.t * option AuthUser.t)) :=
  prisma AuditRead (fun db =>
    (Ok (map (includeActor db)
           (paginate skip take
              (sortDesc AuditLog.timestamp
                 (filter (auditMatches w) (auditLogs db))))), db)).

Definition findAll (w : AuditWhere.t)
  : M (list (AuditLog.t * option AuthUser.t)) :=
  prisma AuditRead (fun db =>
    (Ok (map (includeActor db)
           (sortDesc AuditLog.timestamp
              (filter (auditMatches w) (auditLogs db)))), db)).

Definition count (w : AuditWhere.t) : M nat :=
  prisma AuditRead (fun db =>
    (Ok (List.length (filter (auditMatches w) (auditLogs db))), db)).
End prisma_auditLog.

(* ===================================================================== *)
(** ** HTTP responses *)
(* ===================================================================== *)

Record Pagination := mkPagination {
  page : Z;
  limit : Z;
  total : nat;
  pages : Z
}.

(** The JSON documents (and CSV attachments) the handlers send.  CSV rows
    are kept as the selected records; their rendering as text is not part
    of the model. *)
Inductive Body :=
| ErrorJson (error message : string)
| ValidationJson (details : list string)      (* failing field paths *)
| MessageJson (message : string)
| ExpensesJson (expenses : list (Expense.t * option AuthUser.t))
               (pagination : Pagination)
| ExpenseJson (message : option string) (expense : Expense.t * option AuthUser.t)
| UsersJson (users : list (AuthUser.t * nat)) (total : nat)
| UserJson (message : option string) (user : AuthUser.t)
| UserCountJson (user : AuthUser.t) (expenseCount : nat)
| LoginJson (message : string) (user : AuthUser.t) (token : string)
| LogsJson (logs : list (AuditLog.t * option AuthUser.t)) (total : nat)
| ExpensesCsv (rows : list (Expense.t * option AuthUser.t))
| LogsCsv (rows : list (AuditLog.t * option AuthUser.t)).

Record Response := mkResponse {
  statusCode : nat;
  body : Body
}.

Definition json (code : nat) (b : Body) : Response := mkResponse code b.

(** A response in the 2xx range. *)
Definition succeeded (r : Response) : bool :=
  (200 <=? statusCode r)%nat && (statusCode r <? 300)%nat.

(* ===================================================================== *)
(** ** middleware/validation.js *)
(* ===================================================================== *)

(** What [schema.parse] does with the union of body, query string and
    route parameters: it returns the parsed fields, raises a [ZodError]
    listing the failing paths, or lets through whatever a [transform]
    callback throws. *)
Inductive Validated (A : Type) :=
| Valid (a : A)
| ZodError (details : list string)
| Raised (message : string).

Arguments Valid {A} a.
Arguments ZodError {A} details.
Arguments Raised {A} message.

(** A request field is [None] when the key is absent. *)
Definition issue (path : string) (ok : bool) : list string :=
  if ok then [] else [path].

Definition required (f : string -> bool) (v : option string) : bool :=
  match v with Some s => f s | None => false end.

Definition optional (f : string -> bool) (v : option string) : bool :=
  match v with Some s => f s | None => true end.

Definition isSome {A} (o : option A) : bool :=
  match o with Some _ => true | None => false end.

Definition nonEmpty (s : string) : bool := negb (s =? "").

(** 0.01 is not a binary64 value; JavaScript and this literal both denote
    the nearest one. *)
Definition minAmount : float := 0x1.47ae147ae147bp-7%float.
Definition maxAmount : float := 100000%float.

(** The [transform] of the [amount] field. *)
Definition amountTransform {P : Platform} (val : string) : Outcome float :=
  let num := parseFloat val in
  if PrimFloat.is_nan num || (num <=? 0)%float
  then Throw "Amount must be a positive number"
  else if (num <? minAmount)%float
  then Throw "Amount must be at least ₹0.01"
  else if (maxAmount <? num)%float
  then Throw "Amount cannot exceed ₹100,000"
  else Ok num.

Module ExpenseInput.
(** Fields of the multipart form, as sent. *)
Record t := mk {
  amount : option string;
  category : option string;
  date : option string;
  notes : option string
}.
End ExpenseInput.

Module ExpenseFields.
(** Fields after [expenseSchema.parse]. *)
Record t := mk {
  amount : float;
  category : ExpenseCategory;
  date : string;
  notes : option string
}.
End ExpenseFields.

Definition expenseSchema {P : Platform} (i : ExpenseInput.t)
  : Validated ExpenseFields.t :=
  let rest :=
    issue "category"
      (required (fun s => isSome (parseExpenseCategory s)) (ExpenseInput.category i))
    ++ issue "date" (required isDatetime (ExpenseInput.date i)) in
  match ExpenseInput.amount i with
  | None => ZodError ("amount" :: rest)
  | Some val =>
      match amountTransform val with
      | Throw msg => Raised msg
      | Ok num =>
          match ExpenseInput.category i, ExpenseInput.date i with
          | Some c, Some d =>
              match parseExpenseCategory c, isDatetime d with
              | Some cat, true =>
                  Valid (ExpenseFields.mk num cat d (ExpenseInput.notes i))
              | _, _ => ZodError rest
              end
          | _, _ => ZodError rest
          end
      end
  end.

Definition loginSchema {P : Platform} (email password : option string)
  : Validated (string * string) :=
  match email, password with
  | Some e, Some p =>
      if isEmail e && nonEmpty p then Valid (e, p)
      else ZodError (issue "email" (isEmail e) ++ issue "password" (nonEmpty p))
  | _, _ =>
      ZodError (issue "email" (required isEmail email)
                ++ issue "password" (required nonEmpty password))
  end.

Module FilterInput.
Record t := mk {
  category : option string;
  status : option string;
  startDate : option string;
  endDate : option string;
  page : option string;
  limit : option string
}.
End FilterInput.

Module Filter.
Record t := mk {
  category : option ExpenseCategory;
  status : option ExpenseStatus;
  startDate : option string;
  endDate : option string;
  page : option Z;
  limit : option Z
}.
End Filter.

Definition parseOpt {A} (f : string -> option A) (v : option string) : option A :=
  match v with Some s => f s | None => None end.

(** [z.string().transform(parseInt).pipe(z.number().min(lo).max(hi))] *)
Definition intBetween {P : Platform} (lo : Z) (hi : option Z) (s : string) : bool :=
  match parseInt s with
  | Some n => (lo <=? n)%Z && match hi with Some h => (n <=? h)%Z | None => true end
  | None => false
  end.

Definition expenseFilterSchema {P : Platform} (i : FilterInput.t)
  : Validated Filter.t :=
  let issues :=
    issue "category"
      (optional (fun s => isSome (parseExpenseCategory s)) (FilterInput.category i))
    ++ issue "status"
      (optional (fun s => isSome (parseExpenseStatus s)) (FilterInput.status i))
    ++ issue "startDate" (optional isDatetime (FilterInput.startDate i))
    ++ issue "endDate" (optional isDatetime (FilterInput.endDate i))
    ++ issue "page" (optional (intBetween 1 None) (FilterInput.page i))
    ++ issue "limit" (optional (intBetween 1 (Some 100%Z)) (FilterInput.limit i)) in
  match issues with
  | [] =>
      Valid (Filter.mk
               (parseOpt parseExpenseCategory (FilterInput.category i))
               (parseOpt parseExpenseStatus (FilterInput.status i))
               (FilterInput.startDate i)
               (FilterInput.endDate i)
               (parseOpt parseInt (FilterInput.page i))
               (parseOpt parseInt (FilterInput.limit i)))
  | _ => ZodError issues
  end.

Module UserInput.
Record t := mk {
  email : option string;
  password : option string;
  name : option string;
  role : option string
}.
End UserInput.

Module UserFields.
Record t := mk {
  email : string;
  password : string;
  name : string;
  role : Role
}.
End UserFields.

Module UserUpdateFields.
Record t := mk {
  email : option string;
  password : option string;
  name : option string;
  role : option Role
}.
End UserUpdateFields.

Definition passwordOk {P : Platform} (s : string) : bool := (6 <=? jsLength s)%nat.

Definition nameOk {P : Platform} (s : string) : bool :=
  (1 <=? jsLength s)%nat && (jsLength s <=? 100)%nat.

Definition roleOk (s : string) : bool := isSome (parseRole s).

Definition userSchema {P : Platform} (i : UserInput.t) : Validated UserFields.t :=
  let issues :=
    issue "email" (required isEmail (UserInput.email i))
    ++ issue "password" (required passwordOk (UserInput.password i))
    ++ issue "name" (required nameOk (UserInput.name i))
    ++ issue "role" (optional roleOk (UserInput.role i)) in
  match issues, UserInput.email i, UserInput.password i, UserInput.name i with
  | [], Some e, Some p, Some n =>
      Valid (UserFields.mk e p n
               (match parseOpt parseRole (UserInput.role i) with
                | Some r => r
                | None => EMPLOYEE        (* .default('EMPLOYEE') *)
                end))
  | _, _, _, _ => ZodError issues
  end.

Definition userUpdateSchema {P : Platform} (i : UserInput.t)
  : Validated UserUpdateFields.t :=
  let issues :=
    issue "email" (optional isEmail (UserInput.email i))
    ++ issue "password" (optional passwordOk (UserInput.password i))
    ++ issue "name" (optional nameOk (UserInput.name i))
    ++ issue "role" (optional roleOk (UserInput.role i)) in
  match issues with
  | [] =>
      Valid (UserUpdateFields.mk (UserInput.email i) (UserInput.password i)
               (UserInput.name i) (parseOpt parseRole (UserInput.role i)))
  | _ => ZodError issues
  end.

(** The [validate] factory: continue with the parsed data, answer 400 on a
    [ZodError], hand anything else to the error handler. *)
Definition validate {A} (parsed : Validated A) (next : A -> M Response)
  : M Response :=
  match parsed with
  | Valid a => next a
  | ZodError details => ret (json 400 (ValidationJson details))
  | Raised message => throw message
  end.

(* ===================================================================== *)
(** ** Middleware *)
(* ===================================================================== *)

(** [try { ... } catch (error) { res.status(500).json(...) }] around a
    handler body: the tables stay as the exception left them. *)
Definition tryCatch (m : M Response) (onError : Response) : M Response :=
  fun env db =>
    match m env db with
    | (Ok r, db') => (Ok r, db')
    | (Throw _, db') => (Ok onError, db')
    end.

(** [res.send(r)] followed by more awaited work: [r] is on the wire, so
    neither an exception from [m] nor the [catch] block's own
    [res.status(500).json] replaces it. *)
Definition sendThen (r : Response) (m : M unit) : M Response :=
  fun env db => let '(_, db') := m env db in (Ok r, db').

Definition unauthenticated : Response :=
  json 401 (ErrorJson "Unauthenticated" "Authentication required").

Definition forbidden : Response :=
  json 403 (ErrorJson "Forbidden" "Insufficient permissions").

(** Modelled from the spec: middleware/auth.js is not among the sources.
    Section 4.2: a missing or malformed bearer token, a bad signature or an
    expired token fail with Unauthenticated; the embedded user id is resolved
    against the user table and the resolved identity and role are attached to
    the request ([select: { id, email, name, role }] in test-auth.js). *)
Definition authenticateToken {P : Platform} (authorization : option string)
    (next : AuthUser.t -> M Response) : M Response :=
  match authorization with
  | None => ret unauthenticated
  | Some token =>
      t <- clock ;;
      match jwtVerify t token with
      | None => ret unauthenticated
      | Some userId =>
          found <- prisma_user.findUnique_id userId ;;
          match found with
          | None => ret unauthenticated
          | Some u => next (AuthUser_of u)
          end
      end
  end.

(** Modelled from the spec: middleware/auth.js is not among the sources.
    Section 4.2: a per-route guard that fails with Forbidden on
    insufficient role. *)
Definition requireAdmin (user : AuthUser.t) (next : M Response) : M Response :=
  if Role_eqb (AuthUser.role user) ADMIN then next else ret forbidden.

(** Modelled from the spec: middleware/auth.js is not among the sources;
    same guard, for the roles [requireEmployeeRole] admits. *)
Definition requireEmployee {P : Platform} (user : AuthUser.t) (next : M Response)
  : M Response :=
  if requireEmployeeRole (AuthUser.role user) then next else ret forbidden.

(** What multer's [upload.single('receipt')] leaves in [req.file]: nothing,
    a stored file, or an error passed to [next] (size limit, file filter). *)
Inductive Upload :=
| NoFile
| Stored (filename : string)
| Refused (message : string).

Definition upload_single (f : Upload) (next : option string -> M Response)
  : M Response :=
  match f with
  | NoFile => next None
  | Stored filename => next (Some filename)
  | Refused message => throw message
  end.

(** Modelled from the spec: middleware/errorHandler.js is not among the
    sources.  Section 7: exceptions that reach the top-level handler are
    answered with a generic message. *)
Definition errorHandler : Response :=
  json 500 (ErrorJson "Internal server error" "Something went wrong").

(** One request from arrival to response. *)
Definition serve (route : M Response) (env : Env) (db : Db) : Response * Db :=
  match route env db with
  | (Ok r, db') => (r, db')
  | (Throw _, db') => (errorHandler, db')
  end.

(* ===================================================================== *)
(** ** routes/expenses.js *)
(* ===================================================================== *)

Definition truthy (v : option string) : option string :=
  match v with
  | Some s => if s =? "" then None else Some s
  | None => None
  end.

(** A [Date] argument of a query: Prisma rejects an Invalid Date. *)
Definition dateArg {P : Platform} (v : option string) : M (option Z) :=
  match truthy v with
  | None => ret None
  | Some s =>
      match newDate s with
      | Some d => ret (Some d)
      | None => throw "Invalid Date"
      end
  end.

(** [new Date(s)] as a column value. *)
Definition newDateArg {P : Platform} (s : string) : M Z :=
  match newDate s with
  | Some d => ret d
  | None => throw "Invalid Date"
  end.

(** Modelled from the spec: prisma/schema.prisma is not among the sources,
    so what the store does with a name outside the enumeration is the
    platform's [unknownNameRejected]: the query is rejected, or it runs with
    the name as given (and no row has it).  The handler itself passes the
    string on unchecked: [if (category) where.category = category]. *)
Definition enumArg {P : Platform} {A} (parse : string -> option A)
    (v : option string) : M (option string) :=
  match truthy v with
  | None => ret None
  | Some s =>
      if unknownNameRejected && negb (isSome (parse s))
      then throw "PrismaClientValidationError"
      else ret (Some s)
  end.

Definition ceilDiv (n : nat) (d : Z) : Z :=
  ((Z.of_nat n + d - 1) / d)%Z.

Definition ownerFilter (user : AuthUser.t) : option Id :=
  if Role_eqb (AuthUser.role user) EMPLOYEE then Some (AuthUser.id user)
  else None.

(** [router.get('/')]: the list, filtered by role. *)
Definition getExpenses {P : Platform} (user : AuthUser.t) (q : Filter.t)
  : M Response :=
  tryCatch
    (let page := prisma_expense.orKeep (Filter.page q) 1%Z in
     let limit := prisma_expense.orKeep (Filter.limit q) 20%Z in
     let skip := ((page - 1) * limit)%Z in
     gte <- dateArg (Filter.startDate q) ;;
     lte <- dateArg (Filter.endDate q) ;;
     let where_ :=
       ExpenseWhere.mk (ownerFilter user) (Filter.category q) (Filter.status q)
                       gte lte in
     expenses <- prisma_expense.findMany where_ skip limit ;;
     total <- prisma_expense.count where_ ;;
     ret (json 200
            (ExpensesJson expenses
               (mkPagination page limit total (ceilDiv total limit)))))
    (json 500 (ErrorJson "Failed to fetch expenses"
                 "An error occurred while fetching expenses")).

(** [router.post('/')]: create, then audit, then answer 201.  [validate] has
    replaced [req.body.amount] by the number the schema produced, which
    [parseFloat] returns as it is. *)
Definition postExpense {P : Platform} (user : AuthUser.t) (file : option string)
    (f : ExpenseFields.t) : M Response :=
  tryCatch
    (let receiptUrl := option_map (fun filename => "/uploads/" +++ filename) file in
     date <- newDateArg (ExpenseFields.date f) ;;
     expense <- prisma_expense.create (ExpenseFields.amount f)
                  (ExpenseFields.category f) date (ExpenseFields.notes f)
                  receiptUrl (AuthUser.id user) ;;
     prisma_auditLog.create "EXPENSE_CREATED"
       ("Expense created - ₹" +++ numberToString (ExpenseFields.amount f)
        +++ " for " +++ ExpenseCategory_toString (ExpenseFields.category f))
       (AuthUser.id user) ;;;
     ret (json 201 (ExpenseJson (Some "Expense created successfully") expense)))
    (json 500 (ErrorJson "Failed to create expense"
                 "An error occurred while creating the expense")).

Definition orUndefined (v : option string) : string :=
  match v with Some s => s | None => "undefined" end.

Definition orEmpty (v : option string) : string :=
  match v with Some s => s | None => "" end.

(** [router.put('/:id')]: the edit.  Existence, then ownership, then the
    inline schema; the update always writes [status: 'PENDING']. *)
Definition putExpense {P : Platform} (user : AuthUser.t) (id : Id)
    (file : option string) (i : ExpenseInput.t) : M Response :=
  tryCatch
    (existing <- prisma_expense.findUnique id ;;
     match existing with
     | None =>
         ret (json 404 (ErrorJson "Expense not found"
                          "The requested expense does not exist"))
     | Some (existingExpense, _) =>
         if Role_eqb (AuthUser.role user) EMPLOYEE
            && negb (Expense.userId existingExpense =? AuthUser.id user)
         then ret (json 403 (ErrorJson "Access denied"
                               "You can only edit your own expenses"))
         else
           match expenseSchema i with
           | ZodError details =>
               ret (json 400 (ErrorJson "Validation failed" (zodMessage details)))
           | Raised message =>
               ret (json 400 (ErrorJson "Validation failed" message))
           | Valid f =>
               date <- newDateArg (ExpenseFields.date f) ;;
               let updateData :=
                 prisma_expense.mkData
                   (Some (ExpenseFields.amount f))
                   (Some (ExpenseFields.category f))
                   (Some date)
                   (Some (orEmpty (truthy (ExpenseFields.notes f))))
                   (Some PENDING)    (* Reset to pending for re-approval *)
                   None
                   (option_map (fun filename => "/uploads/" +++ filename) file) in
               updatedExpense <- prisma_expense.update id updateData ;;
               prisma_auditLog.create "EXPENSE_UPDATED"
                 ("Expense " +++ id +++ " updated - ₹"
                  +++ orUndefined (ExpenseInput.amount i) +++ " for "
                  +++ orUndefined (ExpenseInput.category i))
                 (AuthUser.id user) ;;;
               ret (json 200 (ExpenseJson (Some "Expense updated successfully")
                                updatedExpense))
           end
     end)
    (json 500 (ErrorJson "Failed to update expense"
                 "An error occurred while updating the expense")).

(** [['APPROVED', 'REJECTED'].includes(status)] *)
Definition decision (status : option string) : option ExpenseStatus :=
  match status with
  | Some s =>
      if s =? "APPROVED" then Some APPROVED
      else if s =? "REJECTED" then Some REJECTED
      else None
  | None => None
  end.

(** [router.put('/:id/status')]: the handler behind [requireAdmin]. *)
Definition putExpenseStatus {P : Platform} (user : AuthUser.t) (id : Id)
    (status reason : option string) : M Response :=
  tryCatch
    (match decision status with
     | None =>
         ret (json 400 (ErrorJson "Invalid status"
                          "Status must be either APPROVED or REJECTED"))
     | Some st =>
         expense <- prisma_expense.findUnique id ;;
         match expense with
         | None =>
             ret (json 404 (ErrorJson "Expense not found"
                              "The requested expense does not exist"))
         | Some _ =>
             (* data: { status, ...(reason && { rejectionReason: reason }) } *)
             updatedExpense <-
               prisma_expense.update id
                 (prisma_expense.mkData None None None None (Some st)
                    (truthy reason) None) ;;
             prisma_auditLog.create "EXPENSE_STATUS_UPDATED"
               ("Expense " +++ id +++ " status changed to "
                +++ ExpenseStatus_toString st
                +++ match truthy reason with
                    | Some r => " - Reason: " +++ r
                    | None => ""
                    end)
               (AuthUser.id user) ;;;
             ret (json 200 (ExpenseJson (Some "Expense status updated successfully")
                              updatedExpense))
         end
     end)
    (json 500 (ErrorJson "Failed to update expense status"
                 "An error occurred while updating the expense status")).

Definition natToString (n : nat) : string :=
  NilZero.string_of_uint (Nat.to_uint n).

(** [router.get('/export')]: the query strings go to Prisma unvalidated;
    the CSV is sent before the audit entry is written. *)
Definition exportExpenses {P : Platform} (user : AuthUser.t)
    (category status startDate endDate : option string) : M Response :=
  tryCatch
    (cat <- enumArg parseExpenseCategory category ;;
     st <- enumArg parseExpenseStatus status ;;
     gte <- dateArg startDate ;;
     lte <- dateArg endDate ;;
     expenses <- prisma_expense.findAll (ExportWhere.mk cat st gte lte) ;;
     sendThen (json 200 (ExpensesCsv expenses))
       (prisma_auditLog.create "EXPENSE_EXPORT"
          ("Exported " +++ natToString (List.length expenses)
           +++ " expenses to CSV")
          (AuthUser.id user) ;;;
        ret tt))
    (json 500 (ErrorJson "Failed to export expenses"
                 "An error occurred while exporting expenses")).

(** [router.get('/:id')]: existence is checked before ownership. *)
Definition getExpense (user : AuthUser.t) (id : Id) : M Response :=
  tryCatch
    (expense <- prisma_expense.findUnique id ;;
     match expense with
     | None =>
         ret (json 404 (ErrorJson "Expense not found"
                          "The requested expense does not exist"))
     | Some (e, u) =>
         if Role_eqb (AuthUser.role user) EMPLOYEE
            && negb (Expense.userId e =? AuthUser.id user)
         then ret (json 403 (ErrorJson "Access denied"
                               "You do not have permission to view this expense"))
         else ret (json 200 (ExpenseJson None (e, u)))
     end)
    (json 500 (ErrorJson "Failed to fetch expense"
                 "An error occurred while fetching the expense")).

(* ===================================================================== *)
(** ** routes/auth.js *)
(* ===================================================================== *)

Definition invalidCredentials : Response :=
  json 401 (ErrorJson "Invalid credentials" "Email or password is incorrect").

(** [router.post('/login')], behind [validateLogin]. *)
Definition postLogin {P : Platform} (email password : string) : M Response :=
  tryCatch
    (found <- prisma_user.findUnique_email email ;;
     match found with
     | None => ret invalidCredentials
     | Some user =>
         if negb (bcryptCompare password (User.password user))
         then ret invalidCredentials
         else
           prisma_auditLog.create "USER_LOGIN"
             ("User " +++ User.email user +++ " logged in") (User.id user) ;;;
           t <- clock ;;
           let token := jwtSign t (User.id user) (User.email user) (User.role user) in
           ret (json 200 (LoginJson "Login successful" (AuthUser_of user) token))
     end)
    (json 500 (ErrorJson "Login failed" "An error occurred during login")).

(** [router.post('/logout')] *)
Definition postLogout {P : Platform} (user : AuthUser.t) : M Response :=
  tryCatch
    (prisma_auditLog.create "USER_LOGOUT"
       ("User " +++ AuthUser.email user +++ " logged out") (AuthUser.id user) ;;;
     ret (json 200 (MessageJson "Logout successful")))
    (json 500 (ErrorJson "Logout failed" "An error occurred during logout")).

(** [router.get('/me')] *)
Definition getMe (user : AuthUser.t) : M Response :=
  tryCatch
    (ret (json 200 (UserJson None user)))
    (json 500 (ErrorJson "Failed to get user information"
                 "An error occurred while fetching user data")).

(* ===================================================================== *)
(** ** routes/users.js *)
(* ===================================================================== *)

(** [router.get('/')]; the answer carries the rows and the total, the echo
    of page and limit is left out. *)
Definition getUsers {P : Platform} (page limit search : option string)
  : M Response :=
  tryCatch
    (match rawWindow page limit with
     | None => throw "PrismaClientValidationError"
     | Some (skip, take) =>
         found <- prisma_user.findMany (truthy search) skip take ;;
         total <- prisma_user.count (truthy search) ;;
         ret (json 200 (UsersJson found total))
     end)
    (json 500 (ErrorJson "Failed to fetch users"
                 "An error occurred while fetching users")).

(** [router.post('/')], behind [validateUser]. *)
Definition postUser {P : Platform} (admin : AuthUser.t) (f : UserFields.t)
  : M Response :=
  tryCatch
    (existingUser <- prisma_user.findUnique_email (UserFields.email f) ;;
     match existingUser with
     | Some _ =>
         ret (json 400 (ErrorJson "User already exists"
                          "A user with this email already exists"))
     | None =>
         let hashedPassword := bcryptHash (UserFields.password f) in
         user <- prisma_user.create (UserFields.email f) hashedPassword
                   (UserFields.name f) (UserFields.role f) ;;
         prisma_auditLog.create "USER_CREATED"
           ("User " +++ UserFields.email f +++ " created by admin")
           (AuthUser.id admin) ;;;
         ret (json 201 (UserJson (Some "User created successfully")
                          (AuthUser_of user)))
     end)
    (json 500 (ErrorJson "Failed to create user"
                 "An error occurred while creating the user")).

(** [a || b] on an optional string. *)
Definition orElse (v : option string) (fallback : string) : string :=
  match truthy v with Some s => s | None => fallback end.

(** [router.put('/:id')], behind [validateUserUpdate]. *)
Definition putUser {P : Platform} (admin : AuthUser.t) (id : Id)
    (f : UserUpdateFields.t) : M Response :=
  tryCatch
    (found <- prisma_user.findUnique_id id ;;
     match found with
     | None =>
         ret (json 404 (ErrorJson "User not found"
                          "The requested user does not exist"))
     | Some existingUser =>
         taken <-
           match truthy (UserUpdateFields.email f) with
           | Some email =>
               if negb (email =? User.email existingUser)
               then emailExists <- prisma_user.findUnique_email email ;;
                    ret (isSome emailExists)
               else ret false
           | None => ret false
           end ;;
         if (taken : bool)
         then ret (json 400 (ErrorJson "Email already exists"
                               "A user with this email already exists"))
         else
           let updateData :=
             prisma_user.mkData
               (orElse (UserUpdateFields.email f) (User.email existingUser))
               (orElse (UserUpdateFields.name f) (User.name existingUser))
               (match UserUpdateFields.role f with
                | Some r => r
                | None => User.role existingUser
                end)
               (option_map bcryptHash (truthy (UserUpdateFields.password f))) in
           updatedUser <- prisma_user.update id updateData ;;
           prisma_auditLog.create "USER_UPDATED"
             ("User " +++ User.email updatedUser +++ " updated by admin")
             (AuthUser.id admin) ;;;
           ret (json 200 (UserJson (Some "User updated successfully")
                            (AuthUser_of updatedUser)))
     end)
    (json 500 (ErrorJson "Failed to update user"
                 "An error occurred while updating the user")).

(** [router.delete('/:id')]: the guard against deleting oneself comes
    after the existence check and before the delete. *)
Definition deleteUser {P : Platform} (admin : AuthUser.t) (id : Id) : M Response :=
  tryCatch
    (found <- prisma_user.findUnique_id id ;;
     match found with
     | None =>
         ret (json 404 (ErrorJson "User not found"
                          "The requested user does not exist"))
     | Some user =>
         if User.id user =? AuthUser.id admin
         then ret (json 400 (ErrorJson "Cannot delete yourself"
                               "You cannot delete your own account"))
         else
           prisma_user.delete id ;;;
           prisma_auditLog.create "USER_DELETED"
             ("User " +++ User.email user +++ " deleted by admin")
             (AuthUser.id admin) ;;;
           ret (json 200 (MessageJson "User deleted successfully"))
     end)
    (json 500 (ErrorJson "Failed to delete user"
                 "An error occurred while deleting the user")).

(** [router.get('/:id')] *)
Definition getUser (id : Id) : M Response :=
  tryCatch
    (found <- prisma_user.findUnique_counted id ;;
     match found with
     | None =>
         ret (json 404 (ErrorJson "User not found"
                          "The requested user does not exist"))
     | Some (user, n) => ret (json 200 (UserCountJson user n))
     end)
    (json 500 (ErrorJson "Failed to fetch user"
                 "An error occurred while fetching the user")).

(* ===================================================================== *)
(** ** routes/audit.js *)
(* ===================================================================== *)

(** [router.get('/')]; as for the user list, the echo of page and limit is
    left out. *)
Definition getLogs {P : Platform}
    (page limit action userId startDate endDate : option string) : M Response :=
  tryCatch
    (match rawWindow page limit with
     | None => throw "PrismaClientValidationError"
     | Some (skip, take) =>
         gte <- dateArg startDate ;;
         lte <- dateArg endDate ;;
         let where_ := AuditWhere.mk (truthy action) (truthy userId) gte lte in
         logs <- prisma_auditLog.findMany where_ skip take ;;
         total <- prisma_auditLog.count where_ ;;
         ret (json 200 (LogsJson logs total))
     end)
    (json 500 (ErrorJson "Failed to fetch audit logs"
                 "An error occurred while fetching audit logs")).

(** [router.get('/export')]: as for expenses, the CSV goes out first. *)
Definition exportLogs {P : Platform} (user : AuthUser.t)
    (action userId startDate endDate : option string) : M Response :=
  tryCatch
    (gte <- dateArg startDate ;;
     lte <- dateArg endDate ;;
     logs <- prisma_auditLog.findAll
               (AuditWhere.mk (truthy action) (truthy userId) gte lte) ;;
     sendThen (json 200 (LogsCsv logs))
       (prisma_auditLog.create "AUDIT_EXPORT"
          ("Exported " +++ natToString (List.length logs) +++ " audit logs to CSV")
          (AuthUser.id user) ;;;
        ret tt))
    (json 500 (ErrorJson "Failed to export audit logs"
                 "An error occurred while exporting audit logs")).

(* ===================================================================== *)
(** ** The API *)
(* ===================================================================== *)

(** The endpoints server.js mounts, with the request data each one reads.
    The analytics aggregations and the audit statistics and recent-activity
    views, which only read, are not part of the model. *)
Inductive Call :=
| Login (email password : option string)
| Logout
| Me
| ListExpenses (q : FilterInput.t)
| CreateExpense (file : Upload) (i : ExpenseInput.t)
| UpdateExpense (id : Id) (file : Upload) (i : ExpenseInput.t)
| UpdateExpenseStatus (id : Id) (status reason : option string)
| ExportExpenses (category status startDate endDate : option string)
| GetExpense (id : Id)
| ListUsers (page limit search : option string)
| CreateUser (i : UserInput.t)
| UpdateUser (id : Id) (i : UserInput.t)
| DeleteUser (id : Id)
| GetUser (id : Id)
| ListLogs (page limit action userId startDate endDate : option string)
| ExportLogs (action userId startDate endDate : option string).

(** The middleware chain in front of each handler, in registration order.
    [authorization] is the bearer token of the request, if any. *)
Definition router {P : Platform} (authorization : option string) (c : Call)
  : M Response :=
  match c with
  | Login email password =>
      validate (loginSchema email password) (fun ep => postLogin (fst ep) (snd ep))
  | Logout => authenticateToken authorization postLogout
  | Me => authenticateToken authorization getMe
  | ListExpenses q =>
      authenticateToken authorization (fun user =>
        validate (expenseFilterSchema q) (getExpenses user))
  | CreateExpense file i =>
      authenticateToken authorization (fun user =>
        requireEmployee user
          (upload_single file (fun stored =>
             validate (expenseSchema i) (postExpense user stored))))
  | UpdateExpense id file i =>
      authenticateToken authorization (fun user =>
        upload_single file (fun stored => putExpense user id stored i))
  | UpdateExpenseStatus id status reason =>
      authenticateToken authorization (fun user =>
        requireAdmin user (putExpenseStatus user id status reason))
  | ExportExpenses category status startDate endDate =>
      authenticateToken authorization (fun user =>
        requireAdmin user (exportExpenses user category status startDate endDate))
  | GetExpense id =>
      authenticateToken authorization (fun user => getExpense user id)
  | ListUsers page limit search =>
      authenticateToken authorization (fun user =>
        requireAdmin user (getUsers page limit search))
  | CreateUser i =>
      authenticateToken authorization (fun user =>
        requireAdmin user (validate (userSchema i) (postUser user)))
  | UpdateUser id i =>
      authenticateToken authorization (fun user =>
        requireAdmin user (validate (userUpdateSchema i) (putUser user id)))
  | DeleteUser id =>
      authenticateToken authorization (fun user =>
        requireAdmin user (deleteUser user id))
  | GetUser id =>
      authenticateToken authorization (fun user =>
        requireAdmin user (getUser id))
  | ListLogs page limit action userId startDate endDate =>
      authenticateToken authorization (fun user =>
        requireAdmin user (getLogs page limit action userId startDate endDate))
  | ExportLogs action userId startDate endDate =>
      authenticateToken authorization (fun user =>
        requireAdmin user (exportLogs user action userId startDate endDate))
  end.

Definition handle {P : Platform} (env : Env) (db : Db)
    (authorization : option string) (c : Call) : Response * Db :=
  serve (router authorization c) env db.

(** The identity [authenticateToken] attaches to the request. *)
Definition callerOf {P : Platform} (env : Env) (db : Db)
    (authorization : option string) : option AuthUser.t :=
  match authorization with
  | None => None
  | Some token =>
      match jwtVerify (now env) token with
      | None => None
      | Some userId =>
          option_map AuthUser_of
            (findBy (fun u => User.id u =? userId) (users db))
      end
  end.

(* ===================================================================== *)
(** ** A reference platform and the seeded database *)
(* ===================================================================== *)

(** Simple stand-ins for the library functions, used to run the handlers on
    concrete requests: decimal integers for numbers and dates, a tagged copy
    for the password hash, the user id behind a fixed prefix for the token. *)
Definition decimal (s : string) : option Z :=
  option_map Z.of_uint (NilEmpty.uint_of_string s).

Fixpoint floatOfPositive (p : positive) : float :=
  match p with
  | xH => 1
  | xO q => 2 * floatOfPositive q
  | xI q => 2 * floatOfPositive q + 1
  end%float.

Definition floatOfZ (z : Z) : float :=
  match z with
  | Z0 => 0
  | Zpos p => floatOfPositive p
  | Zneg p => - floatOfPositive p
  end%float.

Fixpoint hasAt (s : string) : bool :=
  match s with
  | EmptyString => false
  | String c rest => Ascii.eqb c "@"%char || hasAt rest
  end.

Definition stripPrefix (p s : string) : option string :=
  if String.prefix p s
  then Some (String.substring (String.length p)
               (String.length s - String.length p) s)
  else None.

Definition orKeepDefault (v : option string) (d : string) : string :=
  match v with Some s => s | None => d end.

Definition samplePlatform : Platform := {|
  parseFloat := fun s =>
    match decimal s with
    | Some n => floatOfZ n
    | None => PrimFloat.nan
    end;
  numberToString := fun _ => "<number>";
  parseInt := decimal;
  isEmail := hasAt;
  isDatetime := fun s => isSome (decimal s);
  newDate := decimal;
  jsLength := String.length;
  zodMessage := String.concat ", ";
  rawWindow := fun page limit =>
    match decimal (orKeepDefault page "1"), decimal (orKeepDefault limit "20") with
    | Some p, Some l => Some (((p - 1) * l)%Z, l)
    | _, _ => None
    end;
  bcryptHash := fun pw => "$2a$10$" +++ pw;
  bcryptCompare := fun pw h => h =? "$2a$10$" +++ pw;
  jwtSign := fun _ id _ _ => "jwt." +++ id;
  jwtVerify := fun _ token => stripPrefix "jwt." token;
  cuid := fun n => "c" +++ natToString n;
  containsInsensitive := fun s sub => isSome (index 0 sub s);
  requireEmployeeRole := fun _ => true;
  unknownNameRejected := true
|}.

Definition noFaults : DbOp -> bool := fun _ => false.

Definition auditDown : DbOp -> bool :=
  fun op => match op with AuditWrite => true | _ => false end.

Definition sampleEnv : Env := mkEnv 1700000000000 noFaults.

(** The rows prisma/seed.js creates, and a second employee. *)
Definition admin : User.t :=
  User.mk "u_admin" "admin@example.com" "$2a$10$password123" "Admin User"
          ADMIN 1.

Definition employee : User.t :=
  User.mk "u_emp" "employee@example.com" "$2a$10$password123" "John Employee"
          EMPLOYEE 2.

Definition colleague : User.t :=
  User.mk "u_col" "colleague@example.com" "$2a$10$password123" "Jane Colleague"
          EMPLOYEE 3.

Definition uber : Expense.t :=
  Expense.mk "e_uber" 150.5 TRAVEL 1705276800000
             (Some "Uber rides for client meetings") APPROVED None None "u_emp" 10.

Definition lunch : Expense.t :=
  Expense.mk "e_lunch" 75.25 FOOD 1705708800000
             (Some "Team lunch during project kickoff") PENDING None None "u_emp" 11.

Definition flights : Expense.t :=
  Expense.mk "e_flights" 250 TRAVEL 1707523200000
             (Some "Flight tickets for conference") REJECTED
             (Some "Conference attendance not pre-approved by management")
             None "u_emp" 12.

Definition taxi : Expense.t :=
  Expense.mk "e_taxi" 40 TRAVEL 1707609600000 None PENDING None None "u_col" 13.

Definition seedLogs : list AuditLog.t :=
  [ AuditLog.mk "a_1" "USER_CREATED" "Admin user created" 1 "u_admin";
    AuditLog.mk "a_2" "USER_CREATED" "Employee user created" 2 "u_emp";
    AuditLog.mk "a_3" "EXPENSE_CREATED" "Travel expense created - ₹150.50" 10
                "u_emp" ].

Definition sampleDb : Db :=
  mkDb [admin; employee; colleague] [uber; lunch; flights; taxi] seedLogs 0.

Definition adminToken : option string := Some "jwt.u_admin".
Definition employeeToken : option string := Some "jwt.u_emp".

(* ===================================================================== *)
(** ** Vocabulary of the properties *)
(* ===================================================================== *)

(** A request is either taken up as its caller, or turned away before any
    handler runs, with the tables untouched. *)
Definition turnedAway (out : Outcome Response * Db) (db : Db) : Prop :=
  snd out = db
  /\ (fst out = Ok unauthenticated \/ fst out = Ok forbidden
      \/ exists e, fst out = Throw e).

Definition updatedExpenses (id : Id) (d : prisma_expense.data)
    (l : list Expense.t) : list Expense.t :=
  map (fun e => if Expense.id e =? id then prisma_expense.apply d e else e) l.

(** The status data of a decision: the new status, and the reason when one
    is given. *)
Definition decisionData (st : ExpenseStatus) (reason : option string)
  : prisma_expense.data :=
  prisma_expense.mkData None None None None (Some st) (truthy reason) None.

(** The two ways credentials can be wrong. *)
Definition wrongCredentials {P : Platform} (db : Db) (email password : string)
  : Prop :=
  findBy (fun u => User.email u =? email) (users db) = None
  \/ exists u, findBy (fun u => User.email u =? email) (users db) = Some u
               /\ bcryptCompare password (User.password u) = false.

(** The [updateData] object of [putUser]. *)
Definition userUpdateData {P : Platform} (f : UserUpdateFields.t)
    (existingUser : User.t) : prisma_user.data :=
  prisma_user.mkData
    (orElse (UserUpdateFields.email f) (User.email existingUser))
    (orElse (UserUpdateFields.name f) (User.name existingUser))
    (match UserUpdateFields.role f with
     | Some r => r
     | None => User.role existingUser
     end)
    (option_map bcryptHash (truthy (UserUpdateFields.password f))).

(** What an update request leaves alone in one user row. *)
Definition userKept (id : Id) (i : UserInput.t) (u u' : User.t) : Prop :=
  User.id u' = User.id u
  /\ User.createdAt u' = User.createdAt u
  /\ (User.id u <> id -> u' = u)
  /\ (truthy (UserInput.password i) = None -> User.password u' = User.password u)
  /\ (truthy (UserInput.email i) = None -> User.email u' = User.email u)
  /\ (truthy (UserInput.name i) = None -> User.name u' = User.name u)
  /\ (truthy (UserInput.role i) = None -> User.role u' = User.role u).

(** The calls that change state, as the specification lists them: expense
    create, content update and status change, user create, update and
    delete, login, logout and the two CSV exports. *)
Definition stateChanging (c : Call) : bool :=
  match c with
  | Login _ _ | Logout
  | CreateExpense _ _ | UpdateExpense _ _ _ | UpdateExpenseStatus _ _ _
  | ExportExpenses _ _ _ _
  | CreateUser _ | UpdateUser _ _ | DeleteUser _
  | ExportLogs _ _ _ _ => true
  | Me | ListExpenses _ | GetExpense _ | ListUsers _ _ _ | GetUser _
  | ListLogs _ _ _ _ _ _ => false
  end.

Definition isExport (c : Call) : bool :=
  match c with
  | ExportExpenses _ _ _ _ | ExportLogs _ _ _ _ => true
  | _ => false
  end.

(** The audit entries a call finds and does not remove: all of them, except
    that deleting a user takes that user's entries along. *)
Definition survivingLogs (c : Call) (db : Db) : list AuditLog.t :=
  match c with
  | DeleteUser id =>
      filter (fun a => negb (AuditLog.userId a =? id)) (auditLogs db)
  | _ => auditLogs db
  end.

(** The acting user of a call: the user who logs in, else the caller. *)
Definition actorOf {P : Platform} (env : Env) (db : Db)
    (authorization : option string) (c : Call) : option Id :=
  match c with
  | Login (Some email) _ =>
      option_map User.id (findBy (fun u => User.email u =? email) (users db))
  | Login None _ => None
  | _ => option_map AuthUser.id (callerOf env db authorization)
  end.

(** The same request handled while the audit table rejects writes. *)
Definition auditFailing (env : Env) : Env :=
  mkEnv (now env)
        (fun op => match op with AuditWrite => true | _ => faults env op end).

(** The tables that hold the primary data of a mutation. *)
Definition primary (db : Db) : list User.t * list Expense.t :=
  (users db, expenses db).

(** A computation leaves the same users and expenses whether or not the
    audit table accepts writes. *)
Definition auditTolerant {A} (m : M A) : Prop :=
  forall env db,
    primary (snd (m (auditFailing env) db)) = primary (snd (m env db)).

(** A computation that does not notice the audit table at all. *)
Definition auditBlind {A} (m : M A) : Prop :=
  forall env db, m (auditFailing env) db = m env db.

(** A computation that writes neither users nor expenses. *)
Definition keepsPrimary {A} (m : M A) : Prop :=
  forall env db, primary (snd (m env db)) = primary db.

(* ===================================================================== *)
(** ** Further vocabulary *)
(* ===================================================================== *)

(** A response in the 4xx range. *)
Definition clientError (r : Response) : bool :=
  (400 <=? statusCode r)%nat && (statusCode r <? 500)%nat.

(** The action name under which a call records itself. *)
Definition actionOf (c : Call) : string :=
  match c with
  | Login _ _ => "USER_LOGIN"
  | Logout => "USER_LOGOUT"
  | CreateExpense _ _ => "EXPENSE_CREATED"
  | UpdateExpense _ _ _ => "EXPENSE_UPDATED"
  | UpdateExpenseStatus _ _ _ => "EXPENSE_STATUS_UPDATED"
  | ExportExpenses _ _ _ _ => "EXPENSE_EXPORT"
  | CreateUser _ => "USER_CREATED"
  | UpdateUser _ _ => "USER_UPDATED"
  | DeleteUser _ => "USER_DELETED"
  | ExportLogs _ _ _ _ => "AUDIT_EXPORT"
  | _ => ""
  end.

(** [db] with one more audit entry. *)
Definition audited (db : Db) (a : AuditLog.t) : Db :=
  mkDb (users db) (expenses db) (auditLogs db ++ [a]) (S (issued db)).

(** The primary write of a call, when it gets that far: which rows of the
    user and expense tables it adds, rewrites or removes. *)
Definition primaryEffect {P : Platform} (env : Env) (db : Db)
    (authorization : option string) (c : Call) (db1 : Db) : Prop :=
  db1 = db
  \/ match c with
     | CreateExpense _ _ =>
         exists e u,
           db1 = mkDb (users db) (expenses db ++ [e]) (auditLogs db)
                      (S (issued db))
           /\ callerOf env db authorization = Some u
           /\ Expense.userId e = AuthUser.id u
           /\ Expense.id e = cuid (issued db)
           /\ Expense.status e = PENDING
           /\ Expense.rejectionReason e = None
           /\ Expense.createdAt e = now env
     | UpdateExpense id _ _ =>
         exists d,
           db1 = mkDb (users db) (updatedExpenses id d (expenses db))
                      (auditLogs db) (issued db)
           /\ prisma_expense.status d = Some PENDING
           /\ prisma_expense.rejectionReason d = None
     | UpdateExpenseStatus id status reason =>
         exists st,
           db1 = mkDb (users db)
                      (updatedExpenses id (decisionData st reason) (expenses db))
                      (auditLogs db) (issued db)
           /\ decision status = Some st
     | CreateUser _ =>
         exists u,
           db1 = mkDb (users db ++ [u]) (expenses db) (auditLogs db)
                      (S (issued db))
           /\ existsb (fun x => User.email x =? User.email u) (users db) = false
           /\ User.id u = cuid (issued db)
     | UpdateUser id _ =>
         exists d,
           db1 = mkDb (map (fun u => if User.id u =? id
                                     then prisma_user.apply d u else u)
                           (users db))
                      (expenses db) (auditLogs db) (issued db)
           /\ existsb (fun u => (User.email u =? prisma_user.email d)
                                && negb (User.id u =? id)) (users db) = false
     | DeleteUser id =>
         exists admin,
           db1 = mkDb (filter (fun u => negb (User.id u =? id)) (users db))
                      (filter (fun e => negb (Expense.userId e =? id))
                              (expenses db))
                      (filter (fun a => negb (AuditLog.userId a =? id))
                              (auditLogs db))
                      (issued db)
           /\ callerOf env db authorization = Some admin
           /\ AuthUser.id admin <> id
     | _ => False
     end.

(** Everything a call can do to the database: its primary write, if any,
    followed by its audit entry, if that is written. *)
Definition effectOf {P : Platform} (env : Env) (db : Db)
    (authorization : option string) (c : Call) (db' : Db) : Prop :=
  exists db1,
    (db' = db1
     \/ exists a,
          db' = audited db1 a
          /\ stateChanging c = true
          /\ AuditLog.id a = cuid (issued db1)
          /\ AuditLog.action a = actionOf c
          /\ AuditLog.timestamp a = now env
          /\ actorOf env db authorization c = Some (AuditLog.userId a))
    /\ primaryEffect env db authorization c db1.

(** Every expense belongs to a stored user, and every audit entry was
    made by one. *)
Definition userExists (db : Db) (id : Id) : Prop :=
  exists u, In u (users db) /\ User.id u = id.

Definition referencesValid (db : Db) : Prop :=
  (forall e, In e (expenses db) -> userExists db (Expense.userId e))
  /\ (forall a, In a (auditLogs db) -> userExists db (AuditLog.userId a)).

(** The calls that write the user table. *)
Definition userAdministration (c : Call) : bool :=
  match c with
  | CreateUser _ | UpdateUser _ _ | DeleteUser _ => true
  | _ => false
  end.

(** Keys in non-increasing order. *)
Fixpoint descending (l : list Z) : Prop :=
  match l with
  | [] => True
  | x :: rest => Forall (fun y => (y <= x)%Z) rest /\ descending rest
  end.

(** The rows of page [p] of a listing with [limit] rows per page, as
    [getExpenses] asks for them: [skip = (p - 1) * limit], [take = limit]. *)
Definition expensePage (db : Db) (w : ExpenseWhere.t) (limit p : Z)
  : list (Expense.t * option AuthUser.t) :=
  map (includeUser db)
      (paginate ((p - 1) * limit) limit
         (sortDesc Expense.createdAt (filter (expenseMatches w) (expenses db)))).

(* ===================================================================== *)
(** ** The CSV helper of the two export routes *)
(* ===================================================================== *)

Definition dquote : ascii := "034"%char.
Definition comma : ascii := ","%char.
Definition newline : ascii := "010"%char.

(** What [row[h.id]] can be: a string, some other value (a number, a
    Decimal, ...) given by the text [Array.prototype.join] prints for it,
    or [undefined]/[null], which [join] prints as nothing. *)
Inductive Cell :=
| Text (s : string)
| Other (printed : string)
| Missing.

Record Header := mkHeader {
  headerId : string;
  title : string
}.

Fixpoint includes (c : ascii) (s : string) : bool :=
  match s with
  | EmptyString => false
  | String c' rest => Ascii.eqb c' c || includes c rest
  end.

(** [value.replace] with the global quote pattern: every quote character
    becomes two. *)
Fixpoint doubleQuotes (s : string) : string :=
  match s with
  | EmptyString => EmptyString
  | String c rest =>
      if Ascii.eqb c dquote
      then String dquote (String dquote (doubleQuotes rest))
      else String c (doubleQuotes rest)
  end.

(** The callback of the inner [headers.map], followed by [join]'s
    conversion to text. *)
Definition csvCell (value : Cell) : string :=
  match value with
  | Text s =>
      if includes comma s || includes dquote s
      then String dquote (doubleQuotes s +++ String dquote EmptyString)
      else s
  | Other printed => printed
  | Missing => EmptyString
  end.

Definition createCsvContent (data : list (string -> Cell))
    (headers : list Header) : string :=
  let csvHeaders := String.concat "," (map title headers) in
  let csvRows :=
    map (fun row =>
           String.concat "," (map (fun h => csvCell (row (headerId h))) headers))
        data in
  String.concat (String newline EmptyString) (csvHeaders :: csvRows).

(** Reading a CSV field back: a field that opens with a quote loses its
    outer quotes and has each doubled quote undone. *)
Fixpoint undoubleQuotes (s : string) : string :=
  match s with
  | EmptyString => EmptyString
  | String c rest =>
      if Ascii.eqb c dquote
      then match rest with
           | String c' rest' =>
               if Ascii.eqb c' dquote
               then String dquote (undoubleQuotes rest')
               else String c (undoubleQuotes rest)
           | EmptyString => String c EmptyString
           end
      else String c (undoubleQuotes rest)
  end.

Fixpoint dropLast (s : string) : string :=
  match s with
  | EmptyString => EmptyString
  | String c EmptyString => EmptyString
  | String c rest => String c (dropLast rest)
  end.

Definition readCsvField (field : string) : string :=
  match field with
  | String c rest =>
      if Ascii.eqb c dquote then undoubleQuotes (dropLast rest) else field
  | EmptyString => EmptyString
  end.

Fixpoint countChar (c : ascii) (s : string) : nat :=
  match s with
  | EmptyString => 0
  | String c' rest => (if Ascii.eqb c' c then 1 else 0) + countChar c rest
  end.

(* ===================================================================== *)
(** ** frontend/src/utils/api.ts *)
(* ===================================================================== *)

(** [imagePath.slice(1)] *)
Definition slice1 (s : string) : string :=
  match s with
  | EmptyString => EmptyString
  | String _ rest => rest
  end.

(** [getImageUrl]; [dev] is [import.meta.env.DEV]. *)
Definition getImageUrl (dev : bool) (imagePath : string) : string :=
  if imagePath =? "" then ""
  else if String.prefix "http" imagePath then imagePath
  else
    let cleanPath :=
      if String.prefix "/" imagePath then slice1 imagePath else imagePath in
    if dev then "http://localhost:5001/" +++ cleanPath
    else "/" +++ cleanPath.

(* ===================================================================== *)
(** ** frontend/src/pages/Expenses.tsx *)
(* ===================================================================== *)

Module ExpenseForm.
(** The [formData] state of the create dialog; [receipt] is the size of the
    chosen file in bytes. *)
Record t := mk {
  amount : string;
  category : string;
  date : string;
  notes : string;
  receipt : option Z
}.
End ExpenseForm.

(** The keys [validateForm] puts into [newErrors]. *)
Definition formErrors {P : Platform} (formData : ExpenseForm.t) : list string :=
  (if (ExpenseForm.amount formData =? "")
      || (parseFloat (ExpenseForm.amount formData) <=? 0)%float
   then ["amount"] else [])
  ++ (if ExpenseForm.category formData =? "" then ["category"] else [])
  ++ (if ExpenseForm.date formData =? "" then ["date"] else [])
  ++ (match ExpenseForm.receipt formData with
      | Some size => if (5 * 1024 * 1024 <? size)%Z then ["receipt"] else []
      | None => []
      end).

(** [validateForm]: [Object.keys(newErrors).length === 0]. *)
Definition validateForm {P : Platform} (formData : ExpenseForm.t) : bool :=
  match formErrors formData with
  | [] => true
  | _ => false
  end.

(* ===================================================================== *)
(** ** Vocabulary of the statements about expenses *)
(* ===================================================================== *)

(** What multer leaves in [req.file]. *)
Definition storedName (f : Upload) : option string :=
  match f with
  | Stored filename => Some filename
  | _ => None
  end.

(** The three tests of the [amount] transform, all passed. *)
Definition amountAccepted (num : float) : bool :=
  negb (PrimFloat.is_nan num || (num <=? 0)%float)
  && negb (num <? minAmount)%float
  && negb (maxAmount <? num)%float.

(** The routes that carry [requireAdmin]. *)
Definition adminOnly (c : Call) : bool :=
  match c with
  | UpdateExpenseStatus _ _ _ | ExportExpenses _ _ _ _
  | ListUsers _ _ _ | CreateUser _ | UpdateUser _ _ | DeleteUser _ | GetUser _
  | ListLogs _ _ _ _ _ _ | ExportLogs _ _ _ _ => true
  | _ => false
  end.

(** The one route without [authenticateToken]. *)
Definition isLogin (c : Call) : bool :=
  match c with
  | Login _ _ => true
  | _ => false
  end.

(* ===================================================================== *)
(** ** Vocabulary of the statements about listings and keys *)
(* ===================================================================== *)

(** The bound a date filter puts into the where clause of a query that goes
    through: none for an absent or empty string, else [new Date(v)]. *)
Definition dateBound {P : Platform} (v : option string) : option Z :=
  match truthy v with
  | Some s => newDate s
  | None => None
  end.

(** Whether [new Date(v)] is a date the query accepts: an absent or empty
    string is not looked at. *)
Definition dateReadable {P : Platform} (v : option string) : bool :=
  match truthy v with
  | Some s => isSome (newDate s)
  | None => true
  end.

(** The same listing request for another page. *)
Definition onPage (q : FilterInput.t) (p : string) : FilterInput.t :=
  FilterInput.mk (FilterInput.category q) (FilterInput.status q)
                 (FilterInput.startDate q) (FilterInput.endDate q)
                 (Some p) (FilterInput.limit q).

(** The [expenses] array of a listing's answer. *)
Definition rowsOf (r : Response) : list (Expense.t * option AuthUser.t) :=
  match body r with
  | ExpensesJson rows _ => rows
  | _ => []
  end.

(** No stored user has a key the generator has yet to issue. *)
Definition keysUnused {P : Platform} (db : Db) : Prop :=
  forall n, issued db <= n ->
  forall u, In u (users db) -> User.id u <> cuid n.

(** The reference platform over text columns: a name outside the
    enumeration is not rejected by the store. *)
Definition textPlatform : Platform := {|
  parseFloat := parseFloat (Platform := samplePlatform);
  numberToString := numberToString (Platform := samplePlatform);
  parseInt := parseInt (Platform := samplePlatform);
  isEmail := isEmail (Platform := samplePlatform);
  isDatetime := isDatetime (Platform := samplePlatform);
  newDate := newDate (Platform := samplePlatform);
  jsLength := jsLength (Platform := samplePlatform);
  zodMessage := zodMessage (Platform := samplePlatform);
  rawWindow := rawWindow (Platform := samplePlatform);
  bcryptHash := bcryptHash (Platform := samplePlatform);
  bcryptCompare := bcryptCompare (Platform := samplePlatform);
  jwtSign := jwtSign (Platform := samplePlatform);
  jwtVerify := jwtVerify (Platform := samplePlatform);
  cuid := cuid (Platform := samplePlatform);
  containsInsensitive := containsInsensitive (Platform := samplePlatform);
  requireEmployeeRole := requireEmployeeRole (Platform := samplePlatform);
  unknownNameRejected := false
|}.

Unset Implicit Arguments.

(* ===================================================================== *)
(** ** Running the middleware *)
(* ===================================================================== *)

Lemma authenticateToken_run {P : Platform} env db authorization next :
  authenticateToken authorization next env db =
  match authorization with
  | None => (Ok unauthenticated, db)
  | Some token =>
      match jwtVerify (now env) token with
      | None => (Ok unauthenticated, db)
      | Some userId =>
          if faults env UserRead then (Throw "PrismaClientError", db)
          else match findBy (fun u => User.id u =? userId) (users db) with
               | None => (Ok unauthenticated, db)
               | Some u => next (AuthUser_of u) env db
               end
      end
  end.
Proof.
  unfold authenticateToken.
  destruct authorization as [token|]; [|reflexivity].
  unfold bind, clock; simpl.
  destruct (jwtVerify (now env) token) as [userId|]; [|reflexivity].
  unfold prisma_user.findUnique_id, prisma.
  destruct (faults env UserRead); [reflexivity|].
  destruct (findBy _ (users db)); reflexivity.
Qed.

(** With a readable user table the chain continues as the caller. *)
Lemma authenticateToken_caller {P : Platform} env db authorization next u :
  callerOf env db authorization = Some u ->
  faults env UserRead = false ->
  authenticateToken authorization next env db = next u env db.
Proof.
  intros Hc Hf. rewrite authenticateToken_run. unfold callerOf in Hc.
  destruct authorization as [token|]; [|discriminate].
  destruct (jwtVerify (now env) token) as [userId|]; [|discriminate].
  rewrite Hf.
  destruct (findBy _ (users db)) as [u0|]; [|discriminate].
  simpl in Hc. injection Hc as <-. reflexivity.
Qed.

(** The caller is a row of the user table. *)
Lemma callerOf_stored {P : Platform} env db authorization u :
  callerOf env db authorization = Some u ->
  exists row, findBy (fun x => User.id x =? AuthUser.id u) (users db) = Some row
              /\ u = AuthUser_of row.
Proof.
  unfold callerOf. intros Hc.
  destruct authorization as [token|]; [|discriminate].
  destruct (jwtVerify (now env) token) as [userId|]; [|discriminate].
  destruct (findBy _ (users db)) as [row|] eqn:Hfind; [|discriminate].
  simpl in Hc. injection Hc as <-.
  exists row. split; [|reflexivity].
  unfold findBy in *. apply find_some in Hfind as Hrow.
  destruct Hrow as [_ Heq]. apply String.eqb_eq in Heq. simpl.
  rewrite Heq. exact Hfind.
Qed.

Lemma Role_eqb_eq a b : Role_eqb a b = true <-> a = b.
Proof. destruct a, b; simpl; split; congruence. Qed.

Lemma authenticated_route {P : Platform} env db authorization next :
  (exists u, callerOf env db authorization = Some u
             /\ faults env UserRead = false
             /\ authenticateToken authorization next env db = next u env db)
  \/ ((callerOf env db authorization = None \/ faults env UserRead = true)
      /\ turnedAway (authenticateToken authorization next env db) db).
Proof.
  rewrite authenticateToken_run. unfold callerOf, turnedAway.
  destruct authorization as [token|].
  2: { right. simpl. auto. }
  destruct (jwtVerify (now env) token) as [userId|].
  2: { right. simpl. auto. }
  destruct (faults env UserRead).
  { right. simpl. split; [right; reflexivity|]. split; [reflexivity|].
    right. right. eexists. reflexivity. }
  destruct (findBy _ (users db)) as [row|].
  2: { right. simpl. auto. }
  left. exists (AuthUser_of row). auto.
Qed.

Lemma admin_route {P : Platform} env db authorization next :
  (exists u, callerOf env db authorization = Some u
             /\ AuthUser.role u = ADMIN
             /\ faults env UserRead = false
             /\ authenticateToken authorization
                  (fun user => requireAdmin user (next user)) env db
                = next u env db)
  \/ ((forall u, callerOf env db authorization = Some u ->
                 AuthUser.role u = ADMIN -> faults env UserRead = true)
      /\ turnedAway (authenticateToken authorization
                       (fun user => requireAdmin user (next user)) env db) db).
Proof.
  destruct (authenticated_route env db authorization
              (fun user => requireAdmin user (next user)))
    as [(u & Hc & Hu & Hrun)|[Hc Haway]].
  - destruct (Role_eqb (AuthUser.role u) ADMIN) eqn:Hr.
    + left. exists u. repeat split; auto.
      * apply Role_eqb_eq, Hr.
      * rewrite Hrun. unfold requireAdmin. rewrite Hr. reflexivity.
    + right. split.
      * intros u' Hc' Hr'. rewrite Hc in Hc'. injection Hc' as <-.
        rewrite Hr' in Hr. discriminate.
      * rewrite Hrun. unfold requireAdmin. rewrite Hr.
        unfold turnedAway, ret. simpl. auto.
  - right. split; [|exact Haway].
    intros u Hcu _. destruct Hc as [Hc|Hc]; [congruence|exact Hc].
Qed.

Lemma turnedAway_serve out db :
  turnedAway out db ->
  snd (match out with
       | (Ok r, db') => (r, db')
       | (Throw _, db') => (errorHandler, db')
       end) = db
  /\ succeeded (fst (match out with
                     | (Ok r, db') => (r, db')
                     | (Throw _, db') => (errorHandler, db')
                     end)) = false.
Proof.
  destruct out as [o d]. unfold turnedAway. simpl.
  intros [-> [->|[->|[e ->]]]]; auto.
Qed.

(* ===================================================================== *)
(** ** Fetching one expense *)
(* ===================================================================== *)

(** C9. GET /api/expenses/:id looks the expense up before it looks at the
    owner: an id that matches no expense is answered 404 whatever the
    caller's role, and an EMPLOYEE asking for an existing expense of another
    user is answered 403, so the two answers tell an EMPLOYEE whether the id
    exists. *)
Theorem getExpense_existence_before_ownership {P : Platform}
    env db authorization id u :
  callerOf env db authorization = Some u ->
  faults env UserRead = false ->
  faults env ExpenseRead = false ->
  (findBy (fun e => Expense.id e =? id) (expenses db) = None ->
   statusCode (fst (handle env db authorization (GetExpense id))) = 404)
  /\ (forall e,
        findBy (fun e => Expense.id e =? id) (expenses db) = Some e ->
        AuthUser.role u = EMPLOYEE ->
        Expense.userId e <> AuthUser.id u ->
        statusCode (fst (handle env db authorization (GetExpense id))) = 403).
Proof.
  intros Hc Hu He.
  unfold handle, serve, router.
  erewrite authenticateToken_caller by eassumption.
  unfold getExpense, tryCatch, bind, prisma_expense.findUnique, prisma.
  rewrite He. split.
  - intros ->. reflexivity.
  - intros e -> Hrole Hown. simpl. rewrite Hrole. simpl.
    apply String.eqb_neq in Hown. rewrite Hown. reflexivity.
Qed.

Lemma getExpense_existence_before_ownership_witness :
  statusCode (fst (handle (P := samplePlatform) sampleEnv sampleDb employeeToken
                     (GetExpense "e_missing"))) = 404
  /\ statusCode (fst (handle (P := samplePlatform) sampleEnv sampleDb employeeToken
                        (GetExpense "e_taxi"))) = 403.
Proof.
  split.
  - apply (proj1 (@getExpense_existence_before_ownership samplePlatform
                    sampleEnv sampleDb employeeToken "e_missing"
                    (AuthUser_of employee) eq_refl eq_refl eq_refl)).
    reflexivity.
  - apply (proj2 (@getExpense_existence_before_ownership samplePlatform
                    sampleEnv sampleDb employeeToken "e_taxi"
                    (AuthUser_of employee) eq_refl eq_refl eq_refl) taxi).
    + reflexivity.
    + reflexivity.
    + discriminate.
Defined.

(* ===================================================================== *)
(** ** Queries return stored rows *)
(* ===================================================================== *)

Section Sorting.
Variable A : Type.
Variable key : A -> Z.

Lemma insertDesc_In x y l : In y (insertDesc key x l) <-> y = x \/ In y l.
Proof.
  induction l as [|z l IH]; simpl.
  - intuition.
  - destruct (key x <? key z)%Z; simpl; rewrite ?IH; intuition.
Qed.

Lemma sortDesc_In y l : In y (sortDesc key l) <-> In y l.
Proof.
  induction l as [|x l IH]; simpl; [reflexivity|].
  rewrite insertDesc_In, IH. intuition.
Qed.
Lemma insertDesc_length x (l : list A) :
  List.length (insertDesc key x l) = S (List.length l).
Proof.
  induction l as [|y l IH]; simpl; [reflexivity|].
  destruct (key x <? key y)%Z; simpl; [rewrite IH|]; reflexivity.
Qed.

Lemma sortDesc_length (l : list A) :
  List.length (sortDesc key l) = List.length l.
Proof.
  induction l as [|x l IH]; simpl; [reflexivity|].
  rewrite insertDesc_length. f_equal. exact IH.
Qed.

End Sorting.

Section Windows.
Variable A : Type.

Lemma firstn_incl n (l : list A) y : In y (firstn n l) -> In y l.
Proof.
  revert l; induction n as [|n IH]; intros [|x l]; simpl; try tauto.
  intros [->|H]; auto.
Qed.

Lemma skipn_incl n (l : list A) y : In y (skipn n l) -> In y l.
Proof.
  revert l; induction n as [|n IH]; intros [|x l]; simpl; auto.
Qed.

Lemma paginate_In skip take (l : list A) y :
  In y (paginate skip take l) -> In y l.
Proof.
  unfold paginate. intros H. eapply skipn_incl, firstn_incl, H.
Qed.
End Windows.

(** A row selected under an owner restriction belongs to that owner. *)
Lemma expenseMatches_owner w e owner :
  ExpenseWhere.userId w = Some owner ->
  expenseMatches w e = true ->
  Expense.userId e = owner.
Proof.
  unfold expenseMatches. intros ->. simpl.
  rewrite !andb_true_iff. intros [[[[H _] _] _] _].
  apply String.eqb_eq in H. symmetry. exact H.
Qed.

Lemma selected_rows w skip take db row :
  In row (map (includeUser db)
            (paginate skip take
               (sortDesc Expense.createdAt
                  (filter (expenseMatches w) (expenses db))))) ->
  In (fst row) (expenses db) /\ expenseMatches w (fst row) = true.
Proof.
  rewrite in_map_iff. intros [e [<- He]]. simpl.
  apply paginate_In in He. apply sortDesc_In in He.
  apply filter_In in He. exact He.
Qed.

(** Case analysis on the next test a handler makes. *)
Ltac branch :=
  match goal with
  | |- context [match ?x with _ => _ end] => destruct x eqn:?
  | |- context [if ?x then _ else _] => destruct x eqn:?
  | H : context [match ?x with _ => _ end] |- _ => destruct x eqn:?
  | H : context [if ?x then _ else _] |- _ => destruct x eqn:?
  end.

Ltac unfold_handlers :=
  unfold handle, serve, router, validate, requireAdmin, requireEmployee,
    upload_single, dateArg, newDateArg, enumArg, tryCatch, sendThen, prisma,
    clock, bind, ret, throw in *.

(* ===================================================================== *)
(** ** Row-level filtering of the expense list *)
(* ===================================================================== *)

(** What [getExpenses] answers, as a function of the validated query. *)
Lemma getExpenses_eval {P : Platform} user f env db :
  getExpenses user f env db
  = (Ok (if dateReadable (Filter.startDate f)
            && dateReadable (Filter.endDate f)
            && negb (faults env ExpenseRead)
         then
           let page := prisma_expense.orKeep (Filter.page f) 1%Z in
           let limit := prisma_expense.orKeep (Filter.limit f) 20%Z in
           let w := ExpenseWhere.mk (ownerFilter user) (Filter.category f)
                      (Filter.status f) (dateBound (Filter.startDate f))
                      (dateBound (Filter.endDate f)) in
           let matching := filter (expenseMatches w) (expenses db) in
           json 200
             (ExpensesJson
                (map (includeUser db)
                   (paginate ((page - 1) * limit) limit
                      (sortDesc Expense.createdAt matching)))
                (mkPagination page limit (List.length matching)
                   (ceilDiv (List.length matching) limit)))
         else json 500 (ErrorJson "Failed to fetch expenses"
                          "An error occurred while fetching expenses")),
     db).
Proof.
  unfold getExpenses, dateReadable, dateBound, dateArg,
    prisma_expense.findMany, prisma_expense.count, tryCatch, bind, prisma,
    ret, throw.
  destruct (truthy (Filter.startDate f)) as [s1|];
    [destruct (newDate s1)|];
    (destruct (truthy (Filter.endDate f)) as [s2|];
     [destruct (newDate s2)|]);
    destruct (faults env ExpenseRead); reflexivity.
Qed.

(** What a listing that answers with rows has done. *)
Lemma listExpenses_run {P : Platform} env db authorization q r db' rows pg :
  handle env db authorization (ListExpenses q) = (r, db') ->
  body r = ExpensesJson rows pg ->
  exists u f,
    callerOf env db authorization = Some u
    /\ faults env UserRead = false
    /\ expenseFilterSchema q = Valid f
    /\ dateReadable (Filter.startDate f) && dateReadable (Filter.endDate f)
       && negb (faults env ExpenseRead) = true
    /\ db' = db
    /\ page pg = prisma_expense.orKeep (Filter.page f) 1%Z
    /\ limit pg = prisma_expense.orKeep (Filter.limit f) 20%Z
    /\ pages pg = ceilDiv (total pg) (limit pg)
    /\ let w := ExpenseWhere.mk (ownerFilter u) (Filter.category f)
                  (Filter.status f) (dateBound (Filter.startDate f))
                  (dateBound (Filter.endDate f)) in
       rows = map (includeUser db)
                (paginate ((page pg - 1) * limit pg) (limit pg)
                   (sortDesc Expense.createdAt
                      (filter (expenseMatches w) (expenses db))))
       /\ total pg = List.length (filter (expenseMatches w) (expenses db)).
Proof.
  unfold handle, serve, router.
  destruct (authenticated_route env db authorization
              (fun user => validate (expenseFilterSchema q) (getExpenses user)))
    as [(u & Hc & Hu & ->)|[_ Haway]].
  - unfold validate.
    destruct (expenseFilterSchema q) as [f|details|message] eqn:Hq;
      [|intros [= <- _]; discriminate|intros [= <- _]; discriminate].
    rewrite getExpenses_eval.
    destruct (dateReadable (Filter.startDate f)
              && dateReadable (Filter.endDate f)
              && negb (faults env ExpenseRead)) eqn:Hok;
      [|intros [= <- _]; discriminate].
    intros [= <- <-] [= <- <-]. exists u, f. simpl. auto 12.
  - destruct (authenticateToken _ _ env db) as [o d].
    unfold turnedAway in Haway. simpl in Haway.
    destruct Haway as [_ [->|[->|[e ->]]]]; intros [= <- _]; discriminate.
Qed.

Lemma paginate_first_page {A} (take : Z) (l : list A) :
  (Z.of_nat (List.length l) <= take)%Z -> paginate ((1 - 1) * take) take l = l.
Proof.
  intros H. unfold paginate. simpl. apply firstn_all2. lia.
Qed.

Lemma expenseFilterSchema_unfiltered {P : Platform} q f :
  expenseFilterSchema q = Valid f ->
  FilterInput.category q = None ->
  FilterInput.status q = None ->
  FilterInput.startDate q = None ->
  FilterInput.endDate q = None ->
  Filter.category f = None /\ Filter.status f = None
  /\ Filter.startDate f = None /\ Filter.endDate f = None.
Proof.
  unfold expenseFilterSchema.
  destruct (_ ++ _) as [|x rest]; [|discriminate].
  intros [= <-] -> -> -> ->. simpl. auto.
Qed.

Lemma filter_everything {A} (f : A -> bool) (l : list A) :
  (forall x, f x = true) -> filter f l = l.
Proof.
  intros Hf. induction l as [|x l IH]; simpl; [reflexivity|].
  rewrite Hf, IH. reflexivity.
Qed.

(** C1. For a caller whose role is EMPLOYEE, every row GET /api/expenses
    returns is a stored expense whose userId is the caller's id, whatever
    category, status, date, page and limit the client supplies.  For a
    caller whose role is ADMIN the answer is the requested page of the
    query the request describes, with no condition on userId: the category,
    status and date bounds are those of the validated request and page and
    limit are the request's (1 and 20 by default); the total counts the
    matching expenses of all users, every one of which is among the rows
    when they fit on the first page, and with no filter in the request the
    total is the number of stored expenses. *)
Theorem getExpenses_row_level_filter {P : Platform}
    env db authorization q u r db' :
  callerOf env db authorization = Some u ->
  handle env db authorization (ListExpenses q) = (r, db') ->
  forall rows pg,
    body r = ExpensesJson rows pg ->
    (AuthUser.role u = EMPLOYEE ->
     Forall (fun row => Expense.userId (fst row) = AuthUser.id u
                        /\ In (fst row) (expenses db)) rows)
    /\ (AuthUser.role u = ADMIN ->
        exists f,
          expenseFilterSchema q = Valid f /\
          page pg = prisma_expense.orKeep (Filter.page f) 1%Z /\
          limit pg = prisma_expense.orKeep (Filter.limit f) 20%Z /\
          let w := ExpenseWhere.mk None (Filter.category f) (Filter.status f)
                     (dateBound (Filter.startDate f))
                     (dateBound (Filter.endDate f)) in
          rows = map (includeUser db)
                   (paginate ((page pg - 1) * limit pg) (limit pg)
                      (sortDesc Expense.createdAt
                         (filter (expenseMatches w) (expenses db))))
          /\ total pg = List.length (filter (expenseMatches w) (expenses db))
          /\ (page pg = 1%Z ->
              (Z.of_nat (total pg) <= limit pg)%Z ->
              forall e, In e (expenses db) -> expenseMatches w e = true ->
                        In (includeUser db e) rows)
          /\ (FilterInput.category q = None ->
              FilterInput.status q = None ->
              FilterInput.startDate q = None ->
              FilterInput.endDate q = None ->
              total pg = List.length (expenses db))).
Proof.
  intros Hc Hrun rows pg Hb.
  destruct (listExpenses_run _ _ _ _ _ _ _ _ Hrun Hb)
    as (u' & f & Hc' & _ & Hq & _ & _ & Hpage & Hlimit & _ & Hrows & Htotal).
  assert (u' = u) by congruence. subst u'.
  split; intros Hrole.
  - apply Forall_forall. intros x Hx. rewrite Hrows in Hx.
    apply selected_rows in Hx as [Hin Hm]. split; [|exact Hin].
    eapply expenseMatches_owner; [|exact Hm].
    simpl. unfold ownerFilter. rewrite Hrole. reflexivity.
  - exists f. unfold ownerFilter in Hrows, Htotal.
    rewrite Hrole in Hrows, Htotal. simpl in Hrows, Htotal.
    split; [exact Hq|]. split; [exact Hpage|]. split; [exact Hlimit|].
    cbv zeta. split; [exact Hrows|]. split; [exact Htotal|]. split.
    + intros Hfirst Hfits e He Hm. rewrite Hrows, Hfirst.
      rewrite paginate_first_page.
      * apply in_map, sortDesc_In, filter_In. split; assumption.
      * rewrite sortDesc_length, <- Htotal. exact Hfits.
    + intros H1 H2 H3 H4.
      destruct (expenseFilterSchema_unfiltered _ _ Hq H1 H2 H3 H4)
        as (-> & -> & -> & ->) in Htotal.
      rewrite Htotal. f_equal. apply filter_everything. reflexivity.
Qed.

Lemma getExpenses_row_level_filter_witness :
  Forall (fun row => Expense.userId (fst row) = "u_emp"
                     /\ In (fst row) (expenses sampleDb))
         (map (includeUser sampleDb) [flights; lunch; uber])
  /\ exists f,
       expenseFilterSchema (P := samplePlatform)
         (FilterInput.mk None None None None None None) = Valid f /\
       1%Z = prisma_expense.orKeep (Filter.page f) 1%Z /\
       20%Z = prisma_expense.orKeep (Filter.limit f) 20%Z /\
       let w := ExpenseWhere.mk None (Filter.category f) (Filter.status f)
                  (dateBound (P := samplePlatform) (Filter.startDate f))
                  (dateBound (P := samplePlatform) (Filter.endDate f)) in
       map (includeUser sampleDb) [taxi; flights; lunch; uber]
       = map (includeUser sampleDb)
           (paginate ((1 - 1) * 20) 20
              (sortDesc Expense.createdAt
                 (filter (expenseMatches w) (expenses sampleDb))))
       /\ 4 = List.length (filter (expenseMatches w) (expenses sampleDb))
       /\ (1%Z = 1%Z ->
           (Z.of_nat 4 <= 20)%Z ->
           forall e, In e (expenses sampleDb) -> expenseMatches w e = true ->
                     In (includeUser sampleDb e)
                        (map (includeUser sampleDb)
                           [taxi; flights; lunch; uber]))
       /\ (@None string = None -> @None string = None ->
           @None string = None -> @None string = None ->
           4 = List.length (expenses sampleDb)).
Proof.
  split.
  - refine (proj1 (@getExpenses_row_level_filter samplePlatform
                     sampleEnv sampleDb employeeToken
                     (FilterInput.mk None None None None None None)
                     (AuthUser_of employee)
                     (json 200
                        (ExpensesJson
                           (map (includeUser sampleDb) [flights; lunch; uber])
                           (mkPagination 1 20 3 1)))
                     sampleDb _ _
                     (map (includeUser sampleDb) [flights; lunch; uber])
                     (mkPagination 1 20 3 1) _) _);
      reflexivity.
  - refine (proj2 (@getExpenses_row_level_filter samplePlatform
                     sampleEnv sampleDb adminToken
                     (FilterInput.mk None None None None None None)
                     (AuthUser_of admin)
                     (json 200
                        (ExpensesJson
                           (map (includeUser sampleDb)
                              [taxi; flights; lunch; uber])
                           (mkPagination 1 20 4 1)))
                     sampleDb _ _
                     (map (includeUser sampleDb) [taxi; flights; lunch; uber])
                     (mkPagination 1 20 4 1) _) _);
      reflexivity.
Defined.

(* ===================================================================== *)
(** ** The content edit *)
(* ===================================================================== *)

Lemma find_updatedExpenses id d l :
  findBy (fun e => Expense.id e =? id) (updatedExpenses id d l)
  = option_map (prisma_expense.apply d) (findBy (fun e => Expense.id e =? id) l).
Proof.
  unfold findBy, updatedExpenses.
  induction l as [|e l IH]; simpl; [reflexivity|].
  destruct (Expense.id e =? id) eqn:He; simpl.
  - rewrite He. reflexivity.
  - rewrite He. exact IH.
Qed.

Lemma find_updated id d l :
  findBy (fun e => Expense.id e =? id)
         (map (fun e => if Expense.id e =? id then prisma_expense.apply d e
                        else e) l)
  = option_map (prisma_expense.apply d) (findBy (fun e => Expense.id e =? id) l).
Proof. exact (find_updatedExpenses id d l). Qed.

Lemma owner_passes role owner caller :
  role = ADMIN \/ owner = caller ->
  Role_eqb role EMPLOYEE && negb (owner =? caller) = false.
Proof.
  intros [->| ->]; [reflexivity|].
  rewrite String.eqb_refl. apply andb_false_r.
Qed.

(** C2. An authorised edit of an existing expense (by its owner or by any
    ADMIN, with fields the schema accepts) leaves the stored expense
    PENDING, whether it was PENDING, APPROVED or REJECTED before; when the
    audit entry can be written the answer is 200 and carries the PENDING
    expense. *)
Theorem putExpense_resets_status {P : Platform}
    env db authorization id file i u e0 f d :
  callerOf env db authorization = Some u ->
  findBy (fun e => Expense.id e =? id) (expenses db) = Some e0 ->
  AuthUser.role u = ADMIN \/ Expense.userId e0 = AuthUser.id u ->
  (forall message, file <> Refused message) ->
  expenseSchema i = Valid f ->
  newDate (ExpenseFields.date f) = Some d ->
  faults env UserRead = false ->
  faults env ExpenseRead = false ->
  faults env ExpenseWrite = false ->
  (exists e',
      findBy (fun e => Expense.id e =? id)
             (expenses (snd (handle env db authorization (UpdateExpense id file i))))
      = Some e'
      /\ Expense.status e' = PENDING)
  /\ (faults env AuditWrite = false ->
      exists e' owner,
        fst (handle env db authorization (UpdateExpense id file i))
        = json 200 (ExpenseJson (Some "Expense updated successfully") (e', owner))
        /\ Expense.status e' = PENDING).
Proof.
  intros Hc He0 Hown Hfile Hschema Hdate Hu Her Hew.
  unfold handle, serve, router.
  erewrite authenticateToken_caller by eassumption.
  assert (Hfind : forall stored,
             putExpense u id stored i env db
             = let d' := prisma_expense.mkData
                           (Some (ExpenseFields.amount f))
                           (Some (ExpenseFields.category f)) (Some d)
                           (Some (orEmpty (truthy (ExpenseFields.notes f))))
                           (Some PENDING) None
                           (option_map (fun fn => "/uploads/" +++ fn) stored) in
               let db1 := mkDb (users db) (updatedExpenses id d' (expenses db))
                               (auditLogs db) (issued db) in
               if faults env AuditWrite
               then (Ok (json 500 (ErrorJson "Failed to update expense"
                           "An error occurred while updating the expense")), db1)
               else (Ok (json 200 (ExpenseJson (Some "Expense updated successfully")
                                     (includeUser db1 (prisma_expense.apply d' e0)))),
                     mkDb (users db) (updatedExpenses id d' (expenses db))
                          (auditLogs db ++
                           [AuditLog.mk (cuid (issued db)) "EXPENSE_UPDATED"
                              ("Expense " +++ id +++ " updated - ₹"
                               +++ orUndefined (ExpenseInput.amount i) +++ " for "
                               +++ orUndefined (ExpenseInput.category i))
                              (now env) (AuthUser.id u)])
                          (S (issued db)))).
  { intros stored.
    unfold putExpense, prisma_expense.findUnique, prisma_expense.update,
      prisma_auditLog.create.
    unfold_handlers. rewrite Her, He0. simpl.
    rewrite (owner_passes _ _ _ Hown), Hschema, Hdate, Hew. simpl. rewrite He0.
    destruct (faults env AuditWrite); reflexivity. }
  assert (Hgoal : forall stored,
    (exists e',
      findBy (fun e => Expense.id e =? id)
        (expenses (snd (match putExpense u id stored i env db with
                        | (Ok r, db') => (r, db')
                        | (Throw _, db') => (errorHandler, db')
                        end))) = Some e'
      /\ Expense.status e' = PENDING)
    /\ (faults env AuditWrite = false ->
        exists e' owner,
          fst (match putExpense u id stored i env db with
               | (Ok r, db') => (r, db')
               | (Throw _, db') => (errorHandler, db')
               end)
          = json 200 (ExpenseJson (Some "Expense updated successfully") (e', owner))
          /\ Expense.status e' = PENDING)).
  { intros stored. rewrite Hfind. cbv zeta. split.
    - eexists. split.
      + destruct (faults env AuditWrite); simpl;
          rewrite find_updatedExpenses, He0; reflexivity.
      + reflexivity.
    - intros ->. unfold includeUser. do 2 eexists. split; reflexivity. }
  unfold upload_single.
  destruct file as [|filename|message]; [apply Hgoal | apply Hgoal |].
  exfalso. exact (Hfile message eq_refl).
Qed.

Lemma putExpense_resets_status_witness :
  Expense.status uber = APPROVED
  /\ ((exists e',
         findBy (fun e => Expense.id e =? "e_uber")
           (expenses (snd (handle (P := samplePlatform) sampleEnv sampleDb
                             employeeToken
                             (UpdateExpense "e_uber" NoFile
                                (ExpenseInput.mk (Some "200") (Some "TRAVEL")
                                   (Some "1705276800000") None)))))
         = Some e'
         /\ Expense.status e' = PENDING)
      /\ (faults sampleEnv AuditWrite = false ->
          exists e' owner,
            fst (handle (P := samplePlatform) sampleEnv sampleDb employeeToken
                   (UpdateExpense "e_uber" NoFile
                      (ExpenseInput.mk (Some "200") (Some "TRAVEL")
                         (Some "1705276800000") None)))
            = json 200 (ExpenseJson (Some "Expense updated successfully")
                          (e', owner))
            /\ Expense.status e' = PENDING)).
Proof.
  split; [reflexivity|].
  apply (@putExpense_resets_status samplePlatform sampleEnv sampleDb
           employeeToken "e_uber" NoFile
           (ExpenseInput.mk (Some "200") (Some "TRAVEL")
              (Some "1705276800000") None)
           (AuthUser_of employee) uber
           (ExpenseFields.mk 200 TRAVEL "1705276800000" None)
           1705276800000%Z);
    try reflexivity.
  - right. reflexivity.
  - discriminate.
Defined.

(* ===================================================================== *)
(** ** The status update *)
(* ===================================================================== *)

Ltac unfold_prisma :=
  unfold prisma_expense.findUnique, prisma_expense.findMany,
    prisma_expense.findAll, prisma_expense.count, prisma_expense.create,
    prisma_expense.update, prisma_user.findUnique_email,
    prisma_user.findUnique_id, prisma_user.findUnique_counted,
    prisma_user.findMany, prisma_user.count, prisma_user.create,
    prisma_user.update, prisma_user.delete, prisma_auditLog.create,
    prisma_auditLog.findMany, prisma_auditLog.findAll, prisma_auditLog.count
    in *.

Ltac unfold_routes :=
  unfold handle, serve, router, authenticateToken, callerOf in *;
  unfold postLogin, postLogout, getMe, getExpenses, postExpense, putExpense,
    putExpenseStatus, exportExpenses, getExpense, getUsers, postUser, putUser,
    deleteUser, getUser, getLogs, exportLogs in *;
  unfold_prisma; unfold_handlers.

Ltac pairs :=
  repeat match goal with
         | E : (_, _) = (_, _) |- _ => inversion E; subst; clear E
         | E : Some _ = Some _ |- _ => inversion E; subst; clear E
         | E : Ok _ = Ok _ |- _ => inversion E; subst; clear E
         end.

Lemma decision_cases status st :
  decision status = Some st -> st = APPROVED \/ st = REJECTED.
Proof.
  unfold decision. destruct status as [s|]; [|discriminate].
  destruct (s =? "APPROVED"); [intros [= <-]; auto|].
  destruct (s =? "REJECTED"); [intros [= <-]; auto|discriminate].
Qed.

(** An ADMIN's decision on an existing expense is stored, whatever the
    audit write does afterwards. *)
Lemma putExpenseStatus_stored {P : Platform}
    env db authorization id status reason u e0 st :
  callerOf env db authorization = Some u ->
  AuthUser.role u = ADMIN ->
  findBy (fun e => Expense.id e =? id) (expenses db) = Some e0 ->
  decision status = Some st ->
  faults env UserRead = false ->
  faults env ExpenseRead = false ->
  faults env ExpenseWrite = false ->
  findBy (fun e => Expense.id e =? id)
    (expenses (snd (handle env db authorization
                      (UpdateExpenseStatus id status reason))))
  = Some (prisma_expense.apply (decisionData st reason) e0).
Proof.
  intros Hc Hrole He0 Hst Hu Her Hew.
  unfold handle, serve, router.
  erewrite authenticateToken_caller by eassumption.
  unfold requireAdmin. rewrite Hrole. simpl.
  unfold putExpenseStatus. rewrite Hst. unfold_prisma. unfold_handlers.
  rewrite Her, He0. simpl. rewrite Hew, He0. simpl.
  destruct (faults env AuditWrite); simpl;
    rewrite find_updated, He0; reflexivity.
Qed.

(** The counterexample to C3 as stated: an ADMIN rejects the seeded expense
    that is already APPROVED, and the stored status changes. *)
Lemma putExpenseStatus_changes_decided_expense :
  option_map Expense.status
    (findBy (fun e => Expense.id e =? "e_uber") (expenses sampleDb))
  = Some APPROVED
  /\ statusCode
       (fst (handle (P := samplePlatform) sampleEnv sampleDb adminToken
               (UpdateExpenseStatus "e_uber" (Some "REJECTED") None))) = 200
  /\ option_map Expense.status
       (findBy (fun e => Expense.id e =? "e_uber")
          (expenses
             (snd (handle (P := samplePlatform) sampleEnv sampleDb adminToken
                     (UpdateExpenseStatus "e_uber" (Some "REJECTED") None)))))
     = Some REJECTED.
Proof. repeat split. Qed.

(** C3, amended. PUT /api/expenses/:id/status is callable only by an ADMIN:
    for any other caller nothing is written and the answer is not a success.
    Whenever it writes, it writes the requested status, APPROVED or REJECTED
    and never PENDING, to the expenses with that id; and for an ADMIN it does
    so for an existing expense whatever its current status is. *)
Theorem putExpenseStatus_transitions {P : Platform}
    env db authorization id status reason :
  let out := handle env db authorization (UpdateExpenseStatus id status reason) in
  ((forall u, callerOf env db authorization = Some u ->
              AuthUser.role u <> ADMIN) ->
   snd out = db /\ succeeded (fst out) = false)
  /\ (expenses (snd out) = expenses db
      \/ exists st,
           decision status = Some st
           /\ (st = APPROVED \/ st = REJECTED)
           /\ expenses (snd out)
              = updatedExpenses id (decisionData st reason) (expenses db))
  /\ (forall u e0 st,
        callerOf env db authorization = Some u ->
        AuthUser.role u = ADMIN ->
        findBy (fun e => Expense.id e =? id) (expenses db) = Some e0 ->
        decision status = Some st ->
        faults env UserRead = false ->
        faults env ExpenseRead = false ->
        faults env ExpenseWrite = false ->
        exists e',
          findBy (fun e => Expense.id e =? id) (expenses (snd out)) = Some e'
          /\ Expense.status e' = st).
Proof.
  cbv zeta. split; [|split].
  - intros Hrole. unfold handle, serve, router.
    destruct (admin_route env db authorization
                (fun user => putExpenseStatus user id status reason))
      as [(u & Hc & Hr & _)|[_ Haway]].
    + exfalso. exact (Hrole u Hc Hr).
    + apply turnedAway_serve, Haway.
  - unfold handle, serve, router.
    destruct (admin_route env db authorization
                (fun user => putExpenseStatus user id status reason))
      as [(u & _ & _ & _ & ->)|[_ Haway]].
    + unfold putExpenseStatus, updatedExpenses, decisionData.
      destruct (decision status) as [st|] eqn:Hst; [|left; reflexivity].
      unfold_prisma. unfold_handlers.
      repeat (branch; simpl in *; pairs; try discriminate; auto);
        right; exists st; (split; [reflexivity|]);
        (split; [eapply decision_cases; eassumption |]); reflexivity.
    + left. apply turnedAway_serve in Haway as [-> _]. reflexivity.
  - intros u e0 st Hc Hrole He0 Hst Hu Her Hew.
    exists (prisma_expense.apply (decisionData st reason) e0).
    split; [|reflexivity].
    eapply putExpenseStatus_stored; eassumption.
Qed.

Lemma putExpenseStatus_transitions_witness :
  (snd (handle (P := samplePlatform) sampleEnv sampleDb employeeToken
          (UpdateExpenseStatus "e_lunch" (Some "APPROVED") None)) = sampleDb
   /\ succeeded
        (fst (handle (P := samplePlatform) sampleEnv sampleDb employeeToken
                (UpdateExpenseStatus "e_lunch" (Some "APPROVED") None))) = false)
  /\ Expense.status flights = REJECTED
  /\ exists e',
       findBy (fun e => Expense.id e =? "e_flights")
         (expenses
            (snd (handle (P := samplePlatform) sampleEnv sampleDb adminToken
                    (UpdateExpenseStatus "e_flights" (Some "APPROVED") None))))
       = Some e'
       /\ Expense.status e' = APPROVED.
Proof.
  split; [|split; [reflexivity|]].
  - apply (proj1 (@putExpenseStatus_transitions samplePlatform sampleEnv
                    sampleDb employeeToken "e_lunch" (Some "APPROVED") None)).
    intros u Hu. injection Hu as <-. discriminate.
  - apply (proj2 (proj2 (@putExpenseStatus_transitions samplePlatform sampleEnv
                           sampleDb adminToken "e_flights" (Some "APPROVED")
                           None))
             (AuthUser_of admin) flights APPROVED);
      reflexivity.
Defined.

(* ===================================================================== *)
(** ** What each call does to the expense table *)
(* ===================================================================== *)

Ltac enter_admin_route env db h :=
  unfold handle, serve, router;
  match goal with
  | |- context [authenticateToken ?a _ env db] =>
      let u := fresh "u" in
      let Hc := fresh "Hcaller" in
      let Hr := fresh "Hadmin" in
      let Hu := fresh "Hread" in
      let Haway := fresh "Haway" in
      let Hfail := fresh "Hfail" in
      destruct (admin_route env db a h)
        as [(u & Hc & Hr & Hu & ->)|[_ Haway]];
      [|apply turnedAway_serve in Haway as [Haway Hfail]]
  end.

Ltac enter_route env db h :=
  unfold handle, serve, router;
  match goal with
  | |- context [authenticateToken ?a _ env db] =>
      let u := fresh "u" in
      let Hc := fresh "Hcaller" in
      let Hu := fresh "Hread" in
      let Haway := fresh "Haway" in
      let Hfail := fresh "Hfail" in
      destruct (authenticated_route env db a h)
        as [(u & Hc & Hu & ->)|[_ Haway]];
      [|apply turnedAway_serve in Haway as [Haway Hfail]]
  end.

Ltac run_handler :=
  unfold postLogin, postLogout, getMe, getExpenses, postExpense, putExpense,
    putExpenseStatus, exportExpenses, getExpense, getUsers, postUser, putUser,
    deleteUser, getUser, getLogs, exportLogs in *;
  unfold_prisma; unfold_handlers;
  repeat (branch; simpl in *; pairs; try discriminate).


(* ===================================================================== *)
(** ** Who writes the rejection reason *)
(* ===================================================================== *)


Lemma In_updatedExpenses id d l e' :
  In e' (updatedExpenses id d l) ->
  exists e, In e l /\ Expense.id e = Expense.id e'
            /\ (e' = e \/ (Expense.id e = id /\ e' = prisma_expense.apply d e)).
Proof.
  unfold updatedExpenses. rewrite in_map_iff. intros [e [He Hin]].
  exists e. split; [exact Hin|].
  destruct (Expense.id e =? id) eqn:Hid; subst e'.
  - apply String.eqb_eq in Hid. simpl. auto.
  - auto.
Qed.



(* ===================================================================== *)
(** ** Login failures *)
(* ===================================================================== *)

Lemma loginSchema_valid {P : Platform} email password e p :
  loginSchema email password = Valid (e, p) ->
  email = Some e /\ password = Some p.
Proof.
  unfold loginSchema.
  destruct email as [e'|], password as [p'|]; try discriminate.
  destruct (isEmail e' && nonEmpty p'); [|discriminate].
  intros [= <- <-]. auto.
Qed.

Lemma postLogin_wrong {P : Platform} env db e p :
  wrongCredentials db e p ->
  postLogin e p env db
  = if faults env UserRead
    then (Ok (json 500 (ErrorJson "Login failed" "An error occurred during login")),
          db)
    else (Ok invalidCredentials, db).
Proof.
  unfold postLogin, prisma_user.findUnique_email. unfold_handlers.
  destruct (faults env UserRead); [reflexivity|].
  intros [->|(u & -> & Hcmp)]; [reflexivity|].
  rewrite Hcmp. reflexivity.
Qed.

(** C7. A login attempt whose email belongs to no stored user and one whose
    password does not match the stored hash get the same answer: 401 with
    error 'Invalid credentials' and the same message, nothing being written;
    and whatever the request and the state of the database connection, the
    answers in the two cases are equal, so the caller cannot tell them
    apart. *)
Theorem postLogin_invalid_credentials {P : Platform}
    env authorization email password :
  (forall db e p,
      loginSchema email password = Valid (e, p) ->
      faults env UserRead = false ->
      wrongCredentials db e p ->
      handle env db authorization (Login email password)
      = (json 401 (ErrorJson "Invalid credentials"
                     "Email or password is incorrect"), db))
  /\ (forall db1 db2 e p,
        email = Some e ->
        password = Some p ->
        findBy (fun u => User.email u =? e) (users db1) = None ->
        (exists u, findBy (fun u => User.email u =? e) (users db2) = Some u
                   /\ bcryptCompare p (User.password u) = false) ->
        fst (handle env db1 authorization (Login email password))
        = fst (handle env db2 authorization (Login email password))).
Proof.
  split.
  - intros db e p Hvalid Hread Hwrong.
    unfold handle, serve, router, validate. rewrite Hvalid. simpl.
    rewrite (postLogin_wrong env db e p Hwrong), Hread. reflexivity.
  - intros db1 db2 e p -> -> Hnone Hbad.
    unfold handle, serve, router, validate.
    destruct (loginSchema (Some e) (Some p)) as [[e' p']|details|message] eqn:Hs;
      [|reflexivity|reflexivity].
    apply loginSchema_valid in Hs as [[= <-] [= <-]]. simpl.
    rewrite (postLogin_wrong env db1 e p), (postLogin_wrong env db2 e p).
    + destruct (faults env UserRead); reflexivity.
    + right. exact Hbad.
    + left. exact Hnone.
Qed.

Lemma postLogin_invalid_credentials_witness :
  handle (P := samplePlatform) sampleEnv sampleDb None
    (Login (Some "nobody@example.com") (Some "password123"))
  = (json 401 (ErrorJson "Invalid credentials" "Email or password is incorrect"),
     sampleDb)
  /\ handle (P := samplePlatform) sampleEnv sampleDb None
       (Login (Some "admin@example.com") (Some "letmein"))
     = (json 401 (ErrorJson "Invalid credentials" "Email or password is incorrect"),
        sampleDb).
Proof.
  split.
  - apply (proj1 (@postLogin_invalid_credentials samplePlatform sampleEnv None
                    (Some "nobody@example.com") (Some "password123"))
             sampleDb "nobody@example.com" "password123");
      [reflexivity | reflexivity | left; reflexivity].
  - apply (proj1 (@postLogin_invalid_credentials samplePlatform sampleEnv None
                    (Some "admin@example.com") (Some "letmein"))
             sampleDb "admin@example.com" "letmein");
      [reflexivity | reflexivity | right; exists admin; split; reflexivity].
Defined.

(* ===================================================================== *)
(** ** Deleting a user *)
(* ===================================================================== *)

Lemma find_after_delete id (l : list User.t) :
  findBy (fun u => User.id u =? id)
         (filter (fun u => negb (User.id u =? id)) l) = None.
Proof.
  unfold findBy. induction l as [|u l IH]; simpl; [reflexivity|].
  destruct (User.id u =? id) eqn:Hid; simpl; [exact IH|].
  rewrite Hid. exact IH.
Qed.

Lemma find_other_after_delete id other (l : list User.t) :
  other <> id ->
  findBy (fun u => User.id u =? other)
         (filter (fun u => negb (User.id u =? id)) l)
  = findBy (fun u => User.id u =? other) l.
Proof.
  intros Hne. unfold findBy. induction l as [|u l IH]; simpl; [reflexivity|].
  destruct (User.id u =? id) eqn:Hid; simpl.
  - apply String.eqb_eq in Hid.
    destruct (User.id u =? other) eqn:Ho; [|exact IH].
    apply String.eqb_eq in Ho. congruence.
  - destruct (User.id u =? other); [reflexivity|exact IH].
Qed.

(** C8. DELETE /api/users/:id with the caller's own id deletes nothing: the
    tables, and with them the caller's record, are unchanged and the answer
    is not a success (for an ADMIN it is 400 'Cannot delete yourself');
    deleting a different existing user succeeds, that user is gone and the
    caller's record is still there. *)
Theorem deleteUser_self_guard {P : Platform} env db authorization id u :
  callerOf env db authorization = Some u ->
  let out := handle env db authorization (DeleteUser id) in
  (AuthUser.id u = id ->
   snd out = db
   /\ succeeded (fst out) = false
   /\ (AuthUser.role u = ADMIN -> faults env UserRead = false ->
       fst out = json 400 (ErrorJson "Cannot delete yourself"
                             "You cannot delete your own account")))
  /\ (forall target,
        AuthUser.id u <> id ->
        AuthUser.role u = ADMIN ->
        findBy (fun x => User.id x =? id) (users db) = Some target ->
        faults env UserRead = false ->
        faults env UserWrite = false ->
        faults env AuditWrite = false ->
        fst out = json 200 (MessageJson "User deleted successfully")
        /\ users (snd out) = filter (fun x => negb (User.id x =? id)) (users db)
        /\ findBy (fun x => User.id x =? id) (users (snd out)) = None
        /\ findBy (fun x => User.id x =? AuthUser.id u) (users (snd out))
           = findBy (fun x => User.id x =? AuthUser.id u) (users db)).
Proof.
  intros Hc. cbv zeta. split.
  - intros <-.
    destruct (callerOf_stored env db authorization u Hc) as (row & Hrow & ->).
    simpl in Hrow.
    assert (Hself : forall admin,
               AuthUser.id admin = User.id row ->
               faults env UserRead = false ->
               deleteUser admin (User.id row) env db
               = (Ok (json 400 (ErrorJson "Cannot delete yourself"
                                  "You cannot delete your own account")), db)).
    { intros admin Hid Hread.
      unfold deleteUser, prisma_user.findUnique_id. unfold_handlers.
      rewrite Hread, Hrow. simpl. rewrite Hid, String.eqb_refl. reflexivity. }
    unfold handle, serve, router.
    destruct (admin_route env db authorization
                (fun user => deleteUser user (AuthUser.id (AuthUser_of row))))
      as [(u' & Hc' & Hr & Hu & ->)|[_ Haway]].
    + rewrite Hc in Hc'. injection Hc' as <-.
      simpl. rewrite (Hself (AuthUser_of row) eq_refl Hu). simpl. auto.
    + apply turnedAway_serve in Haway as Hs. destruct Hs as [Hdb Hfail].
      split; [exact Hdb|]. split; [exact Hfail|].
      intros Hrole Hread.
      rewrite (authenticateToken_caller env db authorization _ _ Hc Hread).
      unfold requireAdmin. rewrite Hrole. simpl.
      rewrite (Hself (AuthUser_of row) eq_refl Hread). reflexivity.
  - intros target Hne Hrole Htarget Hread Hwrite Haudit.
    unfold handle, serve, router.
    rewrite (authenticateToken_caller env db authorization _ _ Hc Hread).
    unfold requireAdmin. rewrite Hrole. simpl.
    unfold deleteUser. unfold_prisma. unfold_handlers.
    rewrite Hread, Htarget. simpl.
    assert (Hid : User.id target = id).
    { unfold findBy in Htarget. apply find_some in Htarget as [_ H].
      apply String.eqb_eq, H. }
    assert (Hneq : (User.id target =? AuthUser.id u) = false).
    { apply String.eqb_neq. congruence. }
    rewrite Hneq, Hwrite, Htarget. simpl. rewrite Haudit. simpl.
    repeat split.
    + apply find_after_delete.
    + apply find_other_after_delete. exact Hne.
Qed.

Lemma deleteUser_self_guard_witness :
  (snd (handle (P := samplePlatform) sampleEnv sampleDb adminToken
          (DeleteUser "u_admin")) = sampleDb
   /\ succeeded (fst (handle (P := samplePlatform) sampleEnv sampleDb adminToken
                        (DeleteUser "u_admin"))) = false
   /\ fst (handle (P := samplePlatform) sampleEnv sampleDb adminToken
             (DeleteUser "u_admin"))
      = json 400 (ErrorJson "Cannot delete yourself"
                    "You cannot delete your own account"))
  /\ fst (handle (P := samplePlatform) sampleEnv sampleDb adminToken
            (DeleteUser "u_col"))
     = json 200 (MessageJson "User deleted successfully")
  /\ findBy (fun x => User.id x =? "u_col")
       (users (snd (handle (P := samplePlatform) sampleEnv sampleDb adminToken
                      (DeleteUser "u_col")))) = None.
Proof.
  pose proof (@deleteUser_self_guard samplePlatform sampleEnv sampleDb adminToken
                "u_admin" (AuthUser_of admin) eq_refl) as Hself.
  pose proof (@deleteUser_self_guard samplePlatform sampleEnv sampleDb adminToken
                "u_col" (AuthUser_of admin) eq_refl) as Hother.
  cbv zeta in Hself, Hother.
  destruct Hself as [Hself _]. destruct (Hself eq_refl) as (H1 & H2 & H3).
  destruct Hother as [_ Hother].
  destruct (Hother colleague) as (H4 & _ & H5 & _);
    try reflexivity; try discriminate.
  repeat split; auto.
Defined.

(* ===================================================================== *)
(** ** Updating a user *)
(* ===================================================================== *)

Lemma putUser_users {P : Platform} admin id f env db :
  users (snd (putUser admin id f env db)) = users db
  \/ exists existingUser,
       findBy (fun u => User.id u =? id) (users db) = Some existingUser
       /\ users (snd (putUser admin id f env db))
          = map (fun u => if User.id u =? id
                          then prisma_user.apply (userUpdateData f existingUser) u
                          else u) (users db).
Proof.
  unfold userUpdateData.
  run_handler; try (left; reflexivity);
    match goal with
    | H : findBy _ _ = Some ?t |- _ =>
        right; exists t; split; [exact H|reflexivity]
    end.
Qed.

Lemma issue_nil path ok : issue path ok = [] -> ok = true.
Proof. destruct ok; [reflexivity|discriminate]. Qed.

Lemma userUpdateSchema_valid {P : Platform} i f :
  userUpdateSchema i = Valid f ->
  UserUpdateFields.email f = UserInput.email i
  /\ UserUpdateFields.password f = UserInput.password i
  /\ UserUpdateFields.name f = UserInput.name i
  /\ (truthy (UserInput.role i) = None -> UserUpdateFields.role f = None).
Proof.
  unfold userUpdateSchema.
  destruct (_ ++ _) as [|x rest] eqn:Hissues; [|discriminate].
  intros [= <-]. simpl. repeat split.
  apply app_eq_nil in Hissues as [_ Hissues].
  apply app_eq_nil in Hissues as [_ Hissues].
  apply app_eq_nil in Hissues as [_ Hrole].
  apply issue_nil in Hrole.
  destruct (UserInput.role i) as [s|]; [|reflexivity].
  simpl in *. destruct (s =? "") eqn:Hs; [|discriminate].
  apply String.eqb_eq in Hs. subst s. discriminate.
Qed.

Lemma find_unique_user (l : list User.t) u :
  NoDup (map User.id l) ->
  In u l ->
  findBy (fun x => User.id x =? User.id u) l = Some u.
Proof.
  unfold findBy. induction l as [|x l IH]; simpl; [tauto|].
  intros Hnd [->|Hin].
  - rewrite String.eqb_refl. reflexivity.
  - inversion Hnd as [|? ? Hx Hnd']; subst.
    destruct (User.id x =? User.id u) eqn:Hid; [|auto].
    apply String.eqb_eq in Hid. exfalso. apply Hx. rewrite Hid.
    apply in_map. exact Hin.
Qed.

Lemma Forall2_map_same {A} (R : A -> A -> Prop) (g : A -> A) (l : list A) :
  (forall x, In x l -> R x (g x)) -> Forall2 R l (map g l).
Proof.
  induction l as [|x l IH]; simpl; intros H; constructor; auto.
Qed.

Lemma userKept_refl id i u : userKept id i u u.
Proof. unfold userKept. repeat split; auto. Qed.

(** C10. PUT /api/users/:id, whatever its outcome, leaves unchanged every
    field it is not given: row by row, the users after the call are the
    users before it, where rows with another id are identical, and in the
    row with that id the password hash is the stored one when no password
    is supplied and an omitted or empty email, name or role keeps its
    value. *)
Theorem putUser_frame {P : Platform} env db authorization id i :
  NoDup (map User.id (users db)) ->
  Forall2 (userKept id i) (users db)
          (users (snd (handle env db authorization (UpdateUser id i)))).
Proof.
  intros Hnd.
  assert (Hrefl : Forall2 (userKept id i) (users db) (users db)).
  { rewrite <- (map_id (users db)) at 2.
    apply Forall2_map_same. intros x _. apply userKept_refl. }
  enter_admin_route env db
    (fun user => validate (userUpdateSchema i) (putUser user id));
    [|rewrite Haway; exact Hrefl].
  unfold validate.
  destruct (userUpdateSchema i) as [f|details|message] eqn:Hschema;
    [|exact Hrefl|exact Hrefl].
  apply userUpdateSchema_valid in Hschema as (Hemail & Hpw & Hname & Hrole).
  assert (Hsnd : forall o,
             snd (match o : Outcome Response * Db with
                  | (Ok r, db') => (r, db')
                  | (Throw _, db') => (errorHandler, db')
                  end) = snd o).
  { intros [[r|e] d]; reflexivity. }
  rewrite Hsnd.
  destruct (putUser_users u id f env db) as [->|(existing & Hfind & ->)];
    [exact Hrefl|].
  apply Forall2_map_same. intros x Hx.
  destruct (User.id x =? id) eqn:Hid; [|apply userKept_refl].
  apply String.eqb_eq in Hid. subst id.
  rewrite (find_unique_user _ x Hnd Hx) in Hfind. injection Hfind as <-.
  unfold userKept, userUpdateData, orElse. simpl.
  rewrite Hemail, Hpw, Hname.
  repeat split.
  - intros H. exfalso. apply H. reflexivity.
  - intros ->. reflexivity.
  - intros ->. reflexivity.
  - intros ->. reflexivity.
  - intros H. rewrite (Hrole H). reflexivity.
Qed.

Lemma putUser_frame_witness :
  Forall2 (userKept "u_emp" (UserInput.mk None None (Some "Johnny") None))
    (users sampleDb)
    (users (snd (handle (P := samplePlatform) sampleEnv sampleDb adminToken
                   (UpdateUser "u_emp"
                      (UserInput.mk None None (Some "Johnny") None)))))
  /\ option_map (fun u => (User.name u, User.password u))
       (findBy (fun u => User.id u =? "u_emp")
          (users (snd (handle (P := samplePlatform) sampleEnv sampleDb adminToken
                         (UpdateUser "u_emp"
                            (UserInput.mk None None (Some "Johnny") None))))))
     = Some ("Johnny", User.password employee).
Proof.
  split; [|reflexivity].
  apply (@putUser_frame samplePlatform sampleEnv sampleDb adminToken "u_emp"
           (UserInput.mk None None (Some "Johnny") None)).
  simpl. repeat constructor; simpl; intuition discriminate.
Defined.

(* ===================================================================== *)
(** ** One audit entry per state-changing call *)
(* ===================================================================== *)

(** The counterexample to C5 as stated: the audit table rejects writes, an
    ADMIN exports the expenses, the CSV is answered with 200 and no audit
    entry is added. *)
Lemma export_succeeds_without_audit_entry :
  stateChanging (ExportExpenses None None None None) = true
  /\ succeeded
       (fst (handle (P := samplePlatform) (mkEnv (now sampleEnv) auditDown)
               sampleDb adminToken (ExportExpenses None None None None))) = true
  /\ auditLogs
       (snd (handle (P := samplePlatform) (mkEnv (now sampleEnv) auditDown)
               sampleDb adminToken (ExportExpenses None None None None)))
     = auditLogs sampleDb.
Proof. repeat split. Qed.

Ltac solve_audit :=
  match goal with
  | H : false = true |- _ => discriminate H
  | H : true = false |- _ => discriminate H
  | |- ?x = ?x => reflexivity
  | Hc : callerOf _ _ _ = Some _ |- exists a, _ =>
      eexists; split; [reflexivity|]; simpl; rewrite Hc; reflexivity
  end.

(** C5, amended. Every state-changing call that succeeds, other than a CSV
    export, adds exactly one audit entry, attributed to the acting user, to
    the entries it leaves in place (deleting a user takes that user's own
    entries along); a CSV export sends its answer before it writes the
    entry, so it adds exactly one entry when that write goes through; a
    read-only call adds none. *)
Theorem audit_entry_per_state_change {P : Platform} env db authorization c :
  let out := handle env db authorization c in
  succeeded (fst out) = true ->
  (isExport c = true -> faults env AuditWrite = false) ->
  if stateChanging c
  then exists a,
         auditLogs (snd out) = survivingLogs c db ++ [a]
         /\ actorOf env db authorization c = Some (AuditLog.userId a)
  else auditLogs (snd out) = auditLogs db.
Proof.
  cbv zeta.
  destruct c as [email password| | |q|file i|id file i|id status reason
                |category status startDate endDate|id|pg lim search|i|id i
                |id|id|pg lim action userId startDate endDate
                |action userId startDate endDate];
    intros Hok Hexport; simpl stateChanging; cbv iota;
    simpl survivingLogs; simpl in Hexport.
  - (* Login *)
    revert Hok. unfold handle, serve, router, validate.
    destruct (loginSchema email password) as [[e p]|details|message] eqn:Hs;
      [|discriminate|discriminate].
    apply loginSchema_valid in Hs as [-> ->]. simpl.
    intros Hok. run_handler.
    eexists; split; [reflexivity|]. simpl.
    match goal with H : findBy _ _ = Some _ |- _ => rewrite H end. reflexivity.
  - revert Hok. enter_route env db postLogout;
      [|intros Hok; congruence].
    intros Hok. run_handler. solve_audit.
  - revert Hok. enter_route env db getMe;
      [|intros _; rewrite Haway; reflexivity].
    intros Hok. run_handler. reflexivity.
  - revert Hok.
    enter_route env db
      (fun user => validate (expenseFilterSchema q) (getExpenses user));
      [|intros _; rewrite Haway; reflexivity].
    unfold validate. destruct (expenseFilterSchema q); [|reflexivity|reflexivity].
    intros Hok. run_handler; reflexivity.
  - revert Hok.
    enter_route env db
      (fun user => requireEmployee user
         (upload_single file (fun stored =>
            validate (expenseSchema i) (postExpense user stored))));
      [|intros Hok; congruence].
    unfold requireEmployee, upload_single, validate.
    destruct (requireEmployeeRole (AuthUser.role u)); [|discriminate].
    destruct file; [| |discriminate];
      (destruct (expenseSchema i); [|discriminate|discriminate]);
      intros Hok; run_handler; solve_audit.
  - revert Hok.
    enter_route env db
      (fun user => upload_single file (fun stored => putExpense user id stored i));
      [|intros Hok; congruence].
    unfold upload_single.
    destruct file; [| |discriminate]; intros Hok; run_handler; solve_audit.
  - revert Hok.
    enter_admin_route env db (fun user => putExpenseStatus user id status reason);
      [|intros Hok; congruence].
    intros Hok. run_handler; solve_audit.
  - specialize (Hexport eq_refl). revert Hok.
    enter_admin_route env db
      (fun user => exportExpenses user category status startDate endDate);
      [|intros Hok; congruence].
    intros Hok. run_handler; try congruence; solve_audit.
  - revert Hok. enter_route env db (fun user => getExpense user id);
      [|intros _; rewrite Haway; reflexivity].
    intros Hok. run_handler; reflexivity.
  - revert Hok.
    enter_admin_route env db (fun _ : AuthUser.t => getUsers pg lim search);
      [|intros _; rewrite Haway; reflexivity].
    intros Hok. run_handler; reflexivity.
  - revert Hok.
    enter_admin_route env db (fun user => validate (userSchema i) (postUser user));
      [|intros Hok; congruence].
    unfold validate. destruct (userSchema i); [|discriminate|discriminate].
    intros Hok. run_handler; solve_audit.
  - revert Hok.
    enter_admin_route env db
      (fun user => validate (userUpdateSchema i) (putUser user id));
      [|intros Hok; congruence].
    unfold validate. destruct (userUpdateSchema i); [|discriminate|discriminate].
    intros Hok. run_handler; solve_audit.
  - revert Hok.
    enter_admin_route env db (fun user => deleteUser user id);
      [|intros Hok; congruence].
    intros Hok. run_handler; solve_audit.
  - revert Hok. enter_admin_route env db (fun _ : AuthUser.t => getUser id);
      [|intros _; rewrite Haway; reflexivity].
    intros Hok. run_handler; reflexivity.
  - revert Hok.
    enter_admin_route env db
      (fun _ : AuthUser.t => getLogs pg lim action userId startDate endDate);
      [|intros _; rewrite Haway; reflexivity].
    intros Hok. run_handler; reflexivity.
  - specialize (Hexport eq_refl). revert Hok.
    enter_admin_route env db
      (fun user => exportLogs user action userId startDate endDate);
      [|intros Hok; congruence].
    intros Hok. run_handler; try congruence; solve_audit.
Qed.

Lemma audit_entry_per_state_change_witness :
  (exists a,
      auditLogs
        (snd (handle (P := samplePlatform) sampleEnv sampleDb employeeToken
                (CreateExpense NoFile
                   (ExpenseInput.mk (Some "120") (Some "FOOD")
                      (Some "1705276800000") None))))
      = auditLogs sampleDb ++ [a]
      /\ Some "u_emp" = Some (AuditLog.userId a))
  /\ (exists a,
         auditLogs
           (snd (handle (P := samplePlatform) sampleEnv sampleDb adminToken
                   (ExportExpenses None None None None)))
         = auditLogs sampleDb ++ [a]
         /\ Some "u_admin" = Some (AuditLog.userId a))
  /\ auditLogs
       (snd (handle (P := samplePlatform) sampleEnv sampleDb employeeToken
               (GetExpense "e_uber")))
     = auditLogs sampleDb.
Proof.
  split; [|split].
  - refine (@audit_entry_per_state_change samplePlatform sampleEnv sampleDb
              employeeToken
              (CreateExpense NoFile
                 (ExpenseInput.mk (Some "120") (Some "FOOD")
                    (Some "1705276800000") None)) _ _);
      [reflexivity|discriminate].
  - refine (@audit_entry_per_state_change samplePlatform sampleEnv sampleDb
              adminToken (ExportExpenses None None None None) _ _);
      reflexivity.
  - refine (@audit_entry_per_state_change samplePlatform sampleEnv sampleDb
              employeeToken (GetExpense "e_uber") _ _);
      [reflexivity|discriminate].
Defined.

(* ===================================================================== *)
(** ** A failed audit write undoes nothing *)
(* ===================================================================== *)

(** Handler code is built from calls that do not touch the audit table,
    the audit write itself, and control flow; the three facts below follow
    that structure. *)
Lemma auditBlind_tolerant {A} (m : M A) : auditBlind m -> auditTolerant m.
Proof. intros H env db. rewrite H. reflexivity. Qed.

Lemma tolerant_bind {A B} (m : M A) (k : A -> M B) :
  auditBlind m ->
  (forall a, auditTolerant (k a)) ->
  auditTolerant (bind m k).
Proof.
  intros Hm Hk env db. unfold bind. rewrite Hm.
  destruct (m env db) as [[a|e] d]; [apply Hk|reflexivity].
Qed.

Lemma tolerant_audit {P : Platform} {B} action description userId
    (k : AuditLog.t -> M B) :
  (forall a, keepsPrimary (k a)) ->
  auditTolerant (bind (prisma_auditLog.create action description userId) k).
Proof.
  intros Hk env db. unfold bind, prisma_auditLog.create, prisma. simpl.
  destruct (faults env AuditWrite); [reflexivity|].
  rewrite Hk. reflexivity.
Qed.

Lemma tolerant_tryCatch (m : M Response) onError :
  auditTolerant m -> auditTolerant (tryCatch m onError).
Proof.
  intros Hm env db. specialize (Hm env db). unfold tryCatch.
  destruct (m (auditFailing env) db) as [[r|e] d],
           (m env db) as [[r'|e'] d']; exact Hm.
Qed.

Lemma tolerant_sendThen r (m : M unit) :
  auditTolerant m -> auditTolerant (sendThen r m).
Proof.
  intros Hm env db. specialize (Hm env db). unfold sendThen.
  destruct (m (auditFailing env) db) as [o d], (m env db) as [o' d']. exact Hm.
Qed.

Lemma blind_prisma {A} op (f : Db -> Outcome A * Db) :
  op <> AuditWrite -> auditBlind (prisma op f).
Proof.
  intros Hop env db. unfold prisma. destruct op; simpl; congruence.
Qed.

Lemma blind_bind {A B} (m : M A) (k : A -> M B) :
  auditBlind m -> (forall a, auditBlind (k a)) -> auditBlind (bind m k).
Proof.
  intros Hm Hk env db. unfold bind. rewrite Hm.
  destruct (m env db) as [[a|e] d]; [apply Hk|reflexivity].
Qed.

Lemma blind_ret {A} (a : A) : auditBlind (ret a).
Proof. intros env db. reflexivity. Qed.

Lemma blind_throw {A} e : auditBlind (@throw A e).
Proof. intros env db. reflexivity. Qed.

Lemma blind_clock : auditBlind clock.
Proof. intros env db. reflexivity. Qed.

Lemma keeps_ret {A} (a : A) : keepsPrimary (ret a).
Proof. intros env db. reflexivity. Qed.

Lemma keeps_clock_bind {A} (k : Z -> A) :
  keepsPrimary (bind clock (fun t => ret (k t))).
Proof. intros env db. reflexivity. Qed.

Ltac blind :=
  repeat first
    [ apply blind_ret | apply blind_throw | apply blind_clock
    | apply blind_prisma; discriminate
    | apply blind_bind; [|intro]
    | match goal with
      | |- auditBlind (fun env => prisma ?op _ env) =>
          let env := fresh "env" in
          let db := fresh "db" in
          intros env db; unfold prisma; simpl; reflexivity
      | |- auditBlind (match ?x with _ => _ end) => destruct x
      | |- auditBlind (if ?x then _ else _) => destruct x
      end ];
  try (intros ? ?; reflexivity).

Ltac tolerant :=
  repeat first
    [ apply tolerant_tryCatch
    | apply tolerant_sendThen
    | apply tolerant_audit;
        intro; first [apply keeps_ret | apply keeps_clock_bind]
    | apply tolerant_bind; [solve [blind]|intro]
    | apply auditBlind_tolerant; solve [blind]
    | match goal with
      | |- auditTolerant (match ?x with _ => _ end) => destruct x
      | |- auditTolerant (if ?x then _ else _) => destruct x
      | |- auditTolerant (let _ := _ in _) => cbv zeta
      end ].

Lemma router_auditTolerant {P : Platform} authorization c :
  auditTolerant (router authorization c).
Proof.
  destruct c; unfold router, authenticateToken, requireAdmin, requireEmployee,
    upload_single, validate;
    unfold postLogin, postLogout, getMe, getExpenses, postExpense, putExpense,
      putExpenseStatus, exportExpenses, getExpense, getUsers, postUser, putUser,
      deleteUser, getUser, getLogs, exportLogs, dateArg, newDateArg, enumArg;
    unfold_prisma;
    tolerant.
Qed.

Lemma serve_primary (m : M Response) env db :
  primary (snd (serve m env db)) = primary (snd (m env db)).
Proof.
  unfold serve. destruct (m env db) as [[r|e] d]; reflexivity.
Qed.

(** C6. When the audit write that follows a primary mutation fails, the
    mutation stays: for every call, the users and the expenses after the
    call are the same whether the audit table rejected the write or took
    it; in particular an expense creation whose audit write fails is
    answered 500 while the new expense, owned by the caller, is in the
    expense table and no audit entry exists for it. *)
Theorem audit_failure_keeps_mutation {P : Platform} env db authorization :
  (forall c,
      users (snd (handle (auditFailing env) db authorization c))
      = users (snd (handle env db authorization c))
      /\ expenses (snd (handle (auditFailing env) db authorization c))
         = expenses (snd (handle env db authorization c)))
  /\ (forall file i u f d,
        callerOf env db authorization = Some u ->
        requireEmployeeRole (AuthUser.role u) = true ->
        (forall message, file <> Refused message) ->
        expenseSchema i = Valid f ->
        newDate (ExpenseFields.date f) = Some d ->
        faults env UserRead = false ->
        faults env ExpenseWrite = false ->
        let out := handle (auditFailing env) db authorization
                     (CreateExpense file i) in
        statusCode (fst out) = 500
        /\ auditLogs (snd out) = auditLogs db
        /\ exists e,
             expenses (snd out) = expenses db ++ [e]
             /\ Expense.userId e = AuthUser.id u
             /\ Expense.amount e = ExpenseFields.amount f
             /\ Expense.category e = ExpenseFields.category f
             /\ Expense.status e = PENDING).
Proof.
  split.
  - intros c.
    pose proof (router_auditTolerant authorization c env db) as H.
    unfold handle. rewrite <- !serve_primary in H.
    unfold primary in H. injection H as Hu He. auto.
  - intros file i u f d Hc Hrole Hfile Hschema Hdate Hread Hwrite. cbv zeta.
    unfold handle, serve, router.
    rewrite (authenticateToken_caller (auditFailing env) db authorization _ u Hc Hread).
    unfold requireEmployee, upload_single, validate. rewrite Hrole, Hschema.
    assert (Hrun : forall stored,
               postExpense u stored f (auditFailing env) db
               = (Ok (json 500 (ErrorJson "Failed to create expense"
                                  "An error occurred while creating the expense")),
                  mkDb (users db)
                       (expenses db ++
                        [Expense.mk (cuid (issued db)) (ExpenseFields.amount f)
                           (ExpenseFields.category f) d (ExpenseFields.notes f)
                           PENDING None
                           (option_map (fun fn => "/uploads/" +++ fn) stored)
                           (AuthUser.id u) (now env)])
                       (auditLogs db) (S (issued db)))).
    { intros stored. unfold postExpense. unfold_prisma. unfold_handlers.
      rewrite Hdate. simpl. rewrite Hwrite. reflexivity. }
    destruct file as [|filename|message];
      [| |exfalso; exact (Hfile message eq_refl)];
      rewrite Hrun; simpl; repeat split; eexists; repeat split.
Qed.

Lemma audit_failure_keeps_mutation_witness :
  statusCode
    (fst (handle (P := samplePlatform) (auditFailing sampleEnv) sampleDb
            employeeToken
            (CreateExpense NoFile
               (ExpenseInput.mk (Some "120") (Some "FOOD")
                  (Some "1705276800000") None)))) = 500
  /\ auditLogs
       (snd (handle (P := samplePlatform) (auditFailing sampleEnv) sampleDb
               employeeToken
               (CreateExpense NoFile
                  (ExpenseInput.mk (Some "120") (Some "FOOD")
                     (Some "1705276800000") None)))) = auditLogs sampleDb
  /\ exists e,
       expenses
         (snd (handle (P := samplePlatform) (auditFailing sampleEnv) sampleDb
                 employeeToken
                 (CreateExpense NoFile
                    (ExpenseInput.mk (Some "120") (Some "FOOD")
                       (Some "1705276800000") None))))
       = expenses sampleDb ++ [e]
       /\ Expense.userId e = "u_emp"
       /\ Expense.amount e = 120%float
       /\ Expense.category e = FOOD
       /\ Expense.status e = PENDING.
Proof.
  apply (proj2 (@audit_failure_keeps_mutation samplePlatform sampleEnv sampleDb
                  employeeToken)
           NoFile
           (ExpenseInput.mk (Some "120") (Some "FOOD") (Some "1705276800000") None)
           (AuthUser_of employee)
           (ExpenseFields.mk 120 FOOD "1705276800000" None)
           1705276800000%Z);
    try reflexivity.
  discriminate.
Defined.

(* ===================================================================== *)
(** ** What a call can do to the database *)
(* ===================================================================== *)

(** Enter the middleware chain of whatever call the goal is about. *)
Ltac open_call env db :=
  unfold handle, serve, router;
  first
    [ match goal with
      | |- context [authenticateToken ?a
                      (fun user => requireAdmin user (@?next user)) env db] =>
          let u := fresh "u" in
          let Hc := fresh "Hcaller" in
          let Hr := fresh "Hadmin" in
          let Hu := fresh "Hread" in
          let Haway := fresh "Haway" in
          let Hsame := fresh "Hsame" in
          let Hfail := fresh "Hfail" in
          destruct (admin_route env db a next)
            as [(u & Hc & Hr & Hu & ->)|[_ Haway]];
          [|pose proof (turnedAway_serve _ _ Haway) as [Hsame Hfail]]
      end
    | match goal with
      | |- context [authenticateToken ?a ?next env db] =>
          let u := fresh "u" in
          let Hc := fresh "Hcaller" in
          let Hu := fresh "Hread" in
          let Haway := fresh "Haway" in
          let Hsame := fresh "Hsame" in
          let Hfail := fresh "Hfail" in
          destruct (authenticated_route env db a next)
            as [(u & Hc & Hu & ->)|[_ Haway]];
          [|pose proof (turnedAway_serve _ _ Haway) as [Hsame Hfail]]
      end
    | idtac ].

Lemma findBy_user_id id (l : list User.t) u :
  findBy (fun x => User.id x =? id) l = Some u -> User.id u = id.
Proof.
  unfold findBy. intros H. apply find_some in H as [_ H].
  apply String.eqb_eq, H.
Qed.

Ltac actor_known :=
  simpl;
  first
    [ match goal with
      | H : callerOf _ _ _ = Some _ |- _ => rewrite H; reflexivity
      end
    | match goal with
      | H : findBy _ _ = Some _ |- _ => rewrite H; reflexivity
      end ].

Ltac entry_written :=
  right; eexists; split; [reflexivity|];
  repeat (split; [reflexivity|]); actor_known.

Ltac primary_written :=
  right; simpl;
  repeat eexists;
  first [reflexivity | eassumption
        | match goal with
          | H : truthy _ = _ |- _ => rewrite H; reflexivity
          end
        | match goal with
          | H : (User.id ?t =? ?x) = false,
            F : findBy _ _ = Some ?t |- ?x <> _ =>
              apply String.eqb_neq in H; apply findBy_user_id in F; congruence
          end ].

Ltac effect_found d :=
  first
    [ exists d; split; [left; reflexivity | left; reflexivity]
    | exists d; split; [entry_written | left; reflexivity]
    | match goal with
      | |- exists db1, (?dbf = db1 \/ _) /\ _ =>
          first
            [ exists dbf; split; [left; reflexivity | primary_written]
            | match dbf with
              | mkDb ?U ?E (?L ++ [_]) (S ?I) =>
                  exists (mkDb U E L I); split;
                  [entry_written | primary_written]
              end ]
      end ].

Ltac summarize :=
  repeat match goal with
         | H : isSome _ = _ |- _ => rewrite !H; clear H
         end;
  unfold effectOf, audited, primaryEffect, updatedExpenses, decisionData;
  match goal with
  | |- exists db1, _ /\ (db1 = ?d \/ _) => effect_found d
  end.

Lemma call_effect {P : Platform} env db authorization c :
  effectOf env db authorization c (snd (handle env db authorization c)).
Proof.
  destruct c as [email password| | |q|file i|id file i|id status reason
                |category status startDate endDate|id|pg lim search|i|id i
                |id|id|pg lim action userId startDate endDate
                |action userId startDate endDate].
  2-16: open_call env db; try (rewrite Hsame; summarize);
        run_handler; summarize.
  unfold handle, serve, router, validate.
  destruct (loginSchema email password) as [[e p]|details|message] eqn:Hs;
    [|summarize|summarize].
  apply loginSchema_valid in Hs as [-> ->]. simpl.
  run_handler; summarize.
Qed.

Lemma answer_or_unchanged {P : Platform} env db authorization c r db' :
  handle env db authorization c = (r, db') ->
  db' = db \/ clientError r = false.
Proof.
  destruct c; open_call env db;
    try (intros H; rewrite H in Hsame; left; exact Hsame);
    run_handler; intros H; inversion H; subst;
    repeat match goal with
           | E : isSome _ = _ |- _ => rewrite !E; clear E
           end;
    first [left; reflexivity | right; reflexivity].
Qed.

(* ===================================================================== *)
(** ** Calls that write nothing *)
(* ===================================================================== *)

(** X1. A call that is not state-changing (the lists, the single-record
    reads and /me) leaves the three tables and the key counter exactly as
    they were, whatever it answers. *)
Theorem read_only_calls_write_nothing {P : Platform} env db authorization c :
  stateChanging c = false ->
  snd (handle env db authorization c) = db.
Proof.
  intros Hc.
  destruct (call_effect env db authorization c)
    as (db1 & [->|(a & _ & Hs & _)] & [->|Hp]); try congruence;
    destruct c; try discriminate; contradiction.
Qed.

Lemma read_only_calls_write_nothing_witness :
  snd (handle (P := samplePlatform) sampleEnv sampleDb employeeToken
         (ListExpenses (FilterInput.mk (Some "TRAVEL") None None None None None)))
  = sampleDb.
Proof.
  apply (@read_only_calls_write_nothing samplePlatform). reflexivity.
Defined.

(** X2. Whatever the call, an answer in the 4xx range (validation failure,
    missing or insufficient credentials, unknown id, duplicate email,
    deleting oneself) means that nothing was written. *)
Theorem client_errors_write_nothing {P : Platform} env db authorization c :
  clientError (fst (handle env db authorization c)) = true ->
  snd (handle env db authorization c) = db.
Proof.
  intros H.
  destruct (handle env db authorization c) as [r db'] eqn:Hrun.
  destruct (answer_or_unchanged env db authorization c r db' Hrun);
    simpl in *; congruence.
Qed.

Lemma client_errors_write_nothing_witness :
  snd (handle (P := samplePlatform) sampleEnv sampleDb adminToken
         (CreateUser (UserInput.mk (Some "employee@example.com")
                        (Some "secret1") (Some "Twin") None)))
  = sampleDb.
Proof.
  apply (@client_errors_write_nothing samplePlatform). reflexivity.
Defined.

(* ===================================================================== *)
(** ** The audit log only grows *)
(* ===================================================================== *)

Lemma primaryEffect_logs {P : Platform} env db authorization c db1 :
  primaryEffect env db authorization c db1 ->
  auditLogs db1 = auditLogs db
  \/ exists id, c = DeleteUser id
                /\ auditLogs db1
                   = filter (fun a => negb (AuditLog.userId a =? id))
                            (auditLogs db).
Proof.
  intros [->|Hp]; [left; reflexivity|].
  destruct c; try contradiction.
  - destruct Hp as (e & u & -> & _). left. reflexivity.
  - destruct Hp as (d & -> & _). left. reflexivity.
  - destruct Hp as (st & -> & _). left. reflexivity.
  - destruct Hp as (u & -> & _). left. reflexivity.
  - destruct Hp as (d & -> & _). left. reflexivity.
  - destruct Hp as (admin & -> & _). right. eexists. split; reflexivity.
Qed.

(** X3. No call changes or removes an audit entry that is already stored,
    except that deleting a user takes that user's entries along; a call adds
    at most one entry, at the end, and that entry carries the call's action
    name, the server time and the id of the acting user. *)
Theorem audit_log_append_only {P : Platform} env db authorization c :
  exists kept,
    (kept = auditLogs db
     \/ exists id, c = DeleteUser id
                   /\ kept = filter (fun a => negb (AuditLog.userId a =? id))
                                    (auditLogs db))
    /\ (auditLogs (snd (handle env db authorization c)) = kept
        \/ exists a,
             auditLogs (snd (handle env db authorization c)) = kept ++ [a]
             /\ AuditLog.action a = actionOf c
             /\ AuditLog.timestamp a = now env
             /\ actorOf env db authorization c = Some (AuditLog.userId a)).
Proof.
  destruct (call_effect env db authorization c) as (db1 & Hfinal & Hp).
  exists (auditLogs db1). split.
  - destruct (primaryEffect_logs env db authorization c db1 Hp) as [->|H];
      [left; reflexivity|right; exact H].
  - destruct Hfinal as [->|(a & -> & _ & _ & Hact & Htime & Hactor)];
      [left; reflexivity|].
    right. exists a. simpl. auto.
Qed.

(* ===================================================================== *)
(** ** References to users stay valid *)
(* ===================================================================== *)

Lemma userExists_found (db : Db) id u :
  findBy (fun x => User.id x =? id) (users db) = Some u -> userExists db id.
Proof.
  intros H. exists u. split.
  - unfold findBy in H. apply find_some in H. tauto.
  - eapply findBy_user_id, H.
Qed.

Lemma caller_exists {P : Platform} env db authorization u :
  callerOf env db authorization = Some u -> userExists db (AuthUser.id u).
Proof.
  intros H. destruct (callerOf_stored env db authorization u H) as (row & Hrow & _).
  eapply userExists_found, Hrow.
Qed.

Lemma actor_exists {P : Platform} env db authorization c id :
  actorOf env db authorization c = Some id -> userExists db id.
Proof.
  assert (Hcaller : option_map AuthUser.id (callerOf env db authorization)
                    = Some id -> userExists db id).
  { destruct (callerOf env db authorization) as [u|] eqn:Hc; [|discriminate].
    intros [= <-]. eapply caller_exists, Hc. }
  destruct c; simpl; try exact Hcaller.
  destruct email as [e|]; [|discriminate].
  destruct (findBy _ (users db)) as [u|] eqn:Hu; [|discriminate].
  intros [= <-]. exists u. split; [|reflexivity].
  unfold findBy in Hu. apply find_some in Hu. tauto.
Qed.

(** The user table after a primary write still has every id it had, except
    the one a deletion removed. *)
Lemma primaryEffect_users {P : Platform} env db authorization c db1 id :
  primaryEffect env db authorization c db1 ->
  userExists db id ->
  userExists db1 id \/ c = DeleteUser id.
Proof.
  intros [->|Hp] (x & Hin & Hid); [left; exists x; auto|].
  destruct c; try contradiction.
  - destruct Hp as (e & u & -> & _). left. exists x. auto.
  - destruct Hp as (d & -> & _). left. exists x. auto.
  - destruct Hp as (st & -> & _). left. exists x. auto.
  - destruct Hp as (u & -> & _). left. exists x. simpl.
    split; [apply in_or_app; auto|exact Hid].
  - destruct Hp as (d & -> & _). left. simpl.
    exists (if User.id x =? id0 then prisma_user.apply d x else x).
    split.
    + apply (in_map (fun u => if User.id u =? id0
                              then prisma_user.apply d u else u)), Hin.
    + destruct (User.id x =? id0); exact Hid.
  - destruct Hp as (admin & -> & _). simpl.
    destruct (String.eqb_spec id id0) as [->|Hne]; [right; reflexivity|].
    left. exists x. split; [|exact Hid].
    apply filter_In. split; [exact Hin|].
    apply negb_true_iff, String.eqb_neq. congruence.
Qed.

Lemma primaryEffect_references {P : Platform} env db authorization c db1 :
  primaryEffect env db authorization c db1 ->
  referencesValid db ->
  referencesValid db1.
Proof.
  intros Hp [Hexp Hlog].
  pose proof (fun id => primaryEffect_users env db authorization c db1 id Hp)
    as Hkeep.
  destruct Hp as [->|Hp']; [split; assumption|].
  destruct c; try contradiction.
  - destruct Hp' as (e & u & -> & Hc & Hu & _).
    split; simpl; intros x Hx.
    + apply in_app_or in Hx as [Hx|[<-|[]]].
      * apply Hexp, Hx.
      * rewrite Hu. eapply caller_exists, Hc.
    + apply Hlog, Hx.
  - destruct Hp' as (d & -> & _). split; simpl; intros x Hx.
    + apply In_updatedExpenses in Hx as (e & Hin & _ & [->|[_ ->]]);
        apply (Hexp e Hin).
    + apply Hlog, Hx.
  - destruct Hp' as (st & -> & _). split; simpl; intros x Hx.
    + apply In_updatedExpenses in Hx as (e & Hin & _ & [->|[_ ->]]);
        apply (Hexp e Hin).
    + apply Hlog, Hx.
  - split; intros x Hx.
    + destruct (Hkeep (Expense.userId x)) as [H|H]; [|exact H|discriminate].
      apply Hexp. destruct Hp' as (u & -> & _). exact Hx.
    + destruct (Hkeep (AuditLog.userId x)) as [H|H]; [|exact H|discriminate].
      apply Hlog. destruct Hp' as (u & -> & _). exact Hx.
  - split; intros x Hx.
    + destruct (Hkeep (Expense.userId x)) as [H|H]; [|exact H|discriminate].
      apply Hexp. destruct Hp' as (u & -> & _). exact Hx.
    + destruct (Hkeep (AuditLog.userId x)) as [H|H]; [|exact H|discriminate].
      apply Hlog. destruct Hp' as (u & -> & _). exact Hx.
  - destruct Hp' as (admin & Hdb & _).
    split; intros x Hx; rewrite Hdb in Hx; simpl in Hx;
      apply filter_In in Hx as [Hx Hne];
      apply negb_true_iff, String.eqb_neq in Hne.
    + destruct (Hkeep (Expense.userId x)) as [H|H];
        [apply Hexp, Hx|exact H|congruence].
    + destruct (Hkeep (AuditLog.userId x)) as [H|H];
        [apply Hlog, Hx|exact H|congruence].
Qed.

Lemma actor_survives {P : Platform} env db authorization c db1 id :
  primaryEffect env db authorization c db1 ->
  actorOf env db authorization c = Some id ->
  userExists db1 id.
Proof.
  intros Hp Hactor.
  pose proof (actor_exists env db authorization c id Hactor) as Hex.
  destruct (primaryEffect_users env db authorization c db1 id Hp Hex)
    as [H | ->]; [exact H|].
  destruct Hp as [->|(admin & _ & Hc & Hne)]; [exact Hex|].
  simpl in Hactor. rewrite Hc in Hactor. injection Hactor as Hid.
  contradiction.
Qed.

(** X4. If every expense belongs to a stored user and every audit entry
    was made by one, this is still so after any call: creation records the
    caller, edits keep the owner, and deleting a user takes that user's
    expenses and audit entries along. *)
Theorem references_stay_valid {P : Platform} env db authorization c :
  referencesValid db ->
  referencesValid (snd (handle env db authorization c)).
Proof.
  intros Hvalid.
  destruct (call_effect env db authorization c) as (db1 & Hfinal & Hp).
  pose proof (primaryEffect_references env db authorization c db1 Hp Hvalid)
    as [Hexp Hlog].
  destruct Hfinal as [->|(a & -> & _ & _ & _ & _ & Hactor)]; [split; assumption|].
  split; simpl.
  - exact Hexp.
  - intros x Hx. apply in_app_or in Hx as [Hx|[<-|[]]]; [apply Hlog, Hx|].
    destruct (actor_survives env db authorization c db1 _ Hp Hactor)
      as (u & Hin & Hid).
    exists u. auto.
Qed.

Lemma references_stay_valid_witness :
  referencesValid sampleDb
  /\ referencesValid
       (snd (handle (P := samplePlatform) sampleEnv sampleDb adminToken
               (DeleteUser "u_emp"))).
Proof.
  assert (Hvalid : referencesValid sampleDb).
  { split; intros x Hx; simpl in Hx;
      repeat (destruct Hx as [<-|Hx];
              [first [exists admin; split; [simpl; tauto|reflexivity]
                     |exists employee; split; [simpl; tauto|reflexivity]
                     |exists colleague; split; [simpl; tauto|reflexivity]]|]);
      contradiction. }
  split; [exact Hvalid|].
  apply (@references_stay_valid samplePlatform). exact Hvalid.
Defined.

(* ===================================================================== *)
(** ** Identity and status of stored expenses *)
(* ===================================================================== *)

Lemma primaryEffect_expenses {P : Platform} env db authorization c db1 :
  primaryEffect env db authorization c db1 ->
  expenses db1 = expenses db
  \/ (exists file i e u,
        c = CreateExpense file i
        /\ expenses db1 = expenses db ++ [e]
        /\ callerOf env db authorization = Some u
        /\ Expense.userId e = AuthUser.id u
        /\ Expense.status e = PENDING
        /\ Expense.createdAt e = now env)
  \/ (exists id file i d,
        c = UpdateExpense id file i
        /\ expenses db1 = updatedExpenses id d (expenses db)
        /\ prisma_expense.status d = Some PENDING)
  \/ (exists id status reason st,
        c = UpdateExpenseStatus id status reason
        /\ expenses db1 = updatedExpenses id (decisionData st reason) (expenses db)
        /\ decision status = Some st)
  \/ (exists id,
        c = DeleteUser id
        /\ expenses db1
           = filter (fun e => negb (Expense.userId e =? id)) (expenses db)).
Proof.
  intros [->|Hp]; [left; reflexivity|].
  destruct c; try contradiction.
  - destruct Hp as (e & u & -> & Hc & Hu & _ & Hs & _ & Ht).
    right; left. exists file, i, e, u. simpl. auto 10.
  - destruct Hp as (d & -> & Hs & _).
    right; right; left. exists id, file, i, d. simpl. auto.
  - destruct Hp as (st & -> & Hs).
    right; right; right; left. exists id, status, reason, st. simpl. auto.
  - destruct Hp as (u & -> & _). left. reflexivity.
  - destruct Hp as (d & -> & _). left. reflexivity.
  - destruct Hp as (admin & -> & _). do 4 right. exists id. simpl. auto.
Qed.

Lemma final_expenses {P : Platform} env db authorization c :
  exists db1,
    primaryEffect env db authorization c db1
    /\ expenses (snd (handle env db authorization c)) = expenses db1.
Proof.
  destruct (call_effect env db authorization c) as (db1 & Hfinal & Hp).
  exists db1. split; [exact Hp|].
  destruct Hfinal as [->|(a & -> & _)]; reflexivity.
Qed.





(* ===================================================================== *)
(** ** The user table *)
(* ===================================================================== *)

Lemma final_users {P : Platform} env db authorization c :
  exists db1,
    primaryEffect env db authorization c db1
    /\ users (snd (handle env db authorization c)) = users db1.
Proof.
  destruct (call_effect env db authorization c) as (db1 & Hfinal & Hp).
  exists db1. split; [exact Hp|].
  destruct Hfinal as [->|(a & -> & _)]; reflexivity.
Qed.

(** X7. Only the three user-administration calls write the user table; in
    particular a logout leaves the token valid: after any other call, every
    token authenticates as the same user as before. *)
Theorem tokens_survive {P : Platform} env db authorization c :
  userAdministration c = false ->
  users (snd (handle env db authorization c)) = users db
  /\ forall env' token,
       callerOf env' (snd (handle env db authorization c)) token
       = callerOf env' db token.
Proof.
  intros Hc.
  assert (Husers : users (snd (handle env db authorization c)) = users db).
  { destruct (final_users env db authorization c) as (db1 & Hp & ->).
    destruct Hp as [->|Hp]; [reflexivity|].
    destruct c; try contradiction; try discriminate.
    - destruct Hp as (e & u & -> & _). reflexivity.
    - destruct Hp as (d & -> & _). reflexivity.
    - destruct Hp as (st & -> & _). reflexivity. }
  split; [exact Husers|].
  intros env' token. unfold callerOf. rewrite Husers. reflexivity.
Qed.

Lemma tokens_survive_witness :
  callerOf (P := samplePlatform) sampleEnv
    (snd (handle (P := samplePlatform) sampleEnv sampleDb employeeToken Logout))
    employeeToken
  = Some (AuthUser_of employee).
Proof.
  rewrite (proj2 (@tokens_survive samplePlatform sampleEnv sampleDb
                    employeeToken Logout eq_refl)).
  reflexivity.
Defined.

Lemma NoDup_emails_append (l : list User.t) u :
  NoDup (map User.email l) ->
  existsb (fun x => User.email x =? User.email u) l = false ->
  NoDup (map User.email (l ++ [u])).
Proof.
  intros Hnd Hnew. rewrite map_app. simpl.
  apply NoDup_app; [exact Hnd | repeat constructor; simpl; tauto |].
  intros e Hin [<-|[]].
  apply in_map_iff in Hin as (x & Hx & Hin).
  assert (existsb (fun x => User.email x =? User.email u) l = true).
  { apply existsb_exists. exists x. split; [exact Hin|].
    apply String.eqb_eq, Hx. }
  congruence.
Qed.

Lemma NoDup_emails_update id d (l : list User.t) :
  NoDup (map User.id l) ->
  NoDup (map User.email l) ->
  existsb (fun u => (User.email u =? prisma_user.email d)
                    && negb (User.id u =? id)) l = false ->
  NoDup (map User.email
           (map (fun u => if User.id u =? id then prisma_user.apply d u else u)
                l)).
Proof.
  induction l as [|x l IH]; simpl; [constructor|].
  intros Hids Hemails Hfree.
  inversion Hids as [|? ? Hxid Hids']; subst.
  inversion Hemails as [|? ? Hxem Hemails']; subst.
  apply orb_false_iff in Hfree as [Hx Hfree].
  assert (Hothers : forall y, In y l -> User.id y <> id ->
                              User.email y <> prisma_user.email d).
  { intros y Hy Hne Heq.
    assert (existsb (fun u => (User.email u =? prisma_user.email d)
                              && negb (User.id u =? id)) l = true);
      [|congruence].
    apply existsb_exists. exists y. split; [exact Hy|].
    apply andb_true_iff. split; [apply String.eqb_eq, Heq|].
    apply negb_true_iff, String.eqb_neq, Hne. }
  constructor; [|apply IH; assumption].
  rewrite map_map, in_map_iff. intros (y & Hy & Hin).
  destruct (User.id x =? id) eqn:Hxi, (User.id y =? id) eqn:Hyi; simpl in Hy.
  - apply String.eqb_eq in Hxi, Hyi. apply Hxid. rewrite Hxi, <- Hyi.
    apply in_map, Hin.
  - apply String.eqb_neq in Hyi. apply (Hothers y Hin Hyi). exact Hy.
  - try rewrite Hxi in Hx. simpl in Hx. rewrite andb_true_r in Hx.
    apply String.eqb_neq in Hx. apply Hx. symmetry. exact Hy.
  - apply Hxem. rewrite <- Hy. apply in_map, Hin.
Qed.

Lemma NoDup_emails_filter (f : User.t -> bool) (l : list User.t) :
  NoDup (map User.email l) -> NoDup (map User.email (filter f l)).
Proof.
  induction l as [|x l IH]; simpl; [constructor|].
  intros Hnd. inversion Hnd as [|? ? Hx Hnd']; subst.
  destruct (f x); simpl; [|apply IH, Hnd'].
  constructor; [|apply IH, Hnd'].
  rewrite in_map_iff. intros (y & Hy & Hin). apply Hx. rewrite <- Hy.
  apply in_map. apply filter_In in Hin. tauto.
Qed.

(** X8. Emails stay unique: on a user table with distinct ids and distinct
    emails, no call produces two users with the same email, whether it
    creates a user, changes an email or deletes a user. *)
Theorem emails_stay_unique {P : Platform} env db authorization c :
  NoDup (map User.id (users db)) ->
  NoDup (map User.email (users db)) ->
  NoDup (map User.email (users (snd (handle env db authorization c)))).
Proof.
  intros Hids Hemails.
  destruct (final_users env db authorization c) as (db1 & Hp & ->).
  destruct Hp as [->|Hp]; [exact Hemails|].
  destruct c; try contradiction.
  - destruct Hp as (e & u & -> & _). exact Hemails.
  - destruct Hp as (d & -> & _). exact Hemails.
  - destruct Hp as (st & -> & _). exact Hemails.
  - destruct Hp as (u & -> & Hnew & _). apply NoDup_emails_append; assumption.
  - destruct Hp as (d & -> & Hfree). apply NoDup_emails_update; assumption.
  - destruct Hp as (admin & -> & _). apply NoDup_emails_filter, Hemails.
Qed.

Lemma emails_stay_unique_witness :
  NoDup (map User.email
           (users (snd (handle (P := samplePlatform) sampleEnv sampleDb
                          adminToken
                          (UpdateUser "u_emp"
                             (UserInput.mk (Some "john@example.com") None None
                                None)))))).
Proof.
  apply (@emails_stay_unique samplePlatform);
    simpl; repeat constructor; simpl; intuition discriminate.
Defined.

(* ===================================================================== *)
(** ** Pages of the expense list *)
(* ===================================================================== *)

Lemma issues_nil_split (a b : list string) : a ++ b = [] -> a = [] /\ b = [].
Proof. apply app_eq_nil. Qed.

Lemma intBetween_bounds {P : Platform} lo hi s :
  intBetween lo hi s = true ->
  exists n, parseInt s = Some n
            /\ (lo <= n)%Z
            /\ match hi with Some h => (n <= h)%Z | None => True end.
Proof.
  unfold intBetween. destruct (parseInt s) as [n|]; [|discriminate].
  intros H. apply andb_true_iff in H as [Hlo Hhi].
  exists n. split; [reflexivity|]. split; [apply Z.leb_le, Hlo|].
  destruct hi; [apply Z.leb_le, Hhi|exact I].
Qed.

Lemma expenseFilterSchema_window {P : Platform} q f :
  expenseFilterSchema q = Valid f ->
  (1 <= prisma_expense.orKeep (Filter.page f) 1%Z)%Z
  /\ (1 <= prisma_expense.orKeep (Filter.limit f) 20%Z <= 100)%Z
  /\ (FilterInput.page q = None -> Filter.page f = None)
  /\ (FilterInput.limit q = None -> Filter.limit f = None).
Proof.
  unfold expenseFilterSchema.
  destruct (_ ++ _) as [|x rest] eqn:Hissues; [|discriminate].
  intros [= <-]. simpl.
  apply issues_nil_split in Hissues as [_ Hissues].
  apply issues_nil_split in Hissues as [_ Hissues].
  apply issues_nil_split in Hissues as [_ Hissues].
  apply issues_nil_split in Hissues as [_ Hissues].
  apply issues_nil_split in Hissues as [Hpage Hlimit].
  apply issue_nil in Hpage, Hlimit.
  repeat split.
  - destruct (FilterInput.page q) as [s|]; simpl in *; [|lia].
    apply intBetween_bounds in Hpage as (n & -> & Hn & _). simpl. exact Hn.
  - destruct (FilterInput.limit q) as [s|]; simpl in *; [|lia].
    apply intBetween_bounds in Hlimit as (n & -> & Hn & _). simpl. exact Hn.
  - destruct (FilterInput.limit q) as [s|]; simpl in *; [|lia].
    apply intBetween_bounds in Hlimit as (n & -> & _ & Hn). simpl. exact Hn.
  - intros ->. reflexivity.
  - intros ->. reflexivity.
Qed.

(** Everything a successful listing says, in terms of the validated filter. *)
Lemma listExpenses_answer {P : Platform}
    env db authorization q r db' rows pg :
  handle env db authorization (ListExpenses q) = (r, db') ->
  body r = ExpensesJson rows pg ->
  exists u f gte lte,
    callerOf env db authorization = Some u
    /\ expenseFilterSchema q = Valid f
    /\ page pg = prisma_expense.orKeep (Filter.page f) 1%Z
    /\ limit pg = prisma_expense.orKeep (Filter.limit f) 20%Z
    /\ pages pg = ceilDiv (total pg) (limit pg)
    /\ rows = expensePage db
                (ExpenseWhere.mk (ownerFilter u) (Filter.category f)
                                 (Filter.status f) gte lte)
                (limit pg) (page pg)
    /\ total pg
       = List.length
           (filter (expenseMatches
                      (ExpenseWhere.mk (ownerFilter u) (Filter.category f)
                                       (Filter.status f) gte lte))
                   (expenses db)).
Proof.
  intros Hrun Hb.
  destruct (listExpenses_run _ _ _ _ _ _ _ _ Hrun Hb)
    as (u & f & Hc & _ & Hq & _ & _ & Hpage & Hlimit & Hpages & Hrows & Htotal).
  exists u, f, (dateBound (Filter.startDate f)), (dateBound (Filter.endDate f)).
  unfold expensePage. auto 10.
Qed.

Section SortingOrder.
Variable A : Type.
Variable key : A -> Z.

Lemma insertDesc_descending x (l : list A) :
  descending (map key l) -> descending (map key (insertDesc key x l)).
Proof.
  induction l as [|y l IH]; simpl.
  - intros _. split; [constructor|exact I].
  - intros [Hy Hl]. destruct (key x <? key y)%Z eqn:Hxy; simpl.
    + split; [|apply IH, Hl].
      apply Forall_forall. intros k Hk.
      apply in_map_iff in Hk as (z & <- & Hz).
      apply insertDesc_In in Hz as [->|Hz].
      * apply Z.ltb_lt in Hxy. lia.
      * rewrite Forall_forall in Hy. apply Hy, in_map, Hz.
    + apply Z.ltb_ge in Hxy. split; [|split; assumption].
      constructor; [exact Hxy|].
      eapply Forall_impl; [|exact Hy]. simpl. intros k Hk. lia.
Qed.

Lemma sortDesc_descending (l : list A) : descending (map key (sortDesc key l)).
Proof.
  induction l as [|x l IH]; simpl; [exact I|].
  apply insertDesc_descending, IH.
Qed.
End SortingOrder.

Lemma descending_skipn n (l : list Z) : descending l -> descending (skipn n l).
Proof.
  revert l. induction n as [|n IH]; intros [|x l]; simpl; try tauto.
  intros [_ Hl]. apply IH, Hl.
Qed.

Lemma descending_firstn n (l : list Z) : descending l -> descending (firstn n l).
Proof.
  revert l. induction n as [|n IH]; intros [|x l]; simpl; try tauto.
  intros [Hx Hl]. split; [|apply IH, Hl].
  apply Forall_forall. intros y Hy. rewrite Forall_forall in Hx.
  apply Hx. eapply firstn_incl, Hy.
Qed.

Lemma ceilDiv_bounds n d :
  (1 <= d)%Z ->
  (Z.of_nat n <= ceilDiv n d * d)%Z /\ ((ceilDiv n d - 1) * d < Z.of_nat n)%Z.
Proof.
  intros Hd. unfold ceilDiv.
  pose proof (Z.div_mod (Z.of_nat n + d - 1) d ltac:(lia)) as Hdm.
  pose proof (Z.mod_pos_bound (Z.of_nat n + d - 1) d ltac:(lia)) as Hm.
  split; nia.
Qed.

(** X9. A successful expense listing is one page: page and limit are at
    least 1, the limit is at most 100 (20 when the query gives none, page 1
    when it gives none), and the rows are no more than the limit and no more
    than the reported total. *)
Theorem getExpenses_page_bounds {P : Platform}
    env db authorization q r db' rows pg :
  handle env db authorization (ListExpenses q) = (r, db') ->
  body r = ExpensesJson rows pg ->
  (1 <= page pg)%Z
  /\ (1 <= limit pg <= 100)%Z
  /\ (FilterInput.page q = None -> page pg = 1%Z)
  /\ (FilterInput.limit q = None -> limit pg = 20%Z)
  /\ (Z.of_nat (List.length rows) <= limit pg)%Z
  /\ List.length rows <= total pg.
Proof.
  intros Hrun Hb.
  destruct (listExpenses_answer _ _ _ _ _ _ _ _ Hrun Hb)
    as (u & f & gte & lte & _ & Hq & Hpage & Hlimit & _ & Hrows & Htotal).
  destruct (expenseFilterSchema_window _ _ Hq) as (Hp & Hl & Hnop & Hnol).
  rewrite <- Hpage in Hp. rewrite <- Hlimit in Hl.
  repeat split; try lia.
  - intros H. rewrite Hpage, (Hnop H). reflexivity.
  - intros H. rewrite Hlimit, (Hnol H). reflexivity.
  - rewrite Hrows. unfold expensePage, paginate.
    rewrite length_map.
    pose proof (firstn_le_length (Z.to_nat (limit pg))
                  (skipn (Z.to_nat ((page pg - 1) * limit pg))
                     (sortDesc Expense.createdAt
                        (filter (expenseMatches
                                   (ExpenseWhere.mk (ownerFilter u)
                                      (Filter.category f) (Filter.status f)
                                      gte lte))
                                (expenses db))))).
    lia.
  - rewrite Hrows, Htotal. unfold expensePage, paginate.
    rewrite length_map, length_firstn, length_skipn, sortDesc_length. lia.
Qed.

Lemma getExpenses_page_bounds_witness :
  (1 <= 1)%Z /\ (1 <= 2 <= 100)%Z
  /\ (Z.of_nat (List.length (map (includeUser sampleDb) [flights; lunch])) <= 2)%Z.
Proof.
  pose proof (@getExpenses_page_bounds samplePlatform sampleEnv sampleDb
                employeeToken
                (FilterInput.mk None None None None None (Some "2"))
                _ _ (map (includeUser sampleDb) [flights; lunch])
                (mkPagination 1 2 3 2) eq_refl eq_refl) as H.
  simpl in H. simpl. lia.
Defined.

(** X10. The rows of an expense listing are ordered by creation time, newest
    first. *)
Theorem getExpenses_newest_first {P : Platform}
    env db authorization q r db' rows pg :
  handle env db authorization (ListExpenses q) = (r, db') ->
  body r = ExpensesJson rows pg ->
  descending (map (fun row => Expense.createdAt (fst row)) rows).
Proof.
  intros Hrun Hb.
  destruct (listExpenses_answer _ _ _ _ _ _ _ _ Hrun Hb)
    as (u & f & gte & lte & _ & _ & _ & _ & _ & -> & _).
  unfold expensePage, paginate. rewrite map_map. simpl.
  rewrite <- firstn_map, <- skipn_map.
  apply descending_firstn, descending_skipn, sortDesc_descending.
Qed.

Lemma getExpenses_newest_first_witness :
  descending (map (fun row => Expense.createdAt (fst row))
                (map (includeUser sampleDb) [flights; lunch; uber])).
Proof.
  apply (@getExpenses_newest_first samplePlatform sampleEnv sampleDb
           employeeToken (FilterInput.mk None None None None None None)
           _ _ _ (mkPagination 1 20 3 1) eq_refl eq_refl).
Defined.

(** X11. The page count of an expense listing is the least number of pages
    of [limit] rows that hold [total] rows, and the listing is empty exactly
    when the requested page lies beyond that count. *)
Theorem getExpenses_page_count {P : Platform}
    env db authorization q r db' rows pg :
  handle env db authorization (ListExpenses q) = (r, db') ->
  body r = ExpensesJson rows pg ->
  (Z.of_nat (total pg) <= pages pg * limit pg)%Z
  /\ ((pages pg - 1) * limit pg < Z.of_nat (total pg))%Z
  /\ (rows = [] <-> (pages pg < page pg)%Z).
Proof.
  intros Hrun Hb.
  destruct (listExpenses_answer _ _ _ _ _ _ _ _ Hrun Hb)
    as (u & f & gte & lte & _ & Hq & Hpage & Hlimit & Hpages & Hrows & Htotal).
  destruct (expenseFilterSchema_window _ _ Hq) as (Hp & Hl & _).
  rewrite <- Hpage in Hp. rewrite <- Hlimit in Hl.
  destruct (ceilDiv_bounds (total pg) (limit pg) ltac:(lia)) as [Hup Hlow].
  rewrite <- Hpages in Hup, Hlow.
  split; [exact Hup|]. split; [exact Hlow|].
  assert (Hlen : List.length rows
                 = Nat.min (Z.to_nat (limit pg))
                     (total pg - Z.to_nat ((page pg - 1) * limit pg))).
  { rewrite Hrows, Htotal. unfold expensePage, paginate.
    rewrite length_map, length_firstn, length_skipn, sortDesc_length.
    reflexivity. }
  split.
  - intros ->. cbn [List.length] in Hlen.
    destruct (Z_lt_le_dec (pages pg) (page pg)) as [|Hle]; [assumption|].
    exfalso.
    assert ((page pg - 1) * limit pg < Z.of_nat (total pg))%Z by nia.
    assert (0 <= (page pg - 1) * limit pg)%Z by nia.
    set (skip := ((page pg - 1) * limit pg)%Z) in *. lia.
  - intros Hbeyond.
    assert (Z.of_nat (total pg) <= (page pg - 1) * limit pg)%Z by nia.
    destruct rows; [reflexivity|]. cbn [List.length] in Hlen.
    set (skip := ((page pg - 1) * limit pg)%Z) in *. lia.
Qed.

Lemma getExpenses_page_count_witness :
  (Z.of_nat 3 <= 2 * 2)%Z /\ ((2 - 1) * 2 < Z.of_nat 3)%Z
  /\ (@nil (Expense.t * option AuthUser.t) = [] <-> (2 < 3)%Z).
Proof.
  apply (@getExpenses_page_count samplePlatform sampleEnv sampleDb
           employeeToken
           (FilterInput.mk None None None None (Some "3") (Some "2"))
           _ _ [] (mkPagination 3 2 3 2) eq_refl eq_refl).
Defined.

Section Covering.
Variable A : Type.

Lemma firstn_add (a b : nat) (l : list A) :
  firstn (a + b) l = firstn a l ++ firstn b (skipn a l).
Proof.
  revert l. induction a as [|a IH]; intros [|x l]; simpl;
    try reflexivity.
  - rewrite firstn_nil. reflexivity.
  - rewrite IH. reflexivity.
Qed.

Lemma windows_cover (k : nat) (l : list A) n :
  flat_map (fun p => firstn k (skipn (p * k) l)) (seq 0 n) = firstn (n * k) l.
Proof.
  induction n as [|n IH]; [reflexivity|].
  rewrite seq_S, flat_map_app, IH. simpl. rewrite app_nil_r.
  rewrite (Nat.add_comm k), firstn_add. reflexivity.
Qed.
End Covering.

Lemma flat_map_map_out {A B} (f : A -> B) (g : nat -> list A) l :
  flat_map (fun p => map f (g p)) l = map f (flat_map g l).
Proof.
  induction l as [|x l IH]; simpl; [reflexivity|].
  rewrite map_app, IH. reflexivity.
Qed.

Lemma listExpenses_eval {P : Platform} env db authorization q u f :
  callerOf env db authorization = Some u ->
  faults env UserRead = false ->
  expenseFilterSchema q = Valid f ->
  dateReadable (Filter.startDate f) && dateReadable (Filter.endDate f)
  && negb (faults env ExpenseRead) = true ->
  rowsOf (fst (handle env db authorization (ListExpenses q)))
  = expensePage db
      (ExpenseWhere.mk (ownerFilter u) (Filter.category f) (Filter.status f)
         (dateBound (Filter.startDate f)) (dateBound (Filter.endDate f)))
      (prisma_expense.orKeep (Filter.limit f) 20%Z)
      (prisma_expense.orKeep (Filter.page f) 1%Z).
Proof.
  intros Hc Hu Hq Hok. unfold handle, serve, router.
  rewrite (authenticateToken_caller env db authorization _ u Hc Hu).
  unfold validate. rewrite Hq, getExpenses_eval, Hok. reflexivity.
Qed.

Lemma expenseFilterSchema_onPage {P : Platform} q s f s' p' :
  expenseFilterSchema (onPage q s) = Valid f ->
  parseInt s' = Some p' ->
  (1 <= p')%Z ->
  expenseFilterSchema (onPage q s')
  = Valid (Filter.mk (Filter.category f) (Filter.status f)
             (Filter.startDate f) (Filter.endDate f) (Some p')
             (Filter.limit f)).
Proof.
  intros Hvalid Hs Hp.
  unfold expenseFilterSchema, onPage in *. cbn [FilterInput.category
    FilterInput.status FilterInput.startDate FilterInput.endDate
    FilterInput.page FilterInput.limit] in *.
  destruct (issue "category" _ ++ _) as [|x rest] eqn:Hissues in Hvalid;
    [|discriminate].
  injection Hvalid as <-.
  apply app_eq_nil in Hissues as [H1 Hissues].
  apply app_eq_nil in Hissues as [H2 Hissues].
  apply app_eq_nil in Hissues as [H3 Hissues].
  apply app_eq_nil in Hissues as [H4 Hissues].
  apply app_eq_nil in Hissues as [_ H6].
  rewrite H1, H2, H3, H4, H6.
  assert (Hok : optional (intBetween 1 None) (Some s') = true).
  { simpl. unfold intBetween. rewrite Hs.
    apply andb_true_iff. split; [apply Z.leb_le, Hp|reflexivity]. }
  rewrite Hok. simpl. rewrite Hs. reflexivity.
Qed.

Lemma flat_map_ext_In {A B} (f g : A -> list B) (l : list A) :
  (forall a, In a l -> f a = g a) -> flat_map f l = flat_map g l.
Proof.
  induction l as [|x l IH]; simpl; [reflexivity|].
  intros H. rewrite (H x), IH; auto.
Qed.

Section DistinctKeys.
Variable A : Type.
Variable key : A -> Z.

Lemma filter_keys_NoDup (f : A -> bool) (l : list A) :
  NoDup (map key l) -> NoDup (map key (filter f l)).
Proof.
  induction l as [|x l IH]; simpl; [constructor|].
  intros Hnd. inversion Hnd as [|? ? Hx Hnd']; subst.
  destruct (f x); simpl; [|apply IH, Hnd'].
  constructor; [|apply IH, Hnd'].
  rewrite in_map_iff. intros (y & Hy & Hin). apply Hx. rewrite <- Hy.
  apply in_map. apply filter_In in Hin. tauto.
Qed.

Lemma insertDesc_keys_NoDup x (l : list A) :
  ~ In (key x) (map key l) ->
  NoDup (map key l) ->
  NoDup (map key (insertDesc key x l)).
Proof.
  induction l as [|y l IH]; simpl.
  - intros _ _. repeat constructor. simpl. tauto.
  - intros Hx Hnd. inversion Hnd as [|? ? Hy Hnd']; subst.
    destruct (key x <? key y)%Z; simpl.
    + constructor; [|apply IH; tauto].
      rewrite in_map_iff. intros (z & Hz & Hin).
      apply insertDesc_In in Hin as [->|Hin].
      * apply Hx. left. symmetry. exact Hz.
      * apply Hy. rewrite <- Hz. apply in_map, Hin.
    + constructor; [exact Hx|exact Hnd].
Qed.

Lemma sortDesc_keys_NoDup (l : list A) :
  NoDup (map key l) -> NoDup (map key (sortDesc key l)).
Proof.
  induction l as [|x l IH]; simpl; [constructor|].
  intros Hnd. inversion Hnd as [|? ? Hx Hnd']; subst.
  apply insertDesc_keys_NoDup; [|apply IH, Hnd'].
  rewrite in_map_iff. intros (y & Hy & Hin). apply Hx. rewrite <- Hy.
  apply in_map. apply sortDesc_In in Hin. exact Hin.
Qed.
End DistinctKeys.

Lemma expensePages_tile (db : Db) (w : ExpenseWhere.t) (limit : Z) :
  (1 <= limit)%Z ->
  flat_map (fun p => expensePage db w limit (Z.of_nat p))
    (seq 1 (Z.to_nat
              (ceilDiv (List.length (filter (expenseMatches w) (expenses db)))
                       limit)))
  = map (includeUser db)
      (sortDesc Expense.createdAt (filter (expenseMatches w) (expenses db))).
Proof.
  intros Hl.
  set (l := filter (expenseMatches w) (expenses db)).
  destruct (ceilDiv_bounds (List.length l) limit Hl) as [Hup _].
  set (n := ceilDiv (List.length l) limit) in *.
  unfold expensePage. fold l.
  rewrite (flat_map_map_out (includeUser db)
             (fun p => paginate ((Z.of_nat p - 1) * limit) limit
                         (sortDesc Expense.createdAt l))).
  f_equal.
  rewrite <- seq_shift, flat_map_concat_map, map_map, <- flat_map_concat_map.
  erewrite flat_map_ext.
  2: { intros p. unfold paginate.
       replace (Z.to_nat ((Z.of_nat (S p) - 1) * limit))
         with (p * Z.to_nat limit) by nia.
       reflexivity. }
  rewrite windows_cover. apply firstn_all2.
  rewrite sortDesc_length. nia.
Qed.

(** X12. Pages tile the listing.  When the first page of a listing is
    answered with rows and creation times are distinct (so that the order by
    creation time is the order of the store), asking for pages 1, 2, ...
    up to the page count that answer reports, with the same filters and
    limit, on the unchanged database, gives one after the other exactly the
    expenses that pass the request's filter and the caller's owner
    restriction, newest first: every one of them appears and none twice. *)
Theorem expense_pages_cover {P : Platform}
    env db authorization q (numeral : nat -> string) r1 db1 rows1 pg1 :
  (forall p, 1 <= p <= Z.to_nat (pages pg1) ->
             parseInt (numeral p) = Some (Z.of_nat p)) ->
  NoDup (map Expense.createdAt (expenses db)) ->
  handle env db authorization (ListExpenses (onPage q (numeral 1))) = (r1, db1) ->
  body r1 = ExpensesJson rows1 pg1 ->
  exists u f,
    callerOf env db authorization = Some u
    /\ expenseFilterSchema (onPage q (numeral 1)) = Valid f
    /\ let w := ExpenseWhere.mk (ownerFilter u) (Filter.category f)
                  (Filter.status f) (dateBound (Filter.startDate f))
                  (dateBound (Filter.endDate f)) in
       let every :=
         flat_map
           (fun p => rowsOf (fst (handle env db authorization
                                    (ListExpenses (onPage q (numeral p))))))
           (seq 1 (Z.to_nat (pages pg1))) in
       every = map (includeUser db)
                 (sortDesc Expense.createdAt
                    (filter (expenseMatches w) (expenses db)))
       /\ NoDup (map (fun row => Expense.createdAt (fst row)) every)
       /\ (forall e, In e (expenses db) -> expenseMatches w e = true ->
                     In (includeUser db e) every).
Proof.
  intros Hnum Hdistinct Hrun Hb.
  destruct (listExpenses_run _ _ _ _ _ _ _ _ Hrun Hb)
    as (u & f & Hc & Hu & Hq & Hok & _ & _ & Hlimit & Hpages & _ & Htotal).
  exists u, f. split; [exact Hc|]. split; [exact Hq|]. cbv zeta.
  set (w := ExpenseWhere.mk (ownerFilter u) (Filter.category f)
              (Filter.status f) (dateBound (Filter.startDate f))
              (dateBound (Filter.endDate f))) in *.
  destruct (expenseFilterSchema_window _ _ Hq) as (_ & Hl & _).
  rewrite <- Hlimit in Hl.
  assert (Hevery :
    flat_map
      (fun p => rowsOf (fst (handle env db authorization
                               (ListExpenses (onPage q (numeral p))))))
      (seq 1 (Z.to_nat (pages pg1)))
    = map (includeUser db)
        (sortDesc Expense.createdAt (filter (expenseMatches w) (expenses db)))).
  { rewrite <- (expensePages_tile db w (limit pg1)) by lia.
    rewrite <- Htotal, <- Hpages.
    apply flat_map_ext_In. intros p Hp. apply in_seq in Hp.
    assert (Hrange : 1 <= p <= Z.to_nat (pages pg1)) by lia.
    pose proof (expenseFilterSchema_onPage q (numeral 1) f (numeral p)
                  (Z.of_nat p) Hq (Hnum p Hrange) ltac:(lia)) as Hqp.
    rewrite (listExpenses_eval env db authorization _ u _ Hc Hu Hqp Hok).
    simpl. rewrite <- Hlimit. reflexivity. }
  rewrite Hevery. split; [reflexivity|]. split.
  - rewrite map_map. simpl.
    apply sortDesc_keys_NoDup, filter_keys_NoDup, Hdistinct.
  - intros e He Hm. apply in_map, sortDesc_In, filter_In. split; assumption.
Qed.

Lemma expense_pages_cover_witness :
  exists u f,
    callerOf (P := samplePlatform) sampleEnv sampleDb adminToken = Some u
    /\ expenseFilterSchema (P := samplePlatform)
         (onPage (FilterInput.mk None None None None None (Some "3")) "1")
       = Valid f
    /\ let w := ExpenseWhere.mk (ownerFilter u) (Filter.category f)
                  (Filter.status f)
                  (dateBound (P := samplePlatform) (Filter.startDate f))
                  (dateBound (P := samplePlatform) (Filter.endDate f)) in
       let every :=
         flat_map
           (fun p => rowsOf (fst (handle (P := samplePlatform) sampleEnv
                                    sampleDb adminToken
                                    (ListExpenses
                                       (onPage (FilterInput.mk None None None
                                                  None None (Some "3"))
                                          (natToString p))))))
           (seq 1 (Z.to_nat 2)) in
       every = map (includeUser sampleDb)
                 (sortDesc Expense.createdAt
                    (filter (expenseMatches w) (expenses sampleDb)))
       /\ NoDup (map (fun row => Expense.createdAt (fst row)) every)
       /\ (forall e, In e (expenses sampleDb) -> expenseMatches w e = true ->
                     In (includeUser sampleDb e) every).
Proof.
  refine (@expense_pages_cover samplePlatform sampleEnv sampleDb adminToken
            (FilterInput.mk None None None None None (Some "3")) natToString
            _ _ (map (includeUser sampleDb) [taxi; flights; lunch])
            (mkPagination 1 3 4 2) _ _ eq_refl eq_refl).
  - intros p Hp. simpl in Hp.
    destruct p as [|[|[|p]]]; try lia; reflexivity.
  - simpl. repeat constructor; simpl; intuition discriminate.
Defined.

(* ===================================================================== *)
(** ** What the expense routes store *)
(* ===================================================================== *)

Lemma admin_caller {P : Platform} env db authorization
    (next : AuthUser.t -> M Response) u :
  callerOf env db authorization = Some u ->
  AuthUser.role u = ADMIN ->
  faults env UserRead = false ->
  authenticateToken authorization (fun user => requireAdmin user (next user))
    env db
  = next u env db.
Proof.
  intros Hc Hr Hu.
  rewrite (authenticateToken_caller env db authorization _ u Hc Hu).
  unfold requireAdmin. rewrite Hr. reflexivity.
Qed.

Lemma amountTransform_accepted {P : Platform} val num :
  amountTransform val = Ok num -> amountAccepted num = true /\ num = parseFloat val.
Proof.
  unfold amountTransform, amountAccepted.
  destruct (PrimFloat.is_nan (parseFloat val) || (parseFloat val <=? 0)%float)
    eqn:H1; [discriminate|].
  destruct (parseFloat val <? minAmount)%float eqn:H2; [discriminate|].
  destruct (maxAmount <? parseFloat val)%float eqn:H3; [discriminate|].
  intros [= <-]. rewrite H1, H2, H3. split; reflexivity.
Qed.

Lemma expenseSchema_valid {P : Platform} i f :
  expenseSchema i = Valid f ->
  amountAccepted (ExpenseFields.amount f) = true
  /\ ExpenseFields.notes f = ExpenseInput.notes i
  /\ ExpenseInput.date i = Some (ExpenseFields.date f)
  /\ isDatetime (ExpenseFields.date f) = true.
Proof.
  unfold expenseSchema.
  destruct (ExpenseInput.amount i) as [val|]; [|discriminate].
  destruct (amountTransform val) as [num|msg] eqn:Ha; [|discriminate].
  destruct (ExpenseInput.category i) as [c|]; [|discriminate].
  destruct (ExpenseInput.date i) as [d|]; [|discriminate].
  destruct (parseExpenseCategory c) as [cat|]; [|discriminate].
  destruct (isDatetime d) eqn:Hd; [|discriminate].
  intros [= <-]. simpl. apply amountTransform_accepted in Ha as [Ha _].
  auto.
Qed.

(** What [POST /api/expenses] leaves in the expense table. *)
Lemma createExpense_stored {P : Platform} env db authorization file i r db' :
  handle env db authorization (CreateExpense file i) = (r, db') ->
  expenses db' = expenses db
  \/ exists u f d,
       callerOf env db authorization = Some u
       /\ expenseSchema i = Valid f
       /\ newDate (ExpenseFields.date f) = Some d
       /\ expenses db'
          = expenses db
            ++ [Expense.mk (cuid (issued db)) (ExpenseFields.amount f)
                  (ExpenseFields.category f) d (ExpenseFields.notes f)
                  PENDING None
                  (option_map (fun filename => "/uploads/" +++ filename)
                     (storedName file))
                  (AuthUser.id u) (now env)].
Proof.
  unfold handle, serve, router.
  destruct (authenticated_route env db authorization
              (fun user =>
                 requireEmployee user
                   (upload_single file (fun stored =>
                      validate (expenseSchema i) (postExpense user stored)))))
    as [(u & Hc & Hu & ->)|[_ Haway]].
  - unfold requireEmployee, upload_single, validate.
    destruct (expenseSchema i) as [f|details|message] eqn:Hi.
    + unfold postExpense. unfold_prisma. unfold_handlers.
      intros H.
      repeat branch; inversion H; subst; simpl; auto;
        pairs; simpl; auto;
        right; exists u, f; eexists; repeat split; eauto.
    + unfold_handlers. intros H.
      repeat branch; simpl in H; pairs; auto.
    + unfold_handlers. intros H.
      repeat branch; simpl in H; pairs; auto.
  - destruct (authenticateToken _ _ env db) as [o d].
    unfold turnedAway in Haway. simpl in Haway.
    destruct Haway as [Hd Hout]. subst d. intros H. left.
    destruct o; inversion H; subst; reflexivity.
Qed.

(** What [PUT /api/expenses/:id] leaves in the expense table. *)
Lemma putExpense_stored {P : Platform} env db authorization id file i r db' :
  handle env db authorization (UpdateExpense id file i) = (r, db') ->
  (expenses db' = expenses db /\ statusCode r <> 200)
  \/ exists f d,
       expenseSchema i = Valid f
       /\ newDate (ExpenseFields.date f) = Some d
       /\ expenses db'
          = updatedExpenses id
              (prisma_expense.mkData
                 (Some (ExpenseFields.amount f))
                 (Some (ExpenseFields.category f))
                 (Some d)
                 (Some (orEmpty (truthy (ExpenseFields.notes f))))
                 (Some PENDING) None
                 (option_map (fun filename => "/uploads/" +++ filename)
                    (storedName file)))
              (expenses db).
Proof.
  unfold handle, serve, router.
  destruct (authenticated_route env db authorization
              (fun user =>
                 upload_single file (fun stored => putExpense user id stored i)))
    as [(u & Hc & Hu & ->)|[_ Haway]].
  - unfold upload_single.
    destruct (expenseSchema i) as [f|details|message] eqn:Hi.
    + unfold putExpense. rewrite Hi. unfold_prisma. unfold_handlers.
      intros H.
      repeat branch; inversion H; subst; simpl;
        try (left; split; [reflexivity|discriminate]);
        pairs; simpl;
        try (left; split; [reflexivity|discriminate]);
        right; exists f; eexists; repeat split; eauto.
    + unfold putExpense. rewrite Hi. unfold_prisma. unfold_handlers.
      intros H.
      repeat branch; inversion H; subst; simpl;
        try (left; split; [reflexivity|discriminate]);
        pairs; simpl; left; split; try reflexivity; discriminate.
    + unfold putExpense. rewrite Hi. unfold_prisma. unfold_handlers.
      intros H.
      repeat branch; inversion H; subst; simpl;
        try (left; split; [reflexivity|discriminate]);
        pairs; simpl; left; split; try reflexivity; discriminate.
  - destruct (authenticateToken _ _ env db) as [o d].
    unfold turnedAway in Haway. simpl in Haway.
    destruct Haway as [Hd Hout]. subst d. intros H. left.
    destruct Hout as [->|[->|[e ->]]]; inversion H; subst;
      (split; [reflexivity|discriminate]).
Qed.

(* ===================================================================== *)
(** ** Validation on the create and edit routes *)
(* ===================================================================== *)

(** X14. An amount the transform refuses (not a number, not positive, below
    0.01 or above 100000) is treated differently by the two routes: on
    create the thrown error leaves [validate] through [next], so the answer
    is the error handler's and not a 400; on edit the inline [catch] answers
    400 'Validation failed' with the message.  Neither writes anything. *)
Theorem refused_amount_create_throws_edit_400 {P : Platform}
    env db authorization u file i val message :
  callerOf env db authorization = Some u ->
  faults env UserRead = false ->
  (forall m, file <> Refused m) ->
  ExpenseInput.amount i = Some val ->
  amountTransform val = Throw message ->
  (requireEmployeeRole (AuthUser.role u) = true ->
   router authorization (CreateExpense file i) env db = (Throw message, db)
   /\ handle env db authorization (CreateExpense file i) = (errorHandler, db))
  /\ (forall id e0,
        faults env ExpenseRead = false ->
        findBy (fun e => Expense.id e =? id) (expenses db) = Some e0 ->
        AuthUser.role u = ADMIN \/ Expense.userId e0 = AuthUser.id u ->
        handle env db authorization (UpdateExpense id file i)
        = (json 400 (ErrorJson "Validation failed" message), db)).
Proof.
  intros Hc Hu Hfile Hval Hthrow.
  assert (Hschema : expenseSchema i = Raised message).
  { unfold expenseSchema. rewrite Hval, Hthrow. reflexivity. }
  split.
  - intros Hrole.
    assert (Hroute : router authorization (CreateExpense file i) env db
                     = (Throw message, db)).
    { unfold router.
      rewrite (authenticateToken_caller env db authorization _ u Hc Hu).
      unfold requireEmployee. rewrite Hrole. unfold upload_single, validate.
      rewrite Hschema.
      destruct file as [|filename|m]; try reflexivity.
      exfalso. exact (Hfile m eq_refl). }
    split; [exact Hroute|]. unfold handle, serve. rewrite Hroute. reflexivity.
  - intros id e0 Her He0 Hown. unfold handle, serve, router.
    rewrite (authenticateToken_caller env db authorization _ u Hc Hu).
    unfold upload_single.
    assert (Hput : forall stored,
               putExpense u id stored i env db
               = (Ok (json 400 (ErrorJson "Validation failed" message)), db)).
    { intros stored. unfold putExpense, prisma_expense.findUnique.
      unfold_handlers. rewrite Her, He0. simpl.
      rewrite (owner_passes _ _ _ Hown), Hschema. reflexivity. }
    destruct file as [|filename|m]; rewrite ?Hput; try reflexivity.
    exfalso. exact (Hfile m eq_refl).
Qed.

Lemma refused_amount_create_throws_edit_400_witness :
  handle (P := samplePlatform) sampleEnv sampleDb employeeToken
    (CreateExpense NoFile
       (ExpenseInput.mk (Some "200000") (Some "TRAVEL") (Some "1700000000000")
          None))
  = (errorHandler, sampleDb)
  /\ handle (P := samplePlatform) sampleEnv sampleDb employeeToken
       (UpdateExpense (Expense.id lunch) NoFile
          (ExpenseInput.mk (Some "200000") (Some "TRAVEL")
             (Some "1700000000000") None))
     = (json 400 (ErrorJson "Validation failed" "Amount cannot exceed ₹100,000"),
        sampleDb).
Proof.
  pose proof (@refused_amount_create_throws_edit_400 samplePlatform sampleEnv
                sampleDb employeeToken (AuthUser_of employee) NoFile
                (ExpenseInput.mk (Some "200000") (Some "TRAVEL")
                   (Some "1700000000000") None)
                "200000" "Amount cannot exceed ₹100,000"
                eq_refl eq_refl ltac:(discriminate) eq_refl eq_refl)
    as [Hcreate Hedit].
  split.
  - exact (proj2 (Hcreate eq_refl)).
  - exact (Hedit (Expense.id lunch) lunch eq_refl eq_refl
             (or_intror eq_refl)).
Defined.

Lemma orEmpty_truthy v : orEmpty (truthy v) = orEmpty v.
Proof.
  destruct v as [s|]; simpl; [|reflexivity].
  destruct (s =? "") eqn:Hs; [|reflexivity].
  apply String.eqb_eq in Hs. subst. reflexivity.
Qed.

(** X15. What a successful edit keeps and what it overwrites: the stored
    amount is one the transform accepts; notes that are left out are erased,
    not kept; the receipt is replaced only when a file is uploaded; the
    reason of an earlier rejection stays on the expense although its status
    returns to PENDING; every other expense is stored as before. *)
Theorem putExpense_edit_frame {P : Platform}
    env db authorization id file i r db' e0 :
  handle env db authorization (UpdateExpense id file i) = (r, db') ->
  statusCode r = 200 ->
  findBy (fun e => Expense.id e =? id) (expenses db) = Some e0 ->
  exists e',
    findBy (fun e => Expense.id e =? id) (expenses db') = Some e'
    /\ amountAccepted (Expense.amount e') = true
    /\ Expense.notes e' = Some (orEmpty (ExpenseInput.notes i))
    /\ Expense.receiptUrl e'
       = match storedName file with
         | Some filename => Some ("/uploads/" +++ filename)
         | None => Expense.receiptUrl e0
         end
    /\ Expense.status e' = PENDING
    /\ Expense.rejectionReason e' = Expense.rejectionReason e0
    /\ (forall e, In e (expenses db) -> Expense.id e <> id ->
                  In e (expenses db')).
Proof.
  intros Hrun H200 He0.
  destruct (putExpense_stored _ _ _ _ _ _ _ _ Hrun)
    as [[_ Hno]|(f & d & Hf & Hd & ->)]; [contradiction|].
  destruct (expenseSchema_valid _ _ Hf) as (Hamount & Hnotes & _).
  eexists. split; [rewrite find_updatedExpenses, He0; reflexivity|].
  simpl. rewrite orEmpty_truthy, Hnotes.
  repeat split; try assumption.
  - destruct (storedName file); reflexivity.
  - intros e Hin Hne. unfold updatedExpenses. apply in_map_iff.
    exists e. split; [|exact Hin].
    apply String.eqb_neq in Hne. rewrite Hne. reflexivity.
Qed.

Lemma putExpense_edit_frame_witness :
  exists e',
    findBy (fun e => Expense.id e =? Expense.id flights)
      (expenses (snd (handle (P := samplePlatform) sampleEnv sampleDb
                        employeeToken
                        (UpdateExpense (Expense.id flights) NoFile
                           (ExpenseInput.mk (Some "120") (Some "TRAVEL")
                              (Some "1700000000000") None)))))
    = Some e'
    /\ Expense.status e' = PENDING
    /\ Expense.rejectionReason e' = Expense.rejectionReason flights.
Proof.
  destruct (@putExpense_edit_frame samplePlatform sampleEnv sampleDb
              employeeToken (Expense.id flights) NoFile
              (ExpenseInput.mk (Some "120") (Some "TRAVEL")
                 (Some "1700000000000") None)
              _ _ flights eq_refl eq_refl eq_refl)
    as (e' & Hfind & _ & _ & _ & Hstatus & Hreason & _).
  exists e'. auto.
Defined.

(** X16. An edit is refused in a fixed order: an unknown id is 404 and
    another employee's expense is 403 whatever the form contains, so the
    form is only validated for an expense the caller may edit. *)
Theorem putExpense_refusal_order {P : Platform}
    env db authorization u id file i :
  callerOf env db authorization = Some u ->
  faults env UserRead = false ->
  faults env ExpenseRead = false ->
  (forall m, file <> Refused m) ->
  (findBy (fun e => Expense.id e =? id) (expenses db) = None ->
   handle env db authorization (UpdateExpense id file i)
   = (json 404 (ErrorJson "Expense not found"
                  "The requested expense does not exist"), db))
  /\ (forall e0,
        findBy (fun e => Expense.id e =? id) (expenses db) = Some e0 ->
        AuthUser.role u = EMPLOYEE ->
        Expense.userId e0 <> AuthUser.id u ->
        handle env db authorization (UpdateExpense id file i)
        = (json 403 (ErrorJson "Access denied"
                       "You can only edit your own expenses"), db)).
Proof.
  intros Hc Hu Her Hfile.
  split.
  - intros Hnone. unfold handle, serve, router.
    rewrite (authenticateToken_caller env db authorization _ u Hc Hu).
    unfold upload_single.
    assert (Hput : forall stored,
               putExpense u id stored i env db
               = (Ok (json 404 (ErrorJson "Expense not found"
                                  "The requested expense does not exist")), db)).
    { intros stored. unfold putExpense, prisma_expense.findUnique.
      unfold_handlers. rewrite Her, Hnone. reflexivity. }
    destruct file as [|filename|m]; rewrite ?Hput; try reflexivity.
    exfalso. exact (Hfile m eq_refl).
  - intros e0 He0 Hrole Hother. unfold handle, serve, router.
    rewrite (authenticateToken_caller env db authorization _ u Hc Hu).
    unfold upload_single.
    assert (Hput : forall stored,
               putExpense u id stored i env db
               = (Ok (json 403 (ErrorJson "Access denied"
                                  "You can only edit your own expenses")), db)).
    { intros stored. unfold putExpense, prisma_expense.findUnique.
      unfold_handlers. rewrite Her, He0. simpl. rewrite Hrole.
      apply String.eqb_neq in Hother. rewrite Hother. reflexivity. }
    destruct file as [|filename|m]; rewrite ?Hput; try reflexivity.
    exfalso. exact (Hfile m eq_refl).
Qed.

Lemma putExpense_refusal_order_witness :
  handle (P := samplePlatform) sampleEnv sampleDb employeeToken
    (UpdateExpense (Expense.id taxi) NoFile
       (ExpenseInput.mk None None None None))
  = (json 403 (ErrorJson "Access denied"
                 "You can only edit your own expenses"), sampleDb).
Proof.
  apply (proj2 (@putExpense_refusal_order samplePlatform sampleEnv sampleDb
                  employeeToken (AuthUser_of employee) (Expense.id taxi) NoFile
                  (ExpenseInput.mk None None None None)
                  eq_refl eq_refl eq_refl ltac:(discriminate))
           taxi eq_refl eq_refl ltac:(discriminate)).
Defined.

(** X17. Stored amounts stay acceptable: if every stored expense has an
    amount that passes the three tests of the [amount] transform (a number
    above 0, not below 0.01, not above 100000), the same holds after any
    call.  Create and edit are the only writers of the column and both store
    the number the transform returned. *)
Theorem amounts_stay_accepted {P : Platform} env db authorization c :
  Forall (fun e => amountAccepted (Expense.amount e) = true) (expenses db) ->
  Forall (fun e => amountAccepted (Expense.amount e) = true)
         (expenses (snd (handle env db authorization c))).
Proof.
  intros Hall.
  assert (Hupdated : forall id d,
             match prisma_expense.amount d with
             | Some a => amountAccepted a = true
             | None => True
             end ->
             Forall (fun e => amountAccepted (Expense.amount e) = true)
                    (updatedExpenses id d (expenses db))).
  { intros id d Hd. unfold updatedExpenses. apply Forall_map.
    eapply Forall_impl; [|exact Hall]. simpl. intros e He.
    destruct (Expense.id e =? id); [|exact He]. simpl.
    destruct (prisma_expense.amount d); simpl; assumption. }
  destruct (handle env db authorization c) as [r db'] eqn:Hrun. simpl.
  assert (Hrest : c = match c with
                      | CreateExpense _ _ | UpdateExpense _ _ _ => Me
                      | _ => c
                      end ->
                  Forall (fun e => amountAccepted (Expense.amount e) = true)
                         (expenses db')).
  { intros Hc.
    destruct (final_expenses env db authorization c) as (db1 & Hp & Heq).
    rewrite Hrun in Heq. simpl in Heq. rewrite Heq.
    destruct (primaryEffect_expenses env db authorization c db1 Hp)
      as [->|[(file & i & e & u & -> & _)
         |[(id & file & i & d & -> & _)
          |[(id & status & reason & st & _ & -> & _)|(id & _ & ->)]]]];
      try discriminate; try assumption.
    - apply Hupdated. exact I.
    - apply Forall_forall. intros e He. apply filter_In in He as [He _].
      rewrite Forall_forall in Hall. apply Hall, He. }
  destruct c; try (apply Hrest; reflexivity).
  - destruct (createExpense_stored _ _ _ _ _ _ _ Hrun)
      as [->|(u & f & d & _ & Hf & _ & ->)]; [exact Hall|].
    apply Forall_app. split; [exact Hall|].
    constructor; [|constructor]. simpl.
    apply (expenseSchema_valid _ _ Hf).
  - destruct (putExpense_stored _ _ _ _ _ _ _ _ Hrun)
      as [[-> _]|(f & d & Hf & _ & ->)]; [exact Hall|].
    apply Hupdated. simpl. apply (expenseSchema_valid _ _ Hf).
Qed.

Lemma amounts_stay_accepted_witness :
  Forall (fun e => amountAccepted (Expense.amount e) = true)
         (expenses (snd (handle (P := samplePlatform) sampleEnv sampleDb
                           employeeToken
                           (CreateExpense NoFile
                              (ExpenseInput.mk (Some "42") (Some "FOOD")
                                 (Some "1700000000000") None))))).
Proof.
  apply (@amounts_stay_accepted samplePlatform).
  repeat constructor.
Defined.

(* ===================================================================== *)
(** ** Logging in *)
(* ===================================================================== *)

Lemma findBy_email_found e (l : list User.t) u :
  findBy (fun x => User.email x =? e) l = Some u ->
  In u l /\ User.email u = e.
Proof.
  unfold findBy. intros H. apply find_some in H as [Hin H].
  split; [exact Hin|]. apply String.eqb_eq, H.
Qed.

(** What a login that is answered 200 has done. *)
Lemma login_answer {P : Platform} env db authorization email password r db' :
  handle env db authorization (Login email password) = (r, db') ->
  statusCode r = 200 ->
  exists stored e p,
    email = Some e /\ password = Some p
    /\ findBy (fun u => User.email u =? e) (users db) = Some stored
    /\ bcryptCompare p (User.password stored) = true
    /\ r = json 200
             (LoginJson "Login successful" (AuthUser_of stored)
                (jwtSign (now env) (User.id stored) (User.email stored)
                   (User.role stored)))
    /\ db' = audited db
               (AuditLog.mk (cuid (issued db)) "USER_LOGIN"
                  ("User " +++ User.email stored +++ " logged in")
                  (now env) (User.id stored)).
Proof.
  unfold handle, serve, router, validate.
  destruct (loginSchema email password) as [[e p]|details|message] eqn:Hs;
    [|intros [= <- _]; discriminate|intros [= <- _]; discriminate].
  apply loginSchema_valid in Hs as [-> ->]. simpl.
  unfold postLogin. unfold_prisma. unfold_handlers.
  intros H H200.
  repeat branch; simpl in H; pairs; simpl in H200; try discriminate.
  match goal with
  | Hf : findBy _ _ = Some ?u |- _ => exists u, e, p
  end.
  match goal with
  | Hb : negb _ = false |- _ => apply negb_false_iff in Hb
  end.
  repeat split; auto.
Qed.

(** X18. A login answered 200 proves the password matched the stored hash
    of the user with that email, writes exactly one USER_LOGIN entry for
    that user, and hands out a token signed for that user: whenever the
    verifier accepts the token for the id it was signed for, the token
    authenticates as the very user the answer names. *)
Theorem login_token_authenticates {P : Platform}
    env db authorization email password r db' :
  handle env db authorization (Login email password) = (r, db') ->
  statusCode r = 200 ->
  exists stored p token,
    In stored (users db)
    /\ email = Some (User.email stored)
    /\ password = Some p
    /\ bcryptCompare p (User.password stored) = true
    /\ body r = LoginJson "Login successful" (AuthUser_of stored) token
    /\ token = jwtSign (now env) (User.id stored) (User.email stored)
                 (User.role stored)
    /\ (exists a, db' = audited db a
                  /\ AuditLog.action a = "USER_LOGIN"
                  /\ AuditLog.userId a = User.id stored)
    /\ (forall env',
          NoDup (map User.id (users db)) ->
          jwtVerify (now env') token = Some (User.id stored) ->
          callerOf env' db' (Some token) = Some (AuthUser_of stored)).
Proof.
  intros Hrun H200.
  destruct (login_answer _ _ _ _ _ _ _ Hrun H200)
    as (stored & e & p & -> & -> & Hfind & Hpw & -> & ->).
  apply findBy_email_found in Hfind as [Hin <-].
  exists stored, p. eexists. repeat split; try reflexivity; try assumption.
  - eexists. repeat split; reflexivity.
  - intros env' Hnd Hverify. unfold callerOf. rewrite Hverify. simpl.
    rewrite (find_unique_user _ _ Hnd Hin). reflexivity.
Qed.

Lemma login_token_authenticates_witness :
  exists stored p token,
    In stored (users sampleDb)
    /\ Some "employee@example.com" = Some (User.email stored)
    /\ Some "password123" = Some p
    /\ token = jwtSign (Platform := samplePlatform) (now sampleEnv)
                 (User.id stored) (User.email stored) (User.role stored)
    /\ callerOf (P := samplePlatform) sampleEnv
         (snd (handle (P := samplePlatform) sampleEnv sampleDb None
                 (Login (Some "employee@example.com") (Some "password123"))))
         (Some token)
       = Some (AuthUser_of stored).
Proof.
  destruct (@login_token_authenticates samplePlatform sampleEnv sampleDb None
              (Some "employee@example.com") (Some "password123") _ _
              eq_refl eq_refl)
    as (stored & p & token & Hin & He & Hp & _ & _ & Ht & _ & Hauth).
  exists stored, p, token. repeat split; try assumption.
  apply Hauth.
  - simpl. repeat constructor; simpl; intuition discriminate.
  - rewrite Ht. injection He as He.
    destruct Hin as [<-|[<-|[<-|[]]]]; try discriminate He; reflexivity.
Defined.

(** X19. Logging in depends on the audit table: with the right password,
    when the USER_LOGIN entry cannot be written the answer is 500 'Login
    failed', no token is issued and nothing is stored. *)
Theorem login_needs_audit_write {P : Platform}
    env db authorization e p stored :
  loginSchema (Some e) (Some p) = Valid (e, p) ->
  findBy (fun u => User.email u =? e) (users db) = Some stored ->
  bcryptCompare p (User.password stored) = true ->
  faults env UserRead = false ->
  faults env AuditWrite = true ->
  handle env db authorization (Login (Some e) (Some p))
  = (json 500 (ErrorJson "Login failed" "An error occurred during login"), db).
Proof.
  intros Hs Hfind Hpw Hu Ha.
  unfold handle, serve, router, validate. rewrite Hs. simpl.
  unfold postLogin. unfold_prisma. unfold_handlers.
  rewrite Hu, Hfind, Hpw. simpl. rewrite Ha. reflexivity.
Qed.

Lemma login_needs_audit_write_witness :
  handle (P := samplePlatform) (mkEnv 1700000000000 auditDown) sampleDb None
    (Login (Some "employee@example.com") (Some "password123"))
  = (json 500 (ErrorJson "Login failed" "An error occurred during login"),
     sampleDb).
Proof.
  apply (@login_needs_audit_write samplePlatform
           (mkEnv 1700000000000 auditDown) sampleDb None
           "employee@example.com" "password123" employee
           eq_refl eq_refl eq_refl eq_refl eq_refl).
Defined.

(* ===================================================================== *)
(** ** User administration *)
(* ===================================================================== *)

Lemma findBy_app_new {A} (p : A -> bool) (l : list A) x :
  findBy p l = None -> findBy p (l ++ [x]) = if p x then Some x else None.
Proof.
  unfold findBy. induction l as [|y l IH]; simpl; [reflexivity|].
  destruct (p y); [discriminate|exact IH].
Qed.

Lemma userSchema_valid {P : Platform} i f :
  userSchema i = Valid f ->
  UserInput.email i = Some (UserFields.email f)
  /\ UserInput.password i = Some (UserFields.password f)
  /\ isEmail (UserFields.email f) = true
  /\ passwordOk (UserFields.password f) = true
  /\ (UserInput.role i = None -> UserFields.role f = EMPLOYEE).
Proof.
  unfold userSchema.
  destruct (_ ++ _) as [|x rest] eqn:Hissues; [|discriminate].
  destruct (UserInput.email i) as [e|]; [|discriminate].
  destruct (UserInput.password i) as [p|]; [|discriminate].
  destruct (UserInput.name i) as [n|]; [|discriminate].
  intros [= <-]. simpl.
  apply app_eq_nil in Hissues as [Hemail Hissues].
  apply app_eq_nil in Hissues as [Hpw _].
  apply issue_nil in Hemail, Hpw. simpl in Hemail, Hpw.
  repeat split; auto.
  intros ->. reflexivity.
Qed.

(** What a user creation that is answered 201 has done. *)
Lemma createUser_answer {P : Platform} env db authorization i r db' :
  handle env db authorization (CreateUser i) = (r, db') ->
  statusCode r = 201 ->
  exists f a,
    userSchema i = Valid f
    /\ findBy (fun u => User.email u =? UserFields.email f) (users db) = None
    /\ db' = audited
               (mkDb (users db
                      ++ [User.mk (cuid (issued db)) (UserFields.email f)
                            (bcryptHash (UserFields.password f))
                            (UserFields.name f) (UserFields.role f) (now env)])
                     (expenses db) (auditLogs db) (S (issued db)))
               a.
Proof.
  unfold handle, serve, router.
  destruct (admin_route env db authorization
              (fun user => validate (userSchema i) (postUser user)))
    as [(u & Hc & Hr & Hu & ->)|[_ Haway]].
  - unfold validate.
    destruct (userSchema i) as [f|details|message] eqn:Hi;
      [|intros [= <- _]; discriminate|intros [= <- _]; discriminate].
    unfold postUser. unfold_prisma. unfold_handlers.
    intros H H201. exists f.
    repeat branch; simpl in H; pairs; simpl in H201; try discriminate.
    eexists. repeat split; auto.
  - destruct (authenticateToken _ _ env db) as [o d].
    unfold turnedAway in Haway. simpl in Haway.
    destruct Haway as [_ [->|[->|[e ->]]]]; intros [= <- _]; discriminate.
Qed.

(** X20. A user creation answered 201 appends one user whose password
    column is the bcrypt hash of the password sent, whose role is EMPLOYEE
    when the request names none, and whose id is the next key of the
    generator: when no stored user has a key the generator has yet to
    issue, the id differs from the id of every user stored before, so
    distinct ids stay distinct, and (the generator being injective) the
    same holds of the new table.  The new account works: provided bcrypt
    accepts a password against its own hash, a login with the same email
    and password is then answered 200. *)
Theorem created_user_can_login {P : Platform}
    env db authorization i r db' :
  handle env db authorization (CreateUser i) = (r, db') ->
  statusCode r = 201 ->
  exists e p u,
    UserInput.email i = Some e
    /\ UserInput.password i = Some p
    /\ users db' = users db ++ [u]
    /\ findBy (fun x => User.email x =? e) (users db') = Some u
    /\ User.id u = cuid (issued db)
    /\ (keysUnused db ->
        (forall x, In x (users db) -> User.id x <> User.id u)
        /\ (NoDup (map User.id (users db)) ->
            NoDup (map User.id (users db')))
        /\ ((forall m n, cuid m = cuid n -> m = n) -> keysUnused db'))
    /\ User.password u = bcryptHash p
    /\ (UserInput.role i = None -> User.role u = EMPLOYEE)
    /\ (forall env' authorization',
          jsLength "" = 0 ->
          bcryptCompare p (bcryptHash p) = true ->
          faults env' UserRead = false ->
          faults env' AuditWrite = false ->
          statusCode (fst (handle env' db' authorization'
                             (Login (Some e) (Some p)))) = 200).
Proof.
  intros Hrun H201.
  destruct (createUser_answer _ _ _ _ _ _ Hrun H201)
    as (f & a & Hf & Hnew & ->).
  destruct (userSchema_valid _ _ Hf) as (He & Hp & Hemail & Hpw & Hrole).
  set (u := User.mk (cuid (issued db)) (UserFields.email f)
              (bcryptHash (UserFields.password f))
              (UserFields.name f) (UserFields.role f) (now env)).
  assert (Hfind : findBy (fun x => User.email x =? UserFields.email f)
                    (users db ++ [u]) = Some u).
  { rewrite (findBy_app_new _ _ _ Hnew). simpl.
    rewrite String.eqb_refl. reflexivity. }
  exists (UserFields.email f), (UserFields.password f), u.
  split; [exact He|]. split; [exact Hp|]. split; [reflexivity|].
  split; [exact Hfind|]. split; [reflexivity|].
  split; [|split; [reflexivity|split; [exact Hrole|]]].
  - intros Hkeys.
    assert (Hfresh : forall x, In x (users db) -> User.id x <> User.id u).
    { intros x Hx. apply (Hkeys (issued db) (le_n _) x Hx). }
    split; [exact Hfresh|]. split.
    + intros Hnd. simpl. rewrite map_app. simpl.
      apply NoDup_app; [exact Hnd | repeat constructor; simpl; tauto |].
      intros k Hin [<-|[]].
      apply in_map_iff in Hin as (x & Hx & Hin).
      exact (Hfresh x Hin Hx).
    + intros Hinj n Hn x Hx. simpl in Hn, Hx.
      apply in_app_or in Hx as [Hx|[<-|[]]].
      * apply (Hkeys n ltac:(lia) x Hx).
      * simpl. intros Heq. apply Hinj in Heq. lia.
  - intros env' authorization' Hlen Hbcrypt Hu Ha.
    assert (Hne : nonEmpty (UserFields.password f) = true).
    { unfold nonEmpty. apply negb_true_iff, String.eqb_neq. intros Hempty.
      unfold passwordOk in Hpw. rewrite Hempty, Hlen in Hpw. discriminate. }
    unfold handle, serve, router, validate, loginSchema.
    rewrite Hemail, Hne. simpl.
    unfold postLogin. unfold_prisma. unfold_handlers.
    rewrite Hu. simpl. rewrite Hfind. simpl. rewrite Hbcrypt. simpl.
    rewrite Ha. reflexivity.
Qed.

Lemma created_user_can_login_witness :
  exists e p u,
    Some "new@example.com" = Some e
    /\ Some "secret1" = Some p
    /\ users (snd (handle (P := samplePlatform) sampleEnv sampleDb adminToken
                     (CreateUser
                        (UserInput.mk (Some "new@example.com")
                           (Some "secret1") (Some "New User") None))))
       = users sampleDb ++ [u]
    /\ User.id u = cuid (Platform := samplePlatform) (issued sampleDb)
    /\ (forall x, In x (users sampleDb) -> User.id x <> User.id u)
    /\ NoDup (map User.id
                (users (snd (handle (P := samplePlatform) sampleEnv sampleDb
                               adminToken
                               (CreateUser
                                  (UserInput.mk (Some "new@example.com")
                                     (Some "secret1") (Some "New User")
                                     None))))))
    /\ User.password u = bcryptHash (Platform := samplePlatform) p
    /\ User.role u = EMPLOYEE
    /\ statusCode
         (fst (handle (P := samplePlatform) sampleEnv
                 (snd (handle (P := samplePlatform) sampleEnv sampleDb
                         adminToken
                         (CreateUser
                            (UserInput.mk (Some "new@example.com")
                               (Some "secret1") (Some "New User") None))))
                 None (Login (Some e) (Some p)))) = 200.
Proof.
  destruct (@created_user_can_login samplePlatform sampleEnv sampleDb
              adminToken
              (UserInput.mk (Some "new@example.com") (Some "secret1")
                 (Some "New User") None)
              _ _ eq_refl eq_refl)
    as (e & p & u & He & Hp & Husers & _ & Hid & Hkeys & Hhash & Hrole
        & Hlogin).
  assert (Hunused : keysUnused (P := samplePlatform) sampleDb).
  { intros n _ x [<-|[<-|[<-|[]]]]; simpl; discriminate. }
  destruct (Hkeys Hunused) as (Hfresh & Hnd & _).
  exists e, p, u.
  split; [exact He|]. split; [exact Hp|]. split; [exact Husers|].
  split; [exact Hid|]. split; [exact Hfresh|]. split.
  - apply Hnd. simpl. repeat constructor; simpl; intuition discriminate.
  - split; [exact Hhash|]. split; [apply Hrole; reflexivity|].
    apply Hlogin; try reflexivity.
    injection Hp as <-. reflexivity.
Defined.

(** What a user deletion that is answered 200 has done. *)
Lemma deleteUser_answer {P : Platform} env db authorization id r db' :
  handle env db authorization (DeleteUser id) = (r, db') ->
  statusCode r = 200 ->
  exists admin a,
    callerOf env db authorization = Some admin
    /\ AuthUser.id admin <> id
    /\ AuditLog.action a = "USER_DELETED"
    /\ AuditLog.userId a = AuthUser.id admin
    /\ db' = audited
               (mkDb (filter (fun u => negb (User.id u =? id)) (users db))
                     (filter (fun e => negb (Expense.userId e =? id))
                             (expenses db))
                     (filter (fun a => negb (AuditLog.userId a =? id))
                             (auditLogs db))
                     (issued db))
               a.
Proof.
  unfold handle, serve, router.
  destruct (admin_route env db authorization (fun user => deleteUser user id))
    as [(u & Hc & Hr & Hu & ->)|[_ Haway]].
  - unfold deleteUser. unfold_prisma. unfold_handlers.
    intros H H200. exists u.
    repeat branch; simpl in H; pairs; simpl in H200; try discriminate.
    eexists. repeat split; auto.
    match goal with
    | Hf : findBy _ _ = Some ?t, Hne : (User.id ?t =? _) = false |- _ =>
        apply findBy_user_id in Hf; apply String.eqb_neq in Hne;
          congruence
    end.
  - destruct (authenticateToken _ _ env db) as [o d].
    unfold turnedAway in Haway. simpl in Haway.
    destruct Haway as [_ [->|[->|[e ->]]]]; intros [= <- _]; discriminate.
Qed.

(** X21. A deletion answered 200 removes the user and everything that
    refers to it: afterwards no user has that id, no expense belongs to it
    and no audit entry was made by it; the rows of every other user are all
    still there; and the audit log is the entries that remain followed by
    one new entry, whose action is USER_DELETED and whose user is the
    calling administrator, who is not the deleted user. *)
Theorem deleteUser_cascade {P : Platform} env db authorization id r db' :
  handle env db authorization (DeleteUser id) = (r, db') ->
  statusCode r = 200 ->
  (forall u, In u (users db') -> User.id u <> id)
  /\ (forall e, In e (expenses db') -> Expense.userId e <> id)
  /\ (forall a, In a (auditLogs db') -> AuditLog.userId a <> id)
  /\ (forall u, In u (users db) -> User.id u <> id -> In u (users db'))
  /\ (forall e, In e (expenses db) -> Expense.userId e <> id ->
                In e (expenses db'))
  /\ (forall a, In a (auditLogs db) -> AuditLog.userId a <> id ->
                In a (auditLogs db'))
  /\ List.length (auditLogs db')
     = S (List.length (filter (fun a => negb (AuditLog.userId a =? id))
                              (auditLogs db)))
  /\ exists admin entry,
       callerOf env db authorization = Some admin
       /\ AuthUser.id admin <> id
       /\ auditLogs db'
          = filter (fun a => negb (AuditLog.userId a =? id)) (auditLogs db)
            ++ [entry]
       /\ AuditLog.action entry = "USER_DELETED"
       /\ AuditLog.userId entry = AuthUser.id admin.
Proof.
  intros Hrun H200.
  destruct (deleteUser_answer _ _ _ _ _ _ Hrun H200)
    as (admin & a & Hc & Hne & Haction & Ha & ->).
  unfold audited. simpl.
  repeat match goal with |- _ /\ _ => split end.
  - intros u Hu. apply filter_In in Hu as [_ Hu].
    apply negb_true_iff, String.eqb_neq in Hu. exact Hu.
  - intros e He. apply filter_In in He as [_ He].
    apply negb_true_iff, String.eqb_neq in He. exact He.
  - intros x Hx. apply in_app_or in Hx as [Hx|[<-|[]]].
    + apply filter_In in Hx as [_ Hx].
      apply negb_true_iff, String.eqb_neq in Hx. exact Hx.
    + rewrite Ha. exact Hne.
  - intros u Hu Hid. apply filter_In. split; [exact Hu|].
    apply negb_true_iff, String.eqb_neq, Hid.
  - intros e He Hid. apply filter_In. split; [exact He|].
    apply negb_true_iff, String.eqb_neq, Hid.
  - intros x Hx Hid. apply in_or_app. left. apply filter_In.
    split; [exact Hx|]. apply negb_true_iff, String.eqb_neq, Hid.
  - rewrite length_app. simpl. lia.
  - exists admin, a. auto.
Qed.

Lemma deleteUser_cascade_witness :
  Forall (fun u => User.id u <> "u_emp")
    (users (snd (handle (P := samplePlatform) sampleEnv sampleDb
                   adminToken (DeleteUser "u_emp"))))
  /\ Forall (fun e => Expense.userId e <> "u_emp")
       (expenses (snd (handle (P := samplePlatform) sampleEnv sampleDb
                         adminToken (DeleteUser "u_emp"))))
  /\ Forall (fun a => AuditLog.userId a <> "u_emp")
       (auditLogs (snd (handle (P := samplePlatform) sampleEnv sampleDb
                          adminToken (DeleteUser "u_emp"))))
  /\ In taxi (expenses (snd (handle (P := samplePlatform) sampleEnv sampleDb
                              adminToken (DeleteUser "u_emp"))))
  /\ exists admin entry,
       callerOf (P := samplePlatform) sampleEnv sampleDb adminToken
       = Some admin
       /\ AuthUser.id admin <> "u_emp"
       /\ auditLogs (snd (handle (P := samplePlatform) sampleEnv sampleDb
                            adminToken (DeleteUser "u_emp")))
          = filter (fun a => negb (AuditLog.userId a =? "u_emp"))
                   (auditLogs sampleDb)
            ++ [entry]
       /\ AuditLog.action entry = "USER_DELETED"
       /\ AuditLog.userId entry = AuthUser.id admin.
Proof.
  destruct (@deleteUser_cascade samplePlatform sampleEnv sampleDb adminToken
              "u_emp" _ _ eq_refl eq_refl)
    as (Husers & Hexpenses & Hlogs & _ & Hkept & _ & _ & Hentry).
  split; [apply Forall_forall, Husers|].
  split; [apply Forall_forall, Hexpenses|].
  split; [apply Forall_forall, Hlogs|].
  split; [|exact Hentry].
  apply Hkept; [simpl; tauto|discriminate].
Defined.

(* ===================================================================== *)
(** ** The CSV exports *)
(* ===================================================================== *)

Lemma dateArg_cases {P : Platform} v env db :
  (exists o, dateArg v env db = (Ok o, db) /\ (v = None -> o = None))
  \/ (exists e, dateArg v env db = (Throw e, db)).
Proof.
  unfold dateArg, ret, throw.
  destruct v as [s|]; simpl.
  - destruct (s =? ""); [left; eexists; split; [reflexivity|discriminate]|].
    destruct (newDate s); [left|right]; eexists; try reflexivity.
    split; [reflexivity|discriminate].
  - left. eexists. split; reflexivity.
Qed.

Lemma enumArg_cases {P : Platform} {A} (parse : string -> option A) v env db :
  enumArg parse v env db = (Ok (truthy v), db)
  \/ (exists e, enumArg parse v env db = (Throw e, db)).
Proof.
  unfold enumArg, ret, throw.
  destruct (truthy v) as [s|]; [|left; reflexivity].
  destruct (unknownNameRejected && negb (isSome (parse s))); eauto.
Qed.

Lemma dateArg_bound {P : Platform} v env db :
  dateArg v env db = (Ok (dateBound v), db)
  \/ (exists e, dateArg v env db = (Throw e, db)).
Proof.
  unfold dateArg, dateBound, ret, throw.
  destruct (truthy v) as [s|]; [|left; reflexivity].
  destruct (newDate s); eauto.
Qed.

(** What an expense export that sends a CSV has selected and written. *)
Lemma exportExpenses_answer {P : Platform}
    env db authorization category status startDate endDate r db' rows :
  handle env db authorization
    (ExportExpenses category status startDate endDate) = (r, db') ->
  body r = ExpensesCsv rows ->
  exists u,
    callerOf env db authorization = Some u
    /\ AuthUser.role u = ADMIN
    /\ rows = map (includeUser db)
                (sortDesc Expense.date
                   (filter (exportMatches
                              (ExportWhere.mk (truthy category) (truthy status)
                                 (dateBound startDate) (dateBound endDate)))
                           (expenses db)))
    /\ (db' = db
        \/ db' = audited db
                   (AuditLog.mk (cuid (issued db)) "EXPENSE_EXPORT"
                      ("Exported " +++ natToString (List.length rows)
                       +++ " expenses to CSV")
                      (now env) (AuthUser.id u))).
Proof.
  unfold handle, serve, router.
  destruct (admin_route env db authorization
              (fun user =>
                 exportExpenses user category status startDate endDate))
    as [(u & Hc & Hr & Hu & ->)|[_ Haway]].
  - unfold exportExpenses, tryCatch, sendThen, bind. cbv beta.
    destruct (enumArg_cases parseExpenseCategory category env db)
      as [Hcat|[e Hcat]]; rewrite Hcat; cbv beta iota;
      [|intros [= <- _]; discriminate].
    destruct (enumArg_cases parseExpenseStatus status env db)
      as [Hst|[e Hst]]; rewrite Hst; cbv beta iota;
      [|intros [= <- _]; discriminate].
    destruct (dateArg_bound startDate env db)
      as [Hgte|[e Hgte]]; rewrite Hgte; cbv beta iota;
      [|intros [= <- _]; discriminate].
    destruct (dateArg_bound endDate env db)
      as [Hlte|[e Hlte]]; rewrite Hlte; cbv beta iota;
      [|intros [= <- _]; discriminate].
    unfold prisma_expense.findAll, prisma_auditLog.create, prisma, ret.
    destruct (faults env ExpenseRead); cbv beta iota;
      [intros [= <- _]; discriminate|].
    destruct (faults env AuditWrite); cbv beta iota;
      intros [= <- <-] [= <-]; exists u;
      (split; [exact Hc|]); (split; [exact Hr|]);
      (split; [reflexivity|]); [left|right]; reflexivity.
  - destruct (authenticateToken _ _ env db) as [o d].
    unfold turnedAway in Haway. simpl in Haway.
    destruct Haway as [_ [->|[->|[e ->]]]]; intros [= <- _]; discriminate.
Qed.

(** X22. The expense export is not paged and not restricted to an owner.
    Its rows are exactly the stored expenses, of whatever user, whose
    category and status have the names given in the request (when given)
    and whose date lies within the request's bounds, ordered by expense
    date, latest first; and the audit entry it writes, if any, states
    exactly the number of rows sent. *)
Theorem exportExpenses_rows_and_count {P : Platform}
    env db authorization category status startDate endDate r db' rows :
  handle env db authorization
    (ExportExpenses category status startDate endDate) = (r, db') ->
  body r = ExpensesCsv rows ->
  let w := ExportWhere.mk (truthy category) (truthy status)
             (dateBound startDate) (dateBound endDate) in
  (forall e, In e (map fst rows)
             <-> In e (expenses db) /\ exportMatches w e = true)
  /\ List.length rows = List.length (filter (exportMatches w) (expenses db))
  /\ descending (map (fun row => Expense.date (fst row)) rows)
  /\ (db' = db
      \/ exists a,
           db' = audited db a
           /\ AuditLog.action a = "EXPENSE_EXPORT"
           /\ AuditLog.description a
              = "Exported " +++ natToString (List.length rows)
                +++ " expenses to CSV").
Proof.
  intros Hrun Hb w.
  destruct (exportExpenses_answer _ _ _ _ _ _ _ _ _ _ Hrun Hb)
    as (u & _ & _ & Hrows & Hdb).
  fold w in Hrows.
  split; [|split; [|split]].
  - intros e. rewrite Hrows, map_map. simpl. rewrite map_id.
    rewrite sortDesc_In, filter_In. reflexivity.
  - rewrite Hrows, length_map, sortDesc_length. reflexivity.
  - rewrite Hrows, map_map. simpl. apply sortDesc_descending.
  - destruct Hdb as [->| ->]; [left; reflexivity|].
    right. eexists. repeat split; reflexivity.
Qed.

Lemma exportExpenses_rows_and_count_witness :
  let rows := map (includeUser sampleDb) [taxi; flights; uber] in
  let w := ExportWhere.mk (Some "TRAVEL") None None None in
  (forall e, In e (map fst rows)
             <-> In e (expenses sampleDb) /\ exportMatches w e = true)
  /\ List.length rows
     = List.length (filter (exportMatches w) (expenses sampleDb))
  /\ descending (map (fun row => Expense.date (fst row)) rows)
  /\ (snd (handle (P := samplePlatform) sampleEnv sampleDb adminToken
             (ExportExpenses (Some "TRAVEL") None None None)) = sampleDb
      \/ exists a,
           snd (handle (P := samplePlatform) sampleEnv sampleDb adminToken
                  (ExportExpenses (Some "TRAVEL") None None None))
           = audited sampleDb a
           /\ AuditLog.action a = "EXPENSE_EXPORT"
           /\ AuditLog.description a
              = "Exported " +++ natToString (List.length rows)
                +++ " expenses to CSV").
Proof.
  apply (@exportExpenses_rows_and_count samplePlatform sampleEnv sampleDb
           adminToken (Some "TRAVEL") None None None _ _
           (map (includeUser sampleDb) [taxi; flights; uber])
           eq_refl eq_refl).
Defined.

Lemma filter_nothing {A} (f : A -> bool) (l : list A) :
  (forall x, f x = false) -> filter f l = [].
Proof.
  intros Hf. induction l as [|x l IH]; simpl; [reflexivity|].
  rewrite Hf. exact IH.
Qed.

Lemma unknown_category_name s :
  parseExpenseCategory s = None ->
  forall c, (s =? ExpenseCategory_toString c) = false.
Proof.
  unfold parseExpenseCategory. intros H c.
  destruct c; simpl;
    match goal with
    | |- (s =? ?name) = false =>
        destruct (s =? name) eqn:E; [|reflexivity];
          apply String.eqb_eq in E; subst s; discriminate H
    end.
Qed.

(** X13. An unknown category name is refused by the listing with 400 and
    the field named, but the export route runs no schema and passes the
    name to the query as it is.  What follows is the store's answer: if it
    rejects a name outside the enumeration the export ends in 500 'Failed
    to export expenses' with nothing written; if it takes the name as text
    no row has it, so whenever the export sends a CSV that CSV has no
    rows. *)
Theorem unknown_category_list_400_export_unvalidated {P : Platform}
    env db authorization u s :
  callerOf env db authorization = Some u ->
  AuthUser.role u = ADMIN ->
  faults env UserRead = false ->
  parseExpenseCategory s = None ->
  s <> "" ->
  (forall q, FilterInput.category q = Some s ->
     exists details,
       handle env db authorization (ListExpenses q)
       = (json 400 (ValidationJson details), db)
       /\ In "category" details)
  /\ (unknownNameRejected = true ->
      forall status startDate endDate,
        handle env db authorization
          (ExportExpenses (Some s) status startDate endDate)
        = (json 500 (ErrorJson "Failed to export expenses"
                       "An error occurred while exporting expenses"), db))
  /\ (forall status startDate endDate r db' rows,
        handle env db authorization
          (ExportExpenses (Some s) status startDate endDate) = (r, db') ->
        body r = ExpensesCsv rows ->
        unknownNameRejected = false /\ rows = []).
Proof.
  intros Hc Hr Hu Hs Hne. split; [|split].
  - intros q Hq. unfold handle, serve, router.
    rewrite (authenticateToken_caller env db authorization _ u Hc Hu).
    unfold validate, expenseFilterSchema. rewrite Hq. simpl. rewrite Hs. simpl.
    eexists. split; [reflexivity|]. left. reflexivity.
  - intros Hrej status startDate endDate. unfold handle, serve, router.
    rewrite (admin_caller env db authorization _ u Hc Hr Hu).
    unfold exportExpenses, enumArg, truthy. unfold_handlers.
    apply String.eqb_neq in Hne. rewrite Hne, Hs, Hrej. reflexivity.
  - intros status startDate endDate r db' rows Hrun Hb.
    destruct unknownNameRejected eqn:Hrej.
    + exfalso. revert Hrun. unfold handle, serve, router.
      rewrite (admin_caller env db authorization _ u Hc Hr Hu).
      unfold exportExpenses, enumArg, truthy. unfold_handlers.
      apply String.eqb_neq in Hne. rewrite Hne, Hs, Hrej. simpl.
      intros [= <- _]. discriminate Hb.
    + split; [reflexivity|].
      destruct (exportExpenses_answer _ _ _ _ _ _ _ _ _ _ Hrun Hb)
        as (_ & _ & _ & -> & _).
      rewrite filter_nothing; [reflexivity|].
      intros e. unfold exportMatches, truthy. simpl.
      apply String.eqb_neq in Hne. rewrite Hne. simpl.
      rewrite (unknown_category_name s Hs). reflexivity.
Qed.

Lemma unknown_category_list_400_export_unvalidated_witness :
  handle (P := samplePlatform) sampleEnv sampleDb adminToken
    (ExportExpenses (Some "TAXI") None None None)
  = (json 500 (ErrorJson "Failed to export expenses"
                 "An error occurred while exporting expenses"), sampleDb)
  /\ (exists details,
        handle (P := textPlatform) sampleEnv sampleDb adminToken
          (ListExpenses (FilterInput.mk (Some "TAXI") None None None None None))
        = (json 400 (ValidationJson details), sampleDb)
        /\ In "category" details)
  /\ (forall rows,
        body (fst (handle (P := textPlatform) sampleEnv sampleDb adminToken
                     (ExportExpenses (Some "TAXI") None None None)))
        = ExpensesCsv rows ->
        unknownNameRejected (Platform := textPlatform) = false /\ rows = []).
Proof.
  pose proof (@unknown_category_list_400_export_unvalidated samplePlatform
                sampleEnv sampleDb adminToken (AuthUser_of admin) "TAXI"
                eq_refl eq_refl eq_refl eq_refl ltac:(discriminate))
    as (_ & Hrejected & _).
  pose proof (@unknown_category_list_400_export_unvalidated textPlatform
                sampleEnv sampleDb adminToken (AuthUser_of admin) "TAXI"
                eq_refl eq_refl eq_refl eq_refl ltac:(discriminate))
    as (Hlist & _ & Htext).
  split; [exact (Hrejected eq_refl None None None)|].
  split;
    [exact (Hlist (FilterInput.mk (Some "TAXI") None None None None None)
              eq_refl)|].
  intros rows Hb.
  exact (Htext None None None _ _ rows eq_refl Hb).
Defined.

(** What an audit export that sends a CSV has selected and written. *)
Lemma exportLogs_answer {P : Platform}
    env db authorization action userId startDate endDate r db' rows :
  handle env db authorization
    (ExportLogs action userId startDate endDate) = (r, db') ->
  body r = LogsCsv rows ->
  exists u gte lte,
    callerOf env db authorization = Some u
    /\ (startDate = None -> gte = None)
    /\ (endDate = None -> lte = None)
    /\ rows = map (includeActor db)
                (sortDesc AuditLog.timestamp
                   (filter (auditMatches
                              (AuditWhere.mk (truthy action) (truthy userId)
                                 gte lte))
                           (auditLogs db)))
    /\ (faults env AuditWrite = true /\ db' = db
        \/ db' = audited db
                   (AuditLog.mk (cuid (issued db)) "AUDIT_EXPORT"
                      ("Exported " +++ natToString (List.length rows)
                       +++ " audit logs to CSV")
                      (now env) (AuthUser.id u))).
Proof.
  unfold handle, serve, router.
  destruct (admin_route env db authorization
              (fun user => exportLogs user action userId startDate endDate))
    as [(u & Hc & Hr & Hu & ->)|[_ Haway]].
  - unfold exportLogs, tryCatch, sendThen, bind. cbv beta.
    destruct (dateArg_cases startDate env db)
      as [(gte & Hgte & Hg)|[e Hgte]]; rewrite Hgte; cbv beta iota;
      [|intros [= <- _]; discriminate].
    destruct (dateArg_cases endDate env db)
      as [(lte & Hlte & Hl)|[e Hlte]]; rewrite Hlte; cbv beta iota;
      [|intros [= <- _]; discriminate].
    unfold prisma_auditLog.findAll, prisma_auditLog.create, prisma, ret.
    destruct (faults env AuditRead); cbv beta iota;
      [intros [= <- _]; discriminate|].
    destruct (faults env AuditWrite) eqn:Hw; cbv beta iota;
      intros [= <- <-] [= <-]; exists u, gte, lte;
      (split; [exact Hc|]); (split; [exact Hg|]); (split; [exact Hl|]);
      (split; [reflexivity|]); [left; split|right]; reflexivity.
  - destruct (authenticateToken _ _ env db) as [o d].
    unfold turnedAway in Haway. simpl in Haway.
    destruct Haway as [_ [->|[->|[e ->]]]]; intros [= <- _]; discriminate.
Qed.

Lemma filter_all {A} (f : A -> bool) (l : list A) :
  (forall x, f x = true) -> filter f l = l.
Proof.
  intros Hf. induction l as [|x l IH]; simpl; [reflexivity|].
  rewrite Hf, IH. reflexivity.
Qed.

(** X23. Exporting the audit log is itself logged.  After an unfiltered
    export whose audit entry could be written, the next unfiltered export
    has exactly one row more, and among its rows is the AUDIT_EXPORT entry
    that states how many rows the first export had. *)
Theorem exportLogs_is_logged {P : Platform}
    env db authorization r1 db1 rows1 env' authorization' r2 db2 rows2 :
  handle env db authorization (ExportLogs None None None None) = (r1, db1) ->
  body r1 = LogsCsv rows1 ->
  faults env AuditWrite = false ->
  handle env' db1 authorization' (ExportLogs None None None None) = (r2, db2) ->
  body r2 = LogsCsv rows2 ->
  List.length rows2 = S (List.length rows1)
  /\ exists entry,
       In entry (map fst rows2)
       /\ AuditLog.action entry = "AUDIT_EXPORT"
       /\ AuditLog.description entry
          = "Exported " +++ natToString (List.length rows1)
            +++ " audit logs to CSV".
Proof.
  intros Hrun1 Hb1 Hwrite Hrun2 Hb2.
  destruct (exportLogs_answer _ _ _ _ _ _ _ _ _ _ Hrun1 Hb1)
    as (u1 & gte1 & lte1 & _ & Hg1 & Hl1 & Hrows1 & Hdb1).
  destruct (exportLogs_answer _ _ _ _ _ _ _ _ _ _ Hrun2 Hb2)
    as (u2 & gte2 & lte2 & _ & Hg2 & Hl2 & Hrows2 & _).
  rewrite (Hg1 eq_refl), (Hl1 eq_refl) in Hrows1.
  rewrite (Hg2 eq_refl), (Hl2 eq_refl) in Hrows2.
  rewrite filter_all in Hrows1, Hrows2 by reflexivity.
  destruct Hdb1 as [[Hf _]| ->]; [congruence|].
  assert (Hlen1 : List.length rows1 = List.length (auditLogs db)).
  { rewrite Hrows1, length_map, sortDesc_length. reflexivity. }
  split.
  - rewrite Hrows2, length_map, sortDesc_length. simpl.
    rewrite length_app, Hlen1. simpl. lia.
  - eexists. split.
    + rewrite Hrows2, map_map. simpl. rewrite map_id.
      apply sortDesc_In. simpl. apply in_or_app. right. left. reflexivity.
    + split; reflexivity.
Qed.

Lemma exportLogs_is_logged_witness :
  List.length
    (map (includeActor
            (snd (handle (P := samplePlatform) sampleEnv sampleDb adminToken
                    (ExportLogs None None None None))))
       (sortDesc AuditLog.timestamp
          (auditLogs
             (snd (handle (P := samplePlatform) sampleEnv sampleDb adminToken
                     (ExportLogs None None None None))))))
  = S (List.length
         (map (includeActor sampleDb)
            (sortDesc AuditLog.timestamp (auditLogs sampleDb)))).
Proof.
  apply (@exportLogs_is_logged samplePlatform sampleEnv sampleDb adminToken
           _ _ _ sampleEnv adminToken _ _ _
           eq_refl eq_refl eq_refl eq_refl eq_refl).
Defined.

(* ===================================================================== *)
(** ** Who reaches which route *)
(* ===================================================================== *)

Lemma unauthenticated_route {P : Platform} env db authorization next :
  callerOf env db authorization = None ->
  faults env UserRead = false ->
  authenticateToken authorization next env db = (Ok unauthenticated, db).
Proof.
  intros Hc Hu. rewrite authenticateToken_run. unfold callerOf in Hc.
  destruct authorization as [token|]; [|reflexivity].
  destruct (jwtVerify (now env) token) as [userId|]; [|reflexivity].
  rewrite Hu.
  destruct (findBy _ (users db)); [discriminate|reflexivity].
Qed.

Lemma employee_refused {P : Platform} env db authorization
    (next : AuthUser.t -> M Response) u :
  callerOf env db authorization = Some u ->
  AuthUser.role u = EMPLOYEE ->
  faults env UserRead = false ->
  authenticateToken authorization (fun user => requireAdmin user (next user))
    env db
  = (Ok forbidden, db).
Proof.
  intros Hc Hr Hu.
  rewrite (authenticateToken_caller env db authorization _ u Hc Hu).
  unfold requireAdmin. rewrite Hr. reflexivity.
Qed.

(** X24. Access control by route.  Without a token that resolves to a
    stored user every call except the login is answered 401, and a caller
    whose role is EMPLOYEE is answered 403 on every administrator route
    (status decisions, the expense export, user administration, the audit
    log and its export); in both cases no handler runs and nothing is
    written. *)
Theorem routes_guarded {P : Platform} env db authorization c :
  faults env UserRead = false ->
  (callerOf env db authorization = None ->
   isLogin c = false ->
   handle env db authorization c = (unauthenticated, db))
  /\ (forall u,
        callerOf env db authorization = Some u ->
        AuthUser.role u = EMPLOYEE ->
        adminOnly c = true ->
        handle env db authorization c = (forbidden, db)).
Proof.
  intros Hu. split.
  - intros Hc Hl. unfold handle, serve, router.
    destruct c; try discriminate;
      rewrite (unauthenticated_route env db authorization _ Hc Hu);
      reflexivity.
  - intros u Hc Hr Ha. unfold handle, serve, router.
    destruct c; try discriminate;
      rewrite (employee_refused env db authorization _ u Hc Hr Hu);
      reflexivity.
Qed.

Lemma routes_guarded_witness :
  handle (P := samplePlatform) sampleEnv sampleDb None Logout
  = (unauthenticated, sampleDb)
  /\ handle (P := samplePlatform) sampleEnv sampleDb employeeToken
       (DeleteUser "u_col")
     = (forbidden, sampleDb).
Proof.
  pose proof (@routes_guarded samplePlatform sampleEnv sampleDb None Logout
                eq_refl) as [H401 _].
  pose proof (@routes_guarded samplePlatform sampleEnv sampleDb employeeToken
                (DeleteUser "u_col") eq_refl) as [_ H403].
  split.
  - apply H401; reflexivity.
  - apply (H403 (AuthUser_of employee)); reflexivity.
Defined.

Lemma findBy_none_iff_absent id (l : list User.t) :
  (forall u, In u l -> User.id u <> id) ->
  findBy (fun u => User.id u =? id) l = None.
Proof.
  intros H. unfold findBy.
  destruct (find _ l) as [u|] eqn:Hf; [|reflexivity].
  apply find_some in Hf as [Hin Heq]. apply String.eqb_eq in Heq.
  exfalso. exact (H u Hin Heq).
Qed.

(** X25. Deleting a user ends that user's sessions: after a deletion
    answered 200, a token that verifies for the deleted id resolves to no
    user, so every call made with it except the login is answered 401. *)
Theorem deleted_user_locked_out {P : Platform}
    env db authorization id r db' env' token c :
  handle env db authorization (DeleteUser id) = (r, db') ->
  statusCode r = 200 ->
  jwtVerify (now env') token = Some id ->
  faults env' UserRead = false ->
  isLogin c = false ->
  callerOf env' db' (Some token) = None
  /\ handle env' db' (Some token) c = (unauthenticated, db').
Proof.
  intros Hrun H200 Hverify Hu Hl.
  destruct (deleteUser_answer _ _ _ _ _ _ Hrun H200)
    as (admin & a & _ & _ & _ & _ & ->).
  assert (Hc : callerOf env'
                 (audited
                    (mkDb (filter (fun u => negb (User.id u =? id)) (users db))
                       (filter (fun e => negb (Expense.userId e =? id))
                               (expenses db))
                       (filter (fun a => negb (AuditLog.userId a =? id))
                               (auditLogs db))
                       (issued db)) a)
                 (Some token) = None).
  { unfold callerOf. rewrite Hverify. simpl.
    rewrite findBy_none_iff_absent; [reflexivity|].
    intros u Hin. apply filter_In in Hin as [_ Hin].
    apply negb_true_iff, String.eqb_neq in Hin. exact Hin. }
  split; [exact Hc|].
  unfold handle, serve, router.
  destruct c; try discriminate;
    rewrite (unauthenticated_route env' _ (Some token) _ Hc Hu);
    reflexivity.
Qed.

Lemma deleted_user_locked_out_witness :
  handle (P := samplePlatform) sampleEnv
    (snd (handle (P := samplePlatform) sampleEnv sampleDb adminToken
            (DeleteUser "u_emp")))
    employeeToken Me
  = (unauthenticated,
     snd (handle (P := samplePlatform) sampleEnv sampleDb adminToken
            (DeleteUser "u_emp"))).
Proof.
  apply (@deleted_user_locked_out samplePlatform sampleEnv sampleDb adminToken
           "u_emp" _ _ sampleEnv "jwt.u_emp" Me
           eq_refl eq_refl eq_refl eq_refl eq_refl).
Defined.

(* ===================================================================== *)
(** ** The CSV helper *)
(* ===================================================================== *)

Lemma undouble_double s : undoubleQuotes (doubleQuotes s) = s.
Proof.
  induction s as [|c s IH]; [reflexivity|]. simpl.
  destruct (Ascii.eqb c dquote) eqn:Hc.
  - apply Ascii.eqb_eq in Hc. subst c. simpl. rewrite IH. reflexivity.
  - simpl. rewrite Hc, IH. reflexivity.
Qed.

Lemma dropLast_append_one s c :
  dropLast (s +++ String c EmptyString) = s.
Proof.
  induction s as [|x s IH]; [reflexivity|]. simpl.
  destruct (s +++ String c EmptyString) eqn:Hs.
  - destruct s; discriminate.
  - rewrite IH. reflexivity.
Qed.

Lemma includes_false_head c x s :
  includes c (String x s) = false -> Ascii.eqb x c = false.
Proof. simpl. intros H. apply orb_false_iff in H. tauto. Qed.

(** X26. The quoting of the CSV helper can be undone: reading a text cell
    back (outer quotes removed, doubled quotes halved) gives the text that
    was written, whatever commas and quotes it contains; and the helper
    quotes a text cell exactly when it contains a comma or a quote, so a
    text containing only a line break is written bare. *)
Theorem csvCell_read_back (s : string) :
  readCsvField (csvCell (Text s)) = s
  /\ (includes comma s || includes dquote s = false -> csvCell (Text s) = s).
Proof.
  split.
  - unfold csvCell.
    destruct (includes comma s || includes dquote s) eqn:Hq.
    + simpl. rewrite dropLast_append_one. apply undouble_double.
    + destruct s as [|c s]; [reflexivity|]. unfold readCsvField.
      apply orb_false_iff in Hq as [_ Hq].
      apply includes_false_head in Hq. rewrite Hq. reflexivity.
  - unfold csvCell. intros ->. reflexivity.
Qed.

Lemma csvCell_read_back_witness :
  readCsvField (csvCell (Text "Taxi, airport")) = "Taxi, airport"
  /\ csvCell (Text "Lunch") = "Lunch".
Proof.
  split.
  - apply (proj1 (csvCell_read_back "Taxi, airport")).
  - apply (proj2 (csvCell_read_back "Lunch")). reflexivity.
Defined.

Lemma countChar_append c a b :
  countChar c (a +++ b) = countChar c a + countChar c b.
Proof.
  induction a as [|x a IH]; [reflexivity|]. simpl. rewrite IH. lia.
Qed.

Lemma countChar_concat_free c sep (l : list string) :
  countChar c sep = 0 ->
  Forall (fun s => countChar c s = 0) l ->
  countChar c (String.concat sep l) = 0.
Proof.
  intros Hsep. induction l as [|x l IH]; [reflexivity|].
  intros Hl. inversion Hl as [|? ? Hx Hl']; subst.
  destruct l as [|y l]; [exact Hx|].
  change (String.concat sep (x :: y :: l))
    with (x +++ sep +++ String.concat sep (y :: l)).
  rewrite !countChar_append, Hx, Hsep, (IH Hl'). reflexivity.
Qed.

Lemma countChar_lines (lines : list string) :
  Forall (fun s => countChar newline s = 0) lines ->
  countChar newline (String.concat (String newline EmptyString) lines)
  = pred (List.length lines).
Proof.
  induction lines as [|x l IH]; [reflexivity|].
  intros Hl. inversion Hl as [|? ? Hx Hl']; subst.
  destruct l as [|y l]; [exact Hx|].
  change (String.concat (String newline EmptyString) (x :: y :: l))
    with (x +++ String newline EmptyString
          +++ String.concat (String newline EmptyString) (y :: l)).
  rewrite !countChar_append, Hx, (IH Hl'). reflexivity.
Qed.

(** X27. One line per record: when no title and no written cell contains a
    line break, the CSV text has exactly as many line breaks as there are
    rows of data, that is a header line followed by one line for each
    row. *)
Theorem createCsvContent_lines (data : list (string -> Cell))
    (headers : list Header) :
  Forall (fun h => countChar newline (title h) = 0) headers ->
  Forall (fun row =>
            Forall (fun h => countChar newline (csvCell (row (headerId h))) = 0)
                   headers) data ->
  countChar newline (createCsvContent data headers) = List.length data.
Proof.
  intros Htitles Hcells. unfold createCsvContent.
  rewrite countChar_lines.
  - simpl. rewrite length_map. reflexivity.
  - constructor.
    + apply countChar_concat_free; [reflexivity|].
      apply Forall_map. exact Htitles.
    + apply Forall_map. eapply Forall_impl; [|exact Hcells].
      simpl. intros row Hrow.
      apply countChar_concat_free; [reflexivity|].
      apply Forall_map. exact Hrow.
Qed.

Lemma createCsvContent_lines_witness :
  countChar newline
    (createCsvContent
       [fun k => if k =? "id" then Text "e1" else Other "12.5";
        fun k => if k =? "id" then Text "e2, b" else Missing]
       [mkHeader "id" "ID"; mkHeader "amount" "Amount"])
  = 2.
Proof.
  apply (createCsvContent_lines
           [fun k => if k =? "id" then Text "e1" else Other "12.5";
            fun k => if k =? "id" then Text "e2, b" else Missing]
           [mkHeader "id" "ID"; mkHeader "amount" "Amount"]);
    repeat constructor.
Defined.

(* ===================================================================== *)
(** ** Front end: image addresses and the create form *)
(* ===================================================================== *)

Lemma prefix_http_localhost s :
  String.prefix "http" ("http://localhost:5001/" +++ s) = true.
Proof. reflexivity. Qed.

(** X28. [getImageUrl] applied to its own result changes nothing, in
    development and in production; and the address the create and edit
    routes store for a receipt ('/uploads/' and the file name) is served
    unchanged in production and from the back-end origin in development. *)
Theorem getImageUrl_idempotent (dev : bool) (imagePath : string) :
  getImageUrl dev (getImageUrl dev imagePath) = getImageUrl dev imagePath
  /\ forall filename,
       getImageUrl false ("/uploads/" +++ filename) = "/uploads/" +++ filename
       /\ getImageUrl true ("/uploads/" +++ filename)
          = "http://localhost:5001/uploads/" +++ filename.
Proof.
  split; [|intros filename; split; reflexivity].
  unfold getImageUrl at 2 3.
  destruct (imagePath =? "") eqn:He; [reflexivity|].
  destruct (String.prefix "http" imagePath) eqn:Hh.
  { unfold getImageUrl. rewrite He, Hh. reflexivity. }
  cbv zeta.
  destruct dev; [reflexivity|].
  destruct imagePath as [|c rest]; [discriminate|].
  destruct (Ascii.eqb c "/"%char) eqn:Hc.
  - apply Ascii.eqb_eq in Hc. subst c. clear He Hh.
    destruct rest as [|c rest]; reflexivity.
  - assert (Hp : String.prefix "/" (String c rest) = false).
    { change (String.prefix "/" (String c rest))
        with (if ascii_dec "/" c then String.prefix "" rest else false).
      destruct (ascii_dec "/" c) as [Heq|Hne]; [|reflexivity].
      subst c. discriminate. }
    rewrite Hp. reflexivity.
Qed.

Lemma refused_but_positive {P : Platform} val message :
  amountTransform val = Throw message ->
  message <> "Amount must be a positive number" ->
  (parseFloat val <=? 0)%float = false.
Proof.
  unfold amountTransform.
  destruct (PrimFloat.is_nan (parseFloat val) || (parseFloat val <=? 0)%float)
    eqn:Hfirst.
  - intros [= <-] Hm. exfalso. apply Hm. reflexivity.
  - intros _ _. apply orb_false_iff in Hfirst. tauto.
Qed.

(** X29. The create form lets through amounts the server refuses: a form
    whose amount the server's transform rejects as below 0.01 or above
    100000 still passes [validateForm] when it has a category, a date and no
    receipt above 5 MB, so it is submitted and refused only by the server. *)
Theorem validateForm_weaker_than_server {P : Platform}
    (formData : ExpenseForm.t) message :
  ExpenseForm.amount formData <> "" ->
  ExpenseForm.category formData <> "" ->
  ExpenseForm.date formData <> "" ->
  (forall size, ExpenseForm.receipt formData = Some size ->
                (size <= 5 * 1024 * 1024)%Z) ->
  amountTransform (ExpenseForm.amount formData) = Throw message ->
  message <> "Amount must be a positive number" ->
  validateForm formData = true.
Proof.
  intros Ha Hc Hd Hr Hthrow Hm.
  unfold validateForm, formErrors.
  apply String.eqb_neq in Ha, Hc, Hd.
  rewrite Ha, Hc, Hd, (refused_but_positive _ _ Hthrow Hm).
  destruct (ExpenseForm.receipt formData) as [size|]; [|reflexivity].
  specialize (Hr size eq_refl). apply Z.ltb_ge in Hr. rewrite Hr.
  reflexivity.
Qed.

Lemma validateForm_weaker_than_server_witness :
  validateForm (P := samplePlatform)
    (ExpenseForm.mk "200000" "TRAVEL" "2024-01-01" "" (Some 1024%Z)) = true.
Proof.
  apply (@validateForm_weaker_than_server samplePlatform
           (ExpenseForm.mk "200000" "TRAVEL" "2024-01-01" "" (Some 1024%Z))
           "Amount cannot exceed ₹100,000");
    try solve [discriminate | reflexivity].
  simpl. intros size [= <-]. lia.
Defined.

(* ===================================================================== *)
(** ** An administrator's own account *)
(* ===================================================================== *)

Lemma NoDup_map_injective {A B} (f : A -> B) (l : list A) x y :
  NoDup (map f l) -> In x l -> In y l -> f x = f y -> x = y.
Proof.
  induction l as [|z l IH]; simpl; [tauto|].
  intros Hnd Hx Hy Hf. inversion Hnd as [|? ? Hz Hnd']; subst.
  destruct Hx as [->|Hx], Hy as [->|Hy]; auto.
  - exfalso. apply Hz. rewrite Hf. apply in_map, Hy.
  - exfalso. apply Hz. rewrite <- Hf. apply in_map, Hx.
Qed.

Lemma own_email_free (l : list User.t) row :
  NoDup (map User.email l) ->
  In row l ->
  existsb (fun x => (User.email x =? User.email row)
                    && negb (User.id x =? User.id row)) l = false.
Proof.
  intros Hnd Hin.
  destruct (existsb _ l) eqn:He; [|reflexivity].
  apply existsb_exists in He as (x & Hx & Hb).
  apply andb_true_iff in Hb as [Hemail Hid].
  apply String.eqb_eq in Hemail.
  rewrite (NoDup_map_injective User.email l x row Hnd Hx Hin Hemail) in Hid.
  rewrite String.eqb_refl in Hid. discriminate.
Qed.

Lemma findBy_id_map (g : User.t -> User.t) id (l : list User.t) :
  (forall x, User.id (g x) = User.id x) ->
  findBy (fun x => User.id x =? id) (map g l)
  = option_map g (findBy (fun x => User.id x =? id) l).
Proof.
  intros Hg. unfold findBy. induction l as [|x l IH]; [reflexivity|].
  simpl. rewrite Hg. destruct (User.id x =? id); [reflexivity|exact IH].
Qed.

(** X30. Nothing stops an administrator from giving up the ADMIN role:
    unlike deletion, the update route has no guard for one's own account.
    The update of the caller's own role to EMPLOYEE is answered 200, after
    which the same token resolves to an EMPLOYEE and every administrator
    route answers it 403. *)
Theorem admin_can_demote_self {P : Platform} env db authorization u :
  callerOf env db authorization = Some u ->
  AuthUser.role u = ADMIN ->
  NoDup (map User.email (users db)) ->
  faults env UserRead = false ->
  faults env UserWrite = false ->
  faults env AuditWrite = false ->
  exists r db' u',
    handle env db authorization
      (UpdateUser (AuthUser.id u) (UserInput.mk None None None (Some "EMPLOYEE")))
    = (r, db')
    /\ statusCode r = 200
    /\ callerOf env db' authorization = Some u'
    /\ AuthUser.id u' = AuthUser.id u
    /\ AuthUser.role u' = EMPLOYEE
    /\ forall c, adminOnly c = true ->
                 handle env db' authorization c = (forbidden, db').
Proof.
  intros Hc Hr Hemails Hu Hw Ha.
  destruct (callerOf_stored env db authorization u Hc) as (row & Hrow & ->).
  simpl in *.
  pose proof (findBy_user_id _ _ _ Hrow) as Hid.
  assert (Hin : In row (users db)).
  { unfold findBy in Hrow. apply find_some in Hrow. tauto. }
  set (d := prisma_user.mkData (User.email row) (User.name row) EMPLOYEE None).
  set (g := fun x : User.t =>
              if User.id x =? User.id row then prisma_user.apply d x else x).
  set (a := AuditLog.mk (cuid (issued db)) "USER_UPDATED"
              ("User " +++ User.email row +++ " updated by admin")
              (now env) (User.id row)).
  set (db' := mkDb (map g (users db)) (expenses db) (auditLogs db ++ [a])
                   (S (issued db))).
  assert (Hg : forall x, User.id (g x) = User.id x).
  { intros x. unfold g. destruct (User.id x =? User.id row); reflexivity. }
  assert (Hc' : callerOf env db' authorization
                = Some (AuthUser_of (prisma_user.apply d row))).
  { unfold callerOf in *. destruct authorization as [token|]; [|discriminate].
    destruct (jwtVerify (now env) token) as [uid|]; [|discriminate].
    destruct (findBy (fun x => User.id x =? uid) (users db)) as [row'|] eqn:Hf;
      [|discriminate].
    apply (f_equal (option_map AuthUser.id)) in Hc. simpl in Hc.
    injection Hc as Hc.
    assert (Huid : uid = User.id row).
    { pose proof (findBy_user_id _ _ _ Hf). congruence. }
    clear Hf. rewrite Huid.
    unfold db'. simpl. rewrite (findBy_id_map g _ _ Hg), Hrow.
    simpl. unfold g. rewrite String.eqb_refl. reflexivity. }
  exists (json 200 (UserJson (Some "User updated successfully")
                      (AuthUser_of (prisma_user.apply d row)))),
         db', (AuthUser_of (prisma_user.apply d row)).
  split; [|split; [reflexivity|split; [exact Hc'|split; [reflexivity|split;
           [reflexivity|]]]]].
  - unfold handle, serve, router.
    rewrite (admin_caller env db authorization _ (AuthUser_of row) Hc Hr Hu).
    unfold validate, userUpdateSchema. simpl.
    unfold putUser. unfold_prisma. unfold_handlers.
    rewrite Hu, Hrow. simpl. rewrite Hw, Hrow.
    change (orElse None (User.email row)) with (User.email row).
    change (orElse None (User.name row)) with (User.name row).
    rewrite (own_email_free _ _ Hemails Hin). simpl. rewrite Ha.
    reflexivity.
  - intros c Hadm. unfold handle, serve, router.
    destruct c; try discriminate;
      rewrite (employee_refused env db' authorization _
                 (AuthUser_of (prisma_user.apply d row)) Hc' eq_refl Hu);
      reflexivity.
Qed.

Lemma admin_can_demote_self_witness :
  exists r db' u',
    handle (P := samplePlatform) sampleEnv sampleDb adminToken
      (UpdateUser "u_admin" (UserInput.mk None None None (Some "EMPLOYEE")))
    = (r, db')
    /\ statusCode r = 200
    /\ callerOf (P := samplePlatform) sampleEnv db' adminToken = Some u'
    /\ AuthUser.role u' = EMPLOYEE.
Proof.
  destruct (@admin_can_demote_self samplePlatform sampleEnv sampleDb adminToken
              (AuthUser_of admin) eq_refl eq_refl
              ltac:(simpl; repeat constructor; simpl; intuition discriminate)
              eq_refl eq_refl eq_refl)
    as (r & db' & u' & Hrun & H200 & Hc & _ & Hrole & _).
  exists r, db', u'. auto.
Defined.
